(** * API Gateway reconciliation modules: a shallow embedding

    Embedding of [plugins/modules/apigw_api_key.py],
    [plugins/modules/apigw_model.py] and [plugins/modules/apigw_stage.py],
    and of the hierarchical resource module as far as its specification and
    unit tests describe it.

    Python dictionaries are finite maps ([gmap string _]); the provider
    client (boto3) is an oracle whose answer may depend on the history of
    calls; every call is appended to a log, so "which provider calls were
    issued" is a property of the final log. *)

From stdpp Require Import gmap strings list fin_maps.
From Stdlib Require Import Ascii String.

Open Scope string_scope.
Open Scope list_scope.

(** ** Python values *)

(** The scalar values that reach the compared positions: the argument
    specs declare [str] and [bool] parameters (absent ones are [None]), and
    the provider returns JSON strings and booleans for the attributes the
    modules read. *)
Inductive pyval : Type :=
| PNone
| PBool (b : bool)
| PStr (s : string).

#[global] Instance pyval_eq_dec : EqDecision pyval.
Proof. solve_decision. Defined.

(** [str(v)] *)
Definition py_str (v : pyval) : string :=
  match v with
  | PNone => "None"
  | PBool true => "True"
  | PBool false => "False"
  | PStr s => s
  end.

(** [v is None] *)
Definition is_none (v : pyval) : bool :=
  match v with PNone => true | _ => false end.

(** [a == b] on scalars of these three kinds. *)
Definition py_eq (a b : pyval) : bool := bool_decide (a = b).

(** [d.get(k, None)] *)
Definition dict_get (d : gmap string pyval) (k : string) : pyval :=
  default PNone (d !! k).

(** [k in d] *)
Definition dict_has {A} (d : gmap string A) (k : string) : bool :=
  bool_decide (is_Some (d !! k)).

(** [pat in s] for strings *)
Fixpoint str_contains (pat s : string) : bool :=
  String.prefix pat s ||
  match s with
  | EmptyString => false
  | String _ s' => str_contains pat s'
  end.

(** [re.sub('/', '~1', s)] *)
Fixpoint sub_slash (s : string) : string :=
  match s with
  | EmptyString => EmptyString
  | String c s' =>
      if Ascii.eqb c "/"%char then String "~" (String "1" (sub_slash s'))
      else String c (sub_slash s')
  end.

(** A patch operation dictionary [{'op': _, 'path': _, 'value': _}]. *)
Record patch : Type := mk_patch { op : string; path : string; value : pyval }.

#[global] Instance patch_eq_dec : EqDecision patch.
Proof. solve_decision. Defined.

(** ** Provider objects *)

(** The observed stage: its scalar attributes, and the [methodSettings]
    dictionary (absent or a map from method key to a settings dictionary). *)
Record stage : Type := mk_stage {
  stage_attrs : gmap string pyval;
  methodSettings : option (gmap string (gmap string pyval))
}.

(** ** Exceptions, provider calls and the invocation monad *)

Inductive exn : Type :=
| BotoCoreError (msg : string)
| ClientError (response : string) (message : string)
    (* [response]: the text of [dumps(e.response)]; [message]: [str(e)] *)
| KeyError (key : string)
| AttributeError (class attribute : string)
    (* reading [attribute] on an object of [class] that has none *).

(** [str(e)] *)
Definition exn_str (e : exn) : string :=
  match e with
  | BotoCoreError m => m
  | ClientError _ m => m
  | KeyError k => "'" +:+ k +:+ "'"
  | AttributeError c a => "'" +:+ c +:+ "' object has no attribute '" +:+ a +:+ "'"
  end.

Inductive call : Type :=
| GetApiKeys (nameQuery : pyval) (includeValues : bool)
| DeleteApiKey (apiKey : pyval)
| CreateApiKey (args : gmap string pyval)
| UpdateApiKey (apiKey : pyval) (patchOperations : list patch)
| GetStage (restApiId stageName : pyval)
| DeleteStage (restApiId stageName : pyval)
| UpdateStage (restApiId stageName : pyval) (patchOperations : list patch)
| GetModel (restApiId modelName : pyval) (flatten : bool)
| DeleteModel (restApiId modelName : pyval)
| UpdateModel (restApiId modelName : pyval) (patchOperations : list patch)
| CreateModel (args : gmap string pyval)
| GetResources (restApiId : pyval) (limit : nat)
| CreateResource (restApiId parentId : pyval) (pathPart : string)
| DeleteResource (restApiId resourceId : pyval).

(** The calls that change provider state. *)
Definition mutating (c : call) : bool :=
  match c with
  | GetApiKeys _ _ | GetStage _ _ | GetModel _ _ _ | GetResources _ _ => false
  | _ => true
  end.

(** An entry of the provider's resource listing. *)
Record resource_item : Type := mk_item {
  item_id : pyval;
  item_parentId : option pyval;
  item_path : string
}.

(** The boto3 client: each method answers from the calls made so far, either
    with a value or by raising. *)
Record Client : Type := mk_client {
  get_api_keys : list call -> pyval -> bool -> exn + option (list (gmap string pyval));
      (* the ['items'] of the response, when the key is there *)
  delete_api_key : list call -> pyval -> exn + unit;
  create_api_key : list call -> gmap string pyval -> exn + gmap string pyval;
  update_api_key : list call -> pyval -> list patch -> exn + unit;
  get_stage : list call -> pyval -> pyval -> exn + stage;
  delete_stage : list call -> pyval -> pyval -> exn + unit;
  update_stage : list call -> pyval -> pyval -> list patch -> exn + unit;
  get_model : list call -> pyval -> pyval -> bool -> exn + gmap string pyval;
  delete_model : list call -> pyval -> pyval -> exn + unit;
  update_model : list call -> pyval -> pyval -> list patch -> exn + gmap string pyval;
  create_model : list call -> gmap string pyval -> exn + gmap string pyval;
  get_resources : list call -> pyval -> nat -> exn + list resource_item;
  create_resource : list call -> pyval -> pyval -> string -> exn + gmap string pyval;
  delete_resource : list call -> pyval -> pyval -> exn + unit
}.

(** How a piece of module code ends: normally, in [fail_json] (which ends the
    invocation), or with an exception still propagating. *)
Inductive outcome (A : Type) : Type :=
| Ret (a : A)
| FailJson (msg : string)
| Raised (e : exn).
Arguments Ret {A} a.
Arguments FailJson {A} msg.
Arguments Raised {A} e.

Definition M (A : Type) : Type := list call -> outcome A * list call.

Definition ret {A} (a : A) : M A := fun log => (Ret a, log).

Definition bind {A B} (m : M A) (k : A -> M B) : M B :=
  fun log =>
    match m log with
    | (Ret a, log') => k a log'
    | (FailJson msg, log') => (FailJson msg, log')
    | (Raised e, log') => (Raised e, log')
    end.

Definition fail_json {A} (msg : string) : M A := fun log => (FailJson msg, log).

Definition raise {A} (e : exn) : M A := fun log => (Raised e, log).

(** Issue provider call [c]; [answer] is the client method applied to its
    arguments. *)
Definition invoke {A} (c : call) (answer : list call -> exn + A) : M A :=
  fun log =>
    match answer log with
    | inr a => (Ret a, log ++ [c])
    | inl e => (Raised e, log ++ [c])
    end.

(** [try: body except ...: handler]; [handler e = None] when no [except]
    clause matches [e]. *)
Definition try_except {A} (body : M A) (handler : exn -> option (M A)) : M A :=
  fun log =>
    match body log with
    | (Raised e, log') =>
        match handler e with
        | Some h => h log'
        | None => (Raised e, log')
        end
    | r => r
    end.

(** [d[k]] *)
Definition getitem (d : gmap string pyval) (k : string) : M pyval :=
  match d !! k with
  | Some v => ret v
  | None => raise (KeyError k)
  end.

Declare Scope py_scope.
Delimit Scope py_scope with py.
Notation "x <- m ;; k" := (bind m (fun x => k))
  (at level 100, m at next level, right associativity) : py_scope.
Notation "m ;;; k" := (bind m (fun _ => k))
  (at level 100, right associativity) : py_scope.
Open Scope py_scope.

(** What [exit_json(changed=..., <object>=...)] reports. *)
Record exit (O : Type) : Type := mk_exit { changed : bool; object : option O }.
Arguments mk_exit {O} changed object.
Arguments changed {O} e.
Arguments object {O} e.

(** [params.get('state', 'present')] *)
Definition state_or_present (params : gmap string pyval) : pyval :=
  default (PStr "present") (params !! "state").

(** [self.module]: the parameter dictionary and the check-mode flag. *)
Record module : Type := mk_module {
  params : gmap string pyval;
  check_mode : bool
}.

(** ** apigw_api_key.py *)
Module ApiGwApiKey.
Section WithClient.
Variable client : Client.
Variable self_module : module.

(** The [for item in ...] loop of [_retrieve_api_key]: the last item whose
    name matches wins. *)
Fixpoint match_items (name : pyval) (items : list (gmap string pyval))
    (resp : option (gmap string pyval)) : M (option (gmap string pyval)) :=
  match items with
  | [] => ret resp
  | item :: rest =>
      n <- getitem item "name" ;;
      match_items name rest (if py_eq n name then Some item else resp)
  end.

Definition _retrieve_api_key : M (option (gmap string pyval)) :=
  try_except
    (name <- getitem (params self_module) "name" ;;
     get_resp <- invoke (GetApiKeys name true)
                   (fun log => get_api_keys client log name true) ;;
     match_items (dict_get (params self_module) "name") (default [] get_resp) None)
    (fun e =>
       match e with
       | BotoCoreError _ =>
           Some (fail_json ("Error when getting api_keys from boto3: " +:+ exn_str e))
       | _ => None
       end).

Definition _delete_api_key (me : gmap string pyval) : M bool :=
  try_except
    ((if negb (check_mode self_module)
      then id <- getitem me "id" ;;
           invoke (DeleteApiKey id) (fun log => delete_api_key client log id)
      else ret tt) ;;;
     ret true)
    (fun e =>
       match e with
       | BotoCoreError _ =>
           Some (fail_json ("Error when deleting api_key via boto3: " +:+ exn_str e))
       | _ => None
       end).

(** The argument dictionary built by [_create_api_key]. *)
Definition create_args (name : pyval) : gmap string pyval :=
  let args : gmap string pyval :=
    {[ "name" := name;
       "enabled" := default (PBool false) (params self_module !! "enabled");
       "generateDistinctId" :=
         default (PBool false) (params self_module !! "generate_distinct_id") ]} in
  foldl (fun (args : gmap string pyval) opt_field =>
           let v := dict_get (params self_module) opt_field in
           if negb (py_eq v PNone || py_eq v (PStr ""))
           then <[opt_field := v]> args
           else args)
        args ["description"; "value"].

Definition _create_api_key : M (bool * option (gmap string pyval)) :=
  try_except
    (if negb (check_mode self_module)
     then name <- getitem (params self_module) "name" ;;
          let args := create_args name in
          api_key <- invoke (CreateApiKey args)
                       (fun log => create_api_key client log args) ;;
          ret (true, Some api_key)
     else ret (true, None))
    (fun e =>
       match e with
       | BotoCoreError _ =>
           Some (fail_json ("Error when creating api_key via boto3: " +:+ exn_str e))
       | _ => None
       end).

(** The body of the loop of [_create_patches], for one [param]. *)
Definition patch_step (params me : gmap string pyval) (patches : list patch)
    (param : string) : list patch :=
  let ans_value := dict_get params param in
  if negb (is_none ans_value) &&
     match me !! param with
     | None => true
     | Some cur => negb (String.eqb (py_str ans_value) (py_str cur))
     end
  then
    if String.eqb param "description" && py_eq ans_value (PStr "") &&
       negb (dict_has me param)
    then patches
    else patches ++ [mk_patch "replace" ("/" +:+ param) (PStr (py_str ans_value))]
  else patches.

Definition _create_patches (params me : gmap string pyval) : list patch :=
  foldl (patch_step params me) [] ["enabled"; "description"].

Definition _update_api_key (me : gmap string pyval)
    : M (bool * option (gmap string pyval)) :=
  try_except
    (let patches := _create_patches (params self_module) me in
     match patches with
     | [] => ret (false, Some me)
     | _ :: _ =>
         if negb (check_mode self_module)
         then id <- getitem me "id" ;;
              invoke (UpdateApiKey id patches)
                (fun log => update_api_key client log id patches) ;;;
              api_key <- _retrieve_api_key ;;
              ret (true, api_key)
         else ret (true, Some me)
     end)
    (fun e =>
       match e with
       | BotoCoreError _ =>
           Some (fail_json ("Error when updating api_key via boto3: " +:+ exn_str e))
       | _ => None
       end).

Definition process_request : M (exit (gmap string pyval)) :=
  me <- _retrieve_api_key ;;
  let state := state_or_present (params self_module) in
  match me with
  | Some me' =>
      if py_eq state (PStr "absent")
      then changed <- _delete_api_key me' ;; ret (mk_exit changed None)
      else if py_eq state (PStr "present")
      then r <- _update_api_key me' ;; ret (mk_exit (fst r) (snd r))
      else ret (mk_exit false None)
  | None =>
      if py_eq state (PStr "present")
      then r <- _create_api_key ;; ret (mk_exit (fst r) (snd r))
      else ret (mk_exit false None)
  end.
End WithClient.
End ApiGwApiKey.

(** ** apigw_model.py *)
Module ApiGwModel.
Section WithClient.
Variable client : Client.
Variable self_module : module.

Definition _find_model : M (option (gmap string pyval)) :=
  try_except
    (let rest := dict_get (params self_module) "rest_api_id" in
     let name := dict_get (params self_module) "name" in
     m <- invoke (GetModel rest name true)
            (fun log => get_model client log rest name true) ;;
     ret (Some m))
    (fun e =>
       match e with
       | ClientError _ _ => Some (ret None)
       | _ => None
       end).

(** The handler reads [e.message]. The exceptions of Python 3 have no such
    attribute (botocore's [ClientError] defines [response] and
    [operation_name] only), and the repository's tests run on Python 3
    alone: reading it raises [AttributeError] inside the handler, before the
    test for ['NotFoundException'] and before [fail_json]. *)
Definition _delete_model : M unit :=
  if negb (check_mode self_module)
  then
    try_except
      (let rest := dict_get (params self_module) "rest_api_id" in
       let name := dict_get (params self_module) "name" in
       invoke (DeleteModel rest name) (fun log => delete_model client log rest name))
      (fun e =>
         match e with
         | ClientError _ _ =>
             Some (message <- raise (AttributeError "ClientError" "message") ;;
                   if str_contains "NotFoundException" message
                   then ret tt
                   else fail_json ("Error while deleting model: " +:+ exn_str e))
         | _ => None
         end)
  else ret tt.

Definition _patch_builder : list patch :=
  [ mk_patch "replace" "/schema" (dict_get (params self_module) "schema");
    mk_patch "replace" "/description" (dict_get (params self_module) "description") ].

Definition _update_model (model : gmap string pyval)
    : M (bool * option (gmap string pyval)) :=
  let description := dict_get model "description" in
  let moduleDescription := dict_get (params self_module) "description" in
  schema <- getitem model "schema" ;;
  if py_eq (dict_get (params self_module) "schema") schema &&
     py_eq description moduleDescription
  then ret (false, None)
  else if check_mode self_module
  then ret (true, None)
  else
    try_except
      (let patches := _patch_builder in
       let rest := dict_get (params self_module) "rest_api_id" in
       let name := dict_get (params self_module) "name" in
       response <- invoke (UpdateModel rest name patches)
                     (fun log => update_model client log rest name patches) ;;
       ret (true, Some response))
      (fun e =>
         match e with
         | ClientError _ _ =>
             Some (fail_json ("Error while updating model: " +:+ exn_str e))
         | _ => None
         end).

(** The argument dictionary built by [_create_model]. *)
Definition create_args : gmap string pyval :=
  {[ "restApiId" := dict_get (params self_module) "rest_api_id";
     "name" := dict_get (params self_module) "name";
     "contentType" := dict_get (params self_module) "content_type";
     "schema" := dict_get (params self_module) "schema";
     "description" := dict_get (params self_module) "description" ]}.

Definition _create_model : M (bool * option (gmap string pyval)) :=
  if check_mode self_module
  then ret (true, None)
  else
    let args := create_args in
    try_except
      (response <- invoke (CreateModel args)
                     (fun log => create_model client log args) ;;
       ret (true, Some response))
      (fun e =>
         match e with
         | ClientError _ _ =>
             Some (fail_json ("Error while creating model: " +:+ exn_str e))
         | _ => None
         end).

Definition process_request : M (exit (gmap string pyval)) :=
  model <- _find_model ;;
  let state := dict_get (params self_module) "state" in
  match model with
  | None =>
      if py_eq state (PStr "absent")
      then ret (mk_exit false None)
      else r <- _create_model ;; ret (mk_exit (fst r) (snd r))
  | Some model' =>
      if py_eq state (PStr "absent")
      then _delete_model ;;; ret (mk_exit true None)
      else r <- _update_model model' ;; ret (mk_exit (fst r) (snd r))
  end.
End WithClient.
End ApiGwModel.

(** ** apigw_stage.py *)
Module ApiGwStage.

(** One entry of the [method_settings] parameter; [caching_enabled] is
    [None] when the entry has no such key. *)
Record method_setting : Type := mk_method_setting {
  method_name : string;
  method_verb : string;
  caching_enabled : option pyval
}.

(** [self.module] of the stage module: the scalar parameters, the
    [method_settings] list ([None] when the key is missing) and the
    check-mode flag. *)
Record stage_module : Type := mk_stage_module {
  sparams : gmap string pyval;
  method_settings : option (list method_setting);
  scheck_mode : bool
}.

(** The keyword arguments of [update_stage]. *)
Record patch_args : Type := mk_patch_args {
  restApiId : pyval;
  stageName : pyval;
  patchOperations : list patch
}.

Definition create_patch (path : string) (value : pyval) : patch :=
  mk_patch "replace" ("/" +:+ path) (PStr (py_str value)).

Definition arg_map : list (string * string) :=
  [ ("description", "description");
    ("cache_cluster_enabled", "cacheClusterEnabled");
    ("cache_cluster_size", "cacheClusterSize") ].

(** The body of the first loop of [build_patch_args], for one pair of
    [arg_map]. *)
Definition attr_step (stage params : gmap string pyval) (patches : list patch)
    (names : string * string) : list patch :=
  let '(ans_param, boto_param) := names in
  match params !! ans_param with
  | Some v =>
      if negb (is_none v) then
        match stage !! boto_param with
        | Some cur =>
            if String.eqb (py_str v) (py_str cur)
            then patches
            else patches ++ [create_patch boto_param v]
        | None => patches ++ [create_patch boto_param v]
        end
      else patches
  | None => patches
  end.

(** The first loop of [build_patch_args]. *)
Definition attr_patches (stage params : gmap string pyval) : list patch :=
  foldl (attr_step stage params) [] arg_map.

(** [method_key] of an entry. *)
Definition method_key (m : method_setting) : string :=
  sub_slash (method_name m) +:+ "/" +:+ method_verb m.

(** The second loop of [build_patch_args], appending to [patches]. *)
Fixpoint method_patches (stg_methods : gmap string (gmap string pyval))
    (ms : list method_setting) (patches : list patch) : exn + list patch :=
  match ms with
  | [] => inr patches
  | m :: rest =>
      let want := default (PBool false) (caching_enabled m) in
      let emit := patches ++ [create_patch (method_key m +:+ "/caching/enabled") want] in
      match stg_methods !! method_key m with
      | None => method_patches stg_methods rest emit
      | Some entry =>
          match entry !! "cachingEnabled" with
          | None => inl (KeyError "cachingEnabled")
          | Some cur =>
              if negb (String.eqb (py_str cur) (py_str want))
              then method_patches stg_methods rest emit
              else method_patches stg_methods rest patches
          end
      end
  end.

Definition build_patch_args (stage : option stage) (m : stage_module)
    : exn + option patch_args :=
  let stage := default (mk_stage ∅ None) stage in
  let stg_methods := default ∅ (methodSettings stage) in
  let patches := attr_patches (stage_attrs stage) (sparams m) in
  match method_patches stg_methods (default [] (method_settings m)) patches with
  | inl e => inl e
  | inr [] => inr None
  | inr (p :: ps) =>
      match sparams m !! "rest_api_id" with
      | None => inl (KeyError "rest_api_id")
      | Some rest =>
          match sparams m !! "name" with
          | None => inl (KeyError "name")
          | Some name => inr (Some (mk_patch_args rest name (p :: ps)))
          end
      end
  end.

Section WithClient.
Variable client : Client.
Variable self_module : stage_module.

Definition _find_stage : M (option stage) :=
  try_except
    (let rest := dict_get (sparams self_module) "rest_api_id" in
     let name := dict_get (sparams self_module) "name" in
     s <- invoke (GetStage rest name) (fun log => get_stage client log rest name) ;;
     ret (Some s))
    (fun e =>
       match e with
       | ClientError response _ =>
           Some (if str_contains "NotFoundException" response
                 then ret None
                 else fail_json ("Error while finding stage via boto3: " +:+ exn_str e))
       | BotoCoreError _ =>
           Some (fail_json ("Error while finding stage via boto3: " +:+ exn_str e))
       | _ => None
       end).

Definition _delete_stage : M bool :=
  if negb (scheck_mode self_module)
  then
    try_except
      (let rest := dict_get (sparams self_module) "rest_api_id" in
       let name := dict_get (sparams self_module) "name" in
       invoke (DeleteStage rest name) (fun log => delete_stage client log rest name) ;;;
       ret true)
      (fun e =>
         match e with
         | BotoCoreError _ =>
             Some (fail_json ("Error while deleting stage via boto3: " +:+ exn_str e))
         | _ => None
         end)
  else ret false.

Definition _update_stage (self_stage : option stage) : M (bool * option stage) :=
  match build_patch_args self_stage self_module with
  | inl e => raise e
  | inr None => ret (false, None)
  | inr (Some args) =>
      try_except
        (if negb (scheck_mode self_module)
         then
           invoke (UpdateStage (restApiId args) (stageName args) (patchOperations args))
             (fun log => update_stage client log (restApiId args) (stageName args)
                           (patchOperations args)) ;;;
           let rest := dict_get (sparams self_module) "rest_api_id" in
           let name := dict_get (sparams self_module) "name" in
           result <- invoke (GetStage rest name)
                       (fun log => get_stage client log rest name) ;;
           ret (true, Some result)
         else ret (true, None))
        (fun e =>
           match e with
           | BotoCoreError _ =>
               Some (fail_json ("Error while updating stage via boto3: " +:+ exn_str e))
           | _ => None
           end)
  end.

Definition process_request : M (exit stage) :=
  stage <- _find_stage ;;
  let state := state_or_present (sparams self_module) in
  if bool_decide (is_Some stage) && py_eq state (PStr "absent")
  then changed <- _delete_stage ;; ret (mk_exit changed None)
  else if py_eq state (PStr "present")
  then r <- _update_stage stage ;; ret (mk_exit (fst r) (snd r))
  else ret (mk_exit false None).
End WithClient.
End ApiGwStage.

(** ** The hierarchical resource module *)
Module ApiGwResource.

(** Modelled from the spec: [self.module] of the resource module, with the
    parameters of its schema: [name] is the full slash path; [rstate] is
    [None] when the parameter dictionary has no [state]. *)
Record resource_module : Type := mk_resource_module {
  rname : string;
  rest_api_id : pyval;
  rstate : option pyval;
  rcheck_mode : bool
}.

(** Modelled from the spec: splitting the requested path on ['/'], as
    [s.split('/')] does; [cur] is the segment being read. *)
Fixpoint split_slash_aux (s cur : string) : list string :=
  match s with
  | EmptyString => [cur]
  | String c s' =>
      if Ascii.eqb c "/"%char then cur :: split_slash_aux s' ""
      else split_slash_aux s' (cur +:+ String c "")
  end.

(** Modelled from the spec: the segments of a slash path, the non-empty
    pieces between slashes. *)
Definition segments (name : string) : list string :=
  filter (fun s => s ≠ "") (split_slash_aux name "").

(** Modelled from the spec: ['/'.join(segs)]. *)
Fixpoint join_slash (segs : list string) : string :=
  match segs with
  | [] => ""
  | [s] => s
  | s :: rest => s +:+ "/" +:+ join_slash rest
  end.

(** Modelled from the spec: the path made of the first [k] segments. *)
Definition prefix_path (segs : list string) (k : nat) : string :=
  "/" +:+ join_slash (take k segs).

(** Modelled from the spec: [plugins/modules/apigw_resource.py] is not in
    the source tree (only its unit tests are). The longest existing prefix
    of the requested path, searched from [k] segments downwards: the number
    of leading segments whose path is in the map. *)
Fixpoint longest_prefix (paths : gmap string (gmap string pyval))
    (segs : list string) (k : nat) : option nat :=
  if dict_has paths (prefix_path segs k) then Some k
  else match k with
       | O => None
       | S k' => longest_prefix paths segs k'
       end.

(** Modelled from the spec: the dictionary stored for a listed resource,
    [{'id': _, 'parentId': _}] (no [parentId] for the root), as the unit
    test of the dictionary builder expects it. *)
Definition entry_of (it : resource_item) : gmap string pyval :=
  match item_parentId it with
  | Some p => {[ "id" := item_id it; "parentId" := p ]}
  | None => {[ "id" := item_id it ]}
  end.

Section WithClient.
Variable client : Client.
Variable self_module : resource_module.

(** Modelled from the spec: [ApiGwResource._build_resource_dictionary],
    which flattens the provider's full listing into a mapping from path
    string to [{id, parent id}]. *)
Definition _build_resource_dictionary : M (gmap string (gmap string pyval)) :=
  try_except
    (items <- invoke (GetResources (rest_api_id self_module) 500)
                (fun log => get_resources client log (rest_api_id self_module) 500) ;;
     ret (foldl (fun (paths : gmap string (gmap string pyval)) it =>
                   <[item_path it := entry_of it]> paths) ∅ items))
    (fun e =>
       match e with
       | BotoCoreError _ =>
           Some (fail_json ("Error calling boto3 get_resources: " +:+ exn_str e))
       | _ => None
       end).

(** Modelled from the spec: the sequential creates of the path-tree
    builder. One create call per remaining segment, in order; the parent of
    each is the id of [prev], the object obtained just before (the deepest
    existing ancestor for the first); the last object is the result. *)
Fixpoint create_chain (prev : gmap string pyval) (segs : list string)
    : M (gmap string pyval) :=
  match segs with
  | [] => ret prev
  | part :: more =>
      parent <- getitem prev "id" ;;
      resp <- invoke (CreateResource (rest_api_id self_module) parent part)
                (fun log => create_resource client log (rest_api_id self_module) parent part) ;;
      create_chain resp more
  end.

(** Modelled from the spec: [ApiGwResource._create_resource], the
    present-desired branch. If the full path exists the existing leaf is
    returned unchanged; otherwise the trailing segments beyond the longest
    existing prefix are created (skipped under check mode). *)
Definition _create_resource (paths : gmap string (gmap string pyval))
    : M (bool * option (gmap string pyval)) :=
  let segs := segments (rname self_module) in
  match longest_prefix paths segs (List.length segs) with
  | None => raise (KeyError "/")
  | Some k =>
      match paths !! prefix_path segs k with
      | None => raise (KeyError (prefix_path segs k))
      | Some ancestor =>
          if bool_decide (k = List.length segs)
          then ret (false, Some (<["path" := PStr (prefix_path segs k)]> ancestor))
          else if rcheck_mode self_module
          then ret (true, None)
          else
            try_except
              (r <- create_chain ancestor (drop k segs) ;; ret (true, Some r))
              (fun e =>
                 match e with
                 | BotoCoreError _ =>
                     Some (fail_json ("Error calling boto3 create_resource: " +:+ exn_str e))
                 | _ => None
                 end)
      end
  end.

(** Modelled from the spec: [ApiGwResource._delete_resource], the
    absent-desired branch. *)
Definition _delete_resource (paths : gmap string (gmap string pyval)) : M bool :=
  let segs := segments (rname self_module) in
  match paths !! prefix_path segs (List.length segs) with
  | None => ret false
  | Some leaf =>
      if rcheck_mode self_module then ret true
      else
        try_except
          (id <- getitem leaf "id" ;;
           invoke (DeleteResource (rest_api_id self_module) id)
             (fun log => delete_resource client log (rest_api_id self_module) id) ;;;
           ret true)
          (fun e =>
             match e with
             | BotoCoreError _ =>
                 Some (fail_json ("Error calling boto3 delete_resource: " +:+ exn_str e))
             | _ => None
             end)
  end.

(** Modelled from the spec: [ApiGwResource.process_request]. *)
Definition process_request : M (exit (gmap string pyval)) :=
  paths <- _build_resource_dictionary ;;
  if py_eq (default (PStr "present") (rstate self_module)) (PStr "absent")
  then changed <- _delete_resource paths ;; ret (mk_exit changed None)
  else r <- _create_resource paths ;; ret (mk_exit (fst r) (snd r)).
End WithClient.
End ApiGwResource.

(** ** The stage diff rules in the specification's words
    To be compared with [ApiGwStage.method_patches] and
    [ApiGwStage.build_patch_args]. *)
Module StageSpec.
Import ApiGwStage.

(** The composite key of an entry: every ['/'] of the method name replaced
    by ['~1'], then ['/'] and the verb. *)
Definition composite_key (m : method_setting) : string :=
  sub_slash (method_name m) +:+ "/" +:+ method_verb m.

(** The replace operation on the caching flag of an entry. *)
Definition caching_patch (m : method_setting) : patch :=
  {| op := "replace";
     path := "/" +:+ composite_key m +:+ "/caching/enabled";
     value := PStr (py_str (default (PBool false) (caching_enabled m))) |}.

(** The method-setting rule: exactly one replace operation when the key is
    absent from the observed map or the stringified flags differ, none
    otherwise. *)
Definition method_patch_spec (stg_methods : gmap string (gmap string pyval))
    (m : method_setting) : list patch :=
  match stg_methods !! composite_key m with
  | None => [caching_patch m]
  | Some entry =>
      if bool_decide (py_str (dict_get entry "cachingEnabled") =
                      py_str (default (PBool false) (caching_enabled m)))
      then []
      else [caching_patch m]
  end.

(** A parameter counts as supplied when it is in the dictionary with a value
    other than [None]. *)
Definition supplied (ps : gmap string pyval) (k : string) : Prop :=
  exists v, ps !! k = Some v /\ v <> PNone.

(** The patch of a supplied parameter against a stage without that
    attribute. *)
Definition supplied_patch (ps : gmap string pyval) (names : string * string)
    : list patch :=
  match ps !! fst names with
  | Some PNone | None => []
  | Some v => [{| op := "replace"; path := "/" +:+ snd names;
                  value := PStr (py_str v) |}]
  end.

(** The patch list against an empty observed mapping: one operation per
    supplied parameter, then one per method-settings entry. *)
Definition patches_against_nothing (m : stage_module) : list patch :=
  flat_map (supplied_patch (sparams m)) arg_map ++
  map caching_patch (default [] (method_settings m)).
End StageSpec.

(** The model module's test for "nothing to update", on an observed model
    whose schema is [schema]: the desired schema and description equal the
    observed ones (a description missing on either side counts as [None]). *)
Definition model_unchanged (m : module) (model : gmap string pyval)
    (schema : pyval) : Prop :=
  dict_get (params m) "schema" = schema /\
  dict_get model "description" = dict_get (params m) "description".

(** The create calls of a path-tree chain, as the specification describes
    them: one per segment, in order; the parents are the id of the deepest
    existing ancestor, then the ids of the successive responses. *)
Definition chain_calls (rest : pyval) (pid : pyval)
    (resps : list (gmap string pyval)) (segs : list string) : list call :=
  zip_with (fun parent part => CreateResource rest parent part)
    (pid :: map (fun r => dict_get r "id") resps) segs.

(** ** Properties of invocations *)

(** [m] only issues read calls: whatever the log it starts from, it only
    appends to it, and the calls it appends are all non-mutating. *)
Definition only_reads {A} (m : M A) : Prop :=
  forall log, exists extra,
    snd (m log) = log ++ extra /\ Forall (fun c => mutating c = false) extra.

(** No exception satisfying [P] propagates out of [m]. *)
Definition never_raises {A} (P : exn -> Prop) (m : M A) : Prop :=
  forall log e, fst (m log) = Raised e -> ~ P e.

Definition is_boto_core_error (e : exn) : Prop := exists msg, e = BotoCoreError msg.

Definition is_client_error (e : exn) : Prop :=
  exists response message, e = ClientError response message.

(** The exception, if any, with which a client method answered. *)
Definition error_of {A} (answer : exn + A) : option exn :=
  match answer with
  | inl e => Some e
  | inr _ => None
  end.

(** The exception, if any, with which the provider answers call [c] after
    the history [log]. *)
Definition raised_by (client : Client) (log : list call) (c : call) : option exn :=
  match c with
  | GetApiKeys n b => error_of (get_api_keys client log n b)
  | DeleteApiKey k => error_of (delete_api_key client log k)
  | CreateApiKey a => error_of (create_api_key client log a)
  | UpdateApiKey k ps => error_of (update_api_key client log k ps)
  | GetStage r n => error_of (get_stage client log r n)
  | DeleteStage r n => error_of (delete_stage client log r n)
  | UpdateStage r n ps => error_of (update_stage client log r n ps)
  | GetModel r n f => error_of (get_model client log r n f)
  | DeleteModel r n => error_of (delete_model client log r n)
  | UpdateModel r n ps => error_of (update_model client log r n ps)
  | CreateModel a => error_of (create_model client log a)
  | GetResources r l => error_of (get_resources client log r l)
  | CreateResource r parent part => error_of (create_resource client log r parent part)
  | DeleteResource r i => error_of (delete_resource client log r i)
  end.

(** The text with which the api_key module reports a BotoCoreError of call
    [c]: that of the [try] block the call sits in. *)
Definition api_key_failure_text (c : call) : string :=
  match c with
  | GetApiKeys _ _ => "Error when getting api_keys from boto3: "
  | DeleteApiKey _ => "Error when deleting api_key via boto3: "
  | CreateApiKey _ => "Error when creating api_key via boto3: "
  | UpdateApiKey _ _ => "Error when updating api_key via boto3: "
  | _ => ""
  end.

(** The text with which the stage module reports a BotoCoreError of call
    [c], issued after the calls [before] of the same invocation: the stage
    lookup that opens the invocation is reported as finding, the re-fetch
    that follows an update as updating. *)
Definition stage_failure_text (before : list call) (c : call) : string :=
  match c with
  | GetStage _ _ =>
      match before with
      | [] => "Error while finding stage via boto3: "
      | _ :: _ => "Error while updating stage via boto3: "
      end
  | DeleteStage _ _ => "Error while deleting stage via boto3: "
  | UpdateStage _ _ _ => "Error while updating stage via boto3: "
  | _ => ""
  end.

(** How the model module ends when the provider answers call [c] with a
    ClientError of text [message]: a refused delete_model ends in the
    AttributeError of its handler, a refused update_model or create_model in
    fail_json. A refused get_model is not listed: the lookup takes it for a
    missing model and the invocation goes on. *)
Definition model_client_error_outcome {A} (c : call) (message : string)
    : option (outcome A) :=
  match c with
  | DeleteModel _ _ => Some (Raised (AttributeError "ClientError" "message"))
  | UpdateModel _ _ _ => Some (FailJson ("Error while updating model: " +:+ message))
  | CreateModel _ => Some (FailJson ("Error while creating model: " +:+ message))
  | _ => None
  end.

(** ** Concrete providers and inputs

    Used to run the modules on explicit scenarios. *)
Module Fixtures.

(** A provider whose lookups answer [keys], [st] and [mdl] whatever the
    history, and whose mutating calls all succeed; a created resource gets
    the id [<pathPart>_id]. *)
Definition provider (keys : exn + option (list (gmap string pyval)))
    (st : exn + stage) (mdl : exn + gmap string pyval) : Client :=
  {| get_api_keys := fun _ _ _ => keys;
     delete_api_key := fun _ _ => inr tt;
     create_api_key := fun _ args => inr (<["id" := PStr "new_key"]> args);
     update_api_key := fun _ _ _ => inr tt;
     get_stage := fun _ _ _ => st;
     delete_stage := fun _ _ _ => inr tt;
     update_stage := fun _ _ _ _ => inr tt;
     get_model := fun _ _ _ _ => mdl;
     delete_model := fun _ _ _ => inr tt;
     update_model := fun _ _ _ _ => inr {[ "id" := PStr "updated_model" ]};
     create_model := fun _ args => inr (<["id" := PStr "new_model"]> args);
     get_resources := fun _ _ _ => inr [];
     create_resource := fun _ _ _ part =>
       inr {[ "id" := PStr (part +:+ "_id"); "pathPart" := PStr part ]};
     delete_resource := fun _ _ _ => inr tt |}.

Definition not_found : exn :=
  ClientError "Error: Code: NotFoundException" "An error occurred (NotFoundException)".

Definition access_denied : exn :=
  ClientError "Error: Code: AccessDeniedException"
              "An error occurred (AccessDeniedException)".

(** A stage [dev] without description and without method settings. *)
Definition dev_stage : stage := mk_stage {[ "stageName" := PStr "dev" ]} None.

(** An API key as the provider lists it when its description is empty. *)
Definition key_testify : gmap string pyval :=
  {[ "name" := PStr "testify"; "enabled" := PBool true; "id" := PStr "ab12345";
     "value" := PStr "secret" ]}.

Definition model_pdf : gmap string pyval :=
  {[ "name" := PStr "Model"; "id" := PStr "m1"; "schema" := PStr "{}";
     "description" := PStr "old" ]}.

(** Provider with the stage, the key and the model above present. *)
Definition present_client : Client :=
  provider (inr (Some [key_testify])) (inr dev_stage) (inr model_pdf).

(** Provider on which nothing is found. *)
Definition empty_client : Client :=
  provider (inr (Some [])) (inl not_found) (inl not_found).

(** Provider on which the caller may not read models. *)
Definition denied_client : Client :=
  provider (inr (Some [])) (inl access_denied) (inl access_denied).

Definition stage_params (state : string) : gmap string pyval :=
  {[ "rest_api_id" := PStr "api"; "name" := PStr "dev"; "state" := PStr state ]}.

(** The stage module asked to remove stage [dev]. *)
Definition stage_absent (check : bool) : ApiGwStage.stage_module :=
  ApiGwStage.mk_stage_module (stage_params "absent") (Some []) check.

(** The stage module asked for stage [dev] with an empty description. *)
Definition stage_empty_description (check : bool) : ApiGwStage.stage_module :=
  ApiGwStage.mk_stage_module (<["description" := PStr ""]> (stage_params "present"))
    (Some []) check.

(** The stage module asked for stage [dev] with nothing to change. *)
Definition stage_nothing (check : bool) : ApiGwStage.stage_module :=
  ApiGwStage.mk_stage_module (stage_params "present") (Some []) check.

(** The method-setting scenario: caching off for [PUT /test]. *)
Definition stage_put_test (check : bool) : ApiGwStage.stage_module :=
  ApiGwStage.mk_stage_module (stage_params "present")
    (Some [ApiGwStage.mk_method_setting "/test" "PUT" (Some (PBool false))]) check.

(** The model module with the schema of [model_pdf] and a new description. *)
Definition model_new_description (check : bool) : module :=
  mk_module {[ "rest_api_id" := PStr "api"; "name" := PStr "Model";
               "content_type" := PNone; "schema" := PStr "{}";
               "description" := PStr "new"; "state" := PStr "present" ]} check.

(** The model module with the argument-spec defaults: empty description. *)
Definition model_defaults (check : bool) : module :=
  mk_module {[ "rest_api_id" := PStr "api"; "name" := PStr "Model";
               "content_type" := PStr "application/pdf"; "schema" := PStr "{}";
               "description" := PStr ""; "state" := PStr "present" ]} check.

(** The API key module asked for key [testify], with a new value and an
    empty description. *)
Definition key_params : gmap string pyval :=
  {[ "name" := PStr "testify"; "description" := PStr ""; "value" := PStr "other";
     "enabled" := PBool false; "generate_distinct_id" := PBool true;
     "state" := PStr "present" ]}.

Definition key_module (check : bool) : module := mk_module key_params check.

(** The resource module asked for [/a/b]. *)
Definition resource_a_b (check : bool) : ApiGwResource.resource_module :=
  ApiGwResource.mk_resource_module "/a/b" (PStr "api") None check.

Definition root_only : gmap string (gmap string pyval) :=
  {[ "/" := {[ "id" := PStr "root" ]} ]}.

(** The resource module asked for [/res1/{param}/res2]. *)
Definition resource_res2 (check : bool) : ApiGwResource.resource_module :=
  ApiGwResource.mk_resource_module "/res1/{param}/res2" (PStr "api") None check.

Definition with_res1 : gmap string (gmap string pyval) :=
  {[ "/" := {[ "id" := PStr "root" ]};
     "/res1" := {[ "id" := PStr "abc"; "parentId" := PStr "root" ]} ]}.

Definition with_a_b : gmap string (gmap string pyval) :=
  {[ "/" := {[ "id" := PStr "root" ]};
     "/a" := {[ "id" := PStr "ida"; "parentId" := PStr "root" ]};
     "/a/b" := {[ "id" := PStr "idb"; "parentId" := PStr "ida" ]} ]}.
(** A provider whose lookups answer [keys], [st] and [mdl] and whose mutating
    calls all raise [e]. *)
Definition refusing_provider (keys : exn + option (list (gmap string pyval)))
    (st : exn + stage) (mdl : exn + gmap string pyval) (e : exn) : Client :=
  {| get_api_keys := fun _ _ _ => keys;
     delete_api_key := fun _ _ => inl e;
     create_api_key := fun _ _ => inl e;
     update_api_key := fun _ _ _ => inl e;
     get_stage := fun _ _ _ => st;
     delete_stage := fun _ _ _ => inl e;
     update_stage := fun _ _ _ _ => inl e;
     get_model := fun _ _ _ _ => mdl;
     delete_model := fun _ _ _ => inl e;
     update_model := fun _ _ _ _ => inl e;
     create_model := fun _ _ => inl e;
     get_resources := fun _ _ _ => inr [];
     create_resource := fun _ _ _ _ => inl e;
     delete_resource := fun _ _ _ => inl e |}.

(** A provider on which stage [dev] does not exist: looking it up and
    updating it are both answered with a not-found error. *)
Definition no_stage_client : Client :=
  refusing_provider (inr (Some [])) (inl not_found) (inl not_found) not_found.

(** Provider whose every lookup fails in transport. *)
Definition offline_client : Client :=
  provider (inl (BotoCoreError "An unspecified error occurred"))
           (inl (BotoCoreError "An unspecified error occurred"))
           (inl (BotoCoreError "An unspecified error occurred")).

(** A listing in which two keys carry the asked name and one only starts
    with it. *)
Definition key_listing : list (gmap string pyval) :=
  [ {[ "name" := PStr "testify"; "id" := PStr "first" ]};
    {[ "name" := PStr "testify2"; "id" := PStr "other" ]};
    {[ "name" := PStr "testify"; "id" := PStr "second" ]} ].

(** A stage [dev] that already has the description [d] and a method entry
    for [PUT /test] with caching [flag]. *)
Definition stage_with (d : string) (flag : bool) : stage :=
  mk_stage {[ "stageName" := PStr "dev"; "description" := PStr d ]}
    (Some {[ "~1test/PUT" := {[ "cachingEnabled" := PBool flag ]} ]}).

(** The stage module asked for description [d] and caching [flag] on
    [PUT /test]. *)
Definition stage_wanting (d : string) (flag : bool) (check : bool)
    : ApiGwStage.stage_module :=
  ApiGwStage.mk_stage_module (<["description" := PStr d]> (stage_params "present"))
    (Some [ApiGwStage.mk_method_setting "/test" "PUT" (Some (PBool flag))]) check.

(** The model module asked to remove model [Model]. *)
Definition model_absent (check : bool) : module :=
  mk_module {[ "rest_api_id" := PStr "api"; "name" := PStr "Model";
               "description" := PStr ""; "state" := PStr "absent" ]} check.

(** A model as the provider returns it when its description is empty. *)
Definition model_no_description : gmap string pyval :=
  {[ "name" := PStr "Model"; "schema" := PStr "{}" ]}.

(** The API key module asked to remove key [testify]. *)
Definition key_absent (check : bool) : module :=
  mk_module {[ "name" := PStr "testify"; "state" := PStr "absent" ]} check.
(** A provider on which stage [dev] exists and can be updated, but whose
    stage lookup times out once anything has been changed. *)
Definition refetch_timeout_client : Client :=
  {| get_api_keys := fun _ _ _ => inr (Some []);
     delete_api_key := fun _ _ => inr tt;
     create_api_key := fun _ args => inr args;
     update_api_key := fun _ _ _ => inr tt;
     get_stage := fun log _ _ =>
       if existsb mutating log then inl (BotoCoreError "timed out") else inr dev_stage;
     delete_stage := fun _ _ _ => inr tt;
     update_stage := fun _ _ _ _ => inr tt;
     get_model := fun _ _ _ _ => inl not_found;
     delete_model := fun _ _ _ => inr tt;
     update_model := fun _ _ _ _ => inr ∅;
     create_model := fun _ args => inr args;
     get_resources := fun _ _ _ => inr [];
     create_resource := fun _ _ _ _ => inr ∅;
     delete_resource := fun _ _ _ => inr tt |}.
End Fixtures.

(** * Properties of the modules *)

(** ** The API key diff builder and update path *)

Section ApiKeyDiff.
Import ApiGwApiKey.

Lemma patch_step_app (params me : gmap string pyval) patches param :
  patch_step params me patches param = patches ++ patch_step params me [] param.
Proof.
  unfold patch_step.
  repeat case_match; rewrite ?app_nil_r; reflexivity.
Qed.

Lemma create_patches_split (params me : gmap string pyval) :
  _create_patches params me =
  patch_step params me [] "enabled" ++ patch_step params me [] "description".
Proof.
  unfold _create_patches. cbn [foldl]. apply patch_step_app.
Qed.

Lemma patch_step_elem (params me : gmap string pyval) param p :
  p ∈ patch_step params me [] param ->
  exists v,
    params !! param = Some v /\ v <> PNone /\
    p = mk_patch "replace" ("/" +:+ param) (PStr (py_str v)) /\
    (me !! param = None \/ exists cur, me !! param = Some cur /\ py_str v <> py_str cur).
Proof.
  unfold patch_step, dict_get. intros Hin.
  destruct (params !! param) as [v|] eqn:Hv; cbn [default] in Hin;
    [|cbn in Hin; inversion Hin].
  destruct v as [|b|s]; cbn [is_none negb andb] in Hin; try (inversion Hin; fail).
  all: destruct (me !! param) as [cur|] eqn:Hc.
  all: repeat case_match; cbn [app] in Hin; try (inversion Hin; fail).
  all: apply list_elem_of_singleton in Hin; subst p.
  all: eexists; split; [reflexivity|]; split; [discriminate|]; split; [reflexivity|].
  all: try (left; reflexivity).
  all: right; exists cur; split; [reflexivity|].
  all: match goal with H : _ && negb (_ =? _)%string = true |- _ =>
         cbn in H; apply negb_true_iff, String.eqb_neq in H; exact H end.
Qed.

Lemma patch_step_frame_params (params me : gmap string pyval) k v param :
  k <> param ->
  patch_step (<[k:=v]> params) me [] param = patch_step params me [] param.
Proof.
  intros Hne. unfold patch_step, dict_get. rewrite lookup_insert_ne by exact Hne.
  reflexivity.
Qed.

Lemma patch_step_frame_me (params me : gmap string pyval) k v param :
  k <> param ->
  patch_step params (<[k:=v]> me) [] param = patch_step params me [] param.
Proof.
  intros Hne. unfold patch_step, dict_has. rewrite lookup_insert_ne by exact Hne.
  reflexivity.
Qed.

Variable client : Client.
Variable m : module.

Lemma match_items_log name items resp log :
  snd (match_items name items resp log) = log.
Proof.
  revert resp. induction items as [|item rest IH]; intros resp; [reflexivity|].
  cbn [match_items]. unfold bind, getitem.
  destruct (item !! "name"); cbn; [apply IH | reflexivity].
Qed.

Lemma retrieve_api_key_log log :
  snd (_retrieve_api_key client m log) = log \/
  exists name, snd (_retrieve_api_key client m log) = log ++ [GetApiKeys name true].
Proof.
  unfold _retrieve_api_key, try_except, bind, getitem, invoke.
  destruct (params m !! "name") as [name|]; cbn; [|left; reflexivity].
  right; exists name.
  destruct (get_api_keys client log name true) as [e|items]; cbn.
  - destruct e; reflexivity.
  - pose proof (match_items_log (dict_get (params m) "name") (default [] items) None
                  (log ++ [GetApiKeys name true])) as Hl.
    destruct (match_items _ _ _ _) as [[r|s|e] l]; cbn in *; subst; try reflexivity.
    destruct e; reflexivity.
Qed.

Lemma retrieve_api_key_not_boto log msg :
  fst (_retrieve_api_key client m log) <> Raised (BotoCoreError msg).
Proof.
  unfold _retrieve_api_key, try_except, bind, getitem, invoke.
  destruct (params m !! "name") as [name|]; cbn; [|discriminate].
  destruct (get_api_keys client log name true) as [e|items]; cbn.
  - destruct e; discriminate.
  - destruct (match_items _ _ _ _) as [[r|s|e] l]; cbn in *; try discriminate.
    destruct e; discriminate.
Qed.
End ApiKeyDiff.

Section ApiKeyUpdate.
Import ApiGwApiKey.
Variable client : Client.
Variable m : module.

Lemma update_api_key_unchanged me log :
  _create_patches (params m) me = [] ->
  _update_api_key client m me log = (Ret (false, Some me), log).
Proof. intros H. unfold _update_api_key, try_except. rewrite H. reflexivity. Qed.

Lemma update_api_key_check_mode me log :
  _create_patches (params m) me <> [] -> check_mode m = true ->
  _update_api_key client m me log = (Ret (true, Some me), log).
Proof.
  intros H Hc. unfold _update_api_key, try_except.
  destruct (_create_patches (params m) me); [congruence|]. rewrite Hc. reflexivity.
Qed.

Lemma update_api_key_applies me log id :
  _create_patches (params m) me <> [] -> check_mode m = false ->
  me !! "id" = Some id ->
  update_api_key client log id (_create_patches (params m) me) = inr tt ->
  _update_api_key client m me log =
  (api_key <- _retrieve_api_key client m ;; ret (true, api_key))
    (log ++ [UpdateApiKey id (_create_patches (params m) me)]).
Proof.
  intros H Hc Hid Hup. unfold _update_api_key, try_except.
  destruct (_create_patches (params m) me) as [|p ps] eqn:Hp; [congruence|].
  rewrite Hc. cbn [negb]. unfold bind, getitem, invoke, ret. rewrite Hid, Hup.
  pose proof (retrieve_api_key_not_boto client m (log ++ [UpdateApiKey id (p :: ps)])) as Hnb.
  destruct (_retrieve_api_key client m (log ++ [UpdateApiKey id (p :: ps)])) as [[r|s|e] l];
    cbn in *; try reflexivity.
  destruct e; try reflexivity. exfalso; eapply Hnb; reflexivity.
Qed.

Lemma update_api_key_calls me log :
  exists extra,
    snd (_update_api_key client m me log) = log ++ extra /\
    forall c, c ∈ extra -> mutating c = true ->
      exists id, c = UpdateApiKey id (_create_patches (params m) me).
Proof.
  unfold _update_api_key, try_except.
  destruct (_create_patches (params m) me) as [|p ps] eqn:Hp.
  { exists []. rewrite app_nil_r. split; [reflexivity|]. intros c Hc; inversion Hc. }
  destruct (check_mode m); cbn [negb].
  { exists []. rewrite app_nil_r. split; [reflexivity|]. intros c Hc; inversion Hc. }
  unfold bind, getitem, invoke, ret.
  destruct (me !! "id") as [id|]; cbn.
  2:{ exists []. rewrite app_nil_r. split; [reflexivity|]. intros c Hc; inversion Hc. }
  destruct (update_api_key client log id (p :: ps)) as [e|[]]; cbn.
  { exists [UpdateApiKey id (p :: ps)]. split; [destruct e; reflexivity|].
    intros c Hc _. apply list_elem_of_singleton in Hc. eauto. }
  destruct (retrieve_api_key_log client m (log ++ [UpdateApiKey id (p :: ps)]))
    as [Hl|[name Hl]].
  - exists [UpdateApiKey id (p :: ps)].
    destruct (_retrieve_api_key client m _) as [[r|s|e] l]; cbn in *; subst l;
      (split; [try destruct e; reflexivity|]);
      intros c Hc _; apply list_elem_of_singleton in Hc; eauto.
  - exists [UpdateApiKey id (p :: ps); GetApiKeys name true].
    destruct (_retrieve_api_key client m _) as [[r|s|e] l]; cbn in *; subst l;
      rewrite <- app_assoc; cbn [app];
      (split; [try destruct e; reflexivity|]);
      intros c Hc Hm; apply elem_of_cons in Hc as [->|Hc]; eauto;
      apply list_elem_of_singleton in Hc; subst c; discriminate.
Qed.
End ApiKeyUpdate.

(** C10: in the api_key module the diff builder considers only the enabled
    and description fields. Every emitted patch targets [/enabled] or
    [/description]; a desired or observed entry under any other key (the
    key's value, name, generate_distinct_id) has no influence on the patch
    list; and the only mutating call an update invocation can issue is
    [update_api_key] with exactly that patch list, so nothing else of the
    key is changed on the provider. *)
Theorem api_key_diff_only_enabled_and_description :
  (forall (params me : gmap string pyval) p,
     p ∈ ApiGwApiKey._create_patches params me ->
     path p = "/enabled" \/ path p = "/description") /\
  (forall (params me : gmap string pyval) k v,
     k <> "enabled" -> k <> "description" ->
     ApiGwApiKey._create_patches (<[k:=v]> params) me =
       ApiGwApiKey._create_patches params me /\
     ApiGwApiKey._create_patches params (<[k:=v]> me) =
       ApiGwApiKey._create_patches params me) /\
  (forall client m me log,
     exists extra,
       snd (ApiGwApiKey._update_api_key client m me log) = log ++ extra /\
       forall c, c ∈ extra -> mutating c = true ->
         exists id, c = UpdateApiKey id (ApiGwApiKey._create_patches (params m) me)).
Proof.
  split; [|split].
  - intros params me p Hp. rewrite create_patches_split in Hp.
    apply elem_of_app in Hp as [Hp|Hp];
      apply patch_step_elem in Hp as (v & _ & _ & -> & _); [left|right]; reflexivity.
  - intros params me k v Hk1 Hk2. rewrite !create_patches_split.
    rewrite !patch_step_frame_params, !patch_step_frame_me by assumption.
    split; reflexivity.
  - intros client m me log. apply update_api_key_calls.
Qed.

Lemma api_key_diff_only_enabled_and_description_witness :
  ApiGwApiKey._create_patches (<["value" := PStr "rotated"]> Fixtures.key_params)
    Fixtures.key_testify =
  ApiGwApiKey._create_patches Fixtures.key_params Fixtures.key_testify.
Proof.
  apply (proj1 (proj2 api_key_diff_only_enabled_and_description)); discriminate.
Defined.

(** ** The stage diff builder *)

Section StageDiff.
Import ApiGwStage StageSpec.

Lemma sub_slash_app s1 s2 : sub_slash (s1 +:+ s2) = sub_slash s1 +:+ sub_slash s2.
Proof.
  induction s1 as [|c s1 IH]; [reflexivity|].
  simpl. rewrite IH. destruct (Ascii.eqb c "/"); reflexivity.
Qed.

Lemma sub_slash_no_slash s : str_contains "/" (sub_slash s) = false.
Proof.
  induction s as [|c s IH]; [reflexivity|].
  cbn [sub_slash]. destruct (Ascii.eqb c "/") eqn:Hc.
  - cbn. cbn in IH. exact IH.
  - cbn [str_contains String.prefix]. rewrite IH.
    destruct (ascii_dec "/" c) as [<-|Hne]; [discriminate Hc|]. reflexivity.
Qed.

Lemma attr_step_app (stage params : gmap string pyval) patches names :
  attr_step stage params patches names = patches ++ attr_step stage params [] names.
Proof.
  unfold attr_step. destruct names as [a b].
  repeat case_match; rewrite ?app_nil_r; reflexivity.
Qed.

Lemma attr_patches_split (stage params : gmap string pyval) :
  attr_patches stage params =
  attr_step stage params [] ("description", "description") ++
  attr_step stage params [] ("cache_cluster_enabled", "cacheClusterEnabled") ++
  attr_step stage params [] ("cache_cluster_size", "cacheClusterSize").
Proof.
  unfold attr_patches, arg_map. cbn [foldl].
  rewrite attr_step_app, (attr_step_app _ _ (attr_step _ _ _ _)), app_assoc. reflexivity.
Qed.

Lemma attr_step_elem (stage params : gmap string pyval) a b p :
  p ∈ attr_step stage params [] (a, b) ->
  exists v,
    params !! a = Some v /\ v <> PNone /\
    p = mk_patch "replace" ("/" +:+ b) (PStr (py_str v)) /\
    (stage !! b = None \/ exists cur, stage !! b = Some cur /\ py_str v <> py_str cur).
Proof.
  unfold attr_step. intros Hin.
  destruct (params !! a) as [v|] eqn:Hv; [|inversion Hin].
  destruct v as [|bv|s]; cbn [is_none negb] in Hin; try (inversion Hin; fail).
  all: destruct (stage !! b) as [cur|] eqn:Hc.
  all: repeat case_match; cbn [app] in Hin; try (inversion Hin; fail).
  all: apply list_elem_of_singleton in Hin; subst p.
  all: eexists; split; [reflexivity|]; split; [discriminate|]; split; [reflexivity|].
  all: try (left; reflexivity).
  all: right; exists cur; split; [reflexivity|].
  all: match goal with H : (_ =? _)%string = false |- _ =>
         apply String.eqb_neq in H; exact H end.
Qed.

Lemma attr_step_absent (stage params : gmap string pyval) a b v :
  params !! a = Some v -> v <> PNone -> stage !! b = None ->
  attr_step stage params [] (a, b) = [create_patch b v].
Proof.
  intros Hv Hn Hs. unfold attr_step. rewrite Hv, Hs.
  destruct v; [congruence| |]; reflexivity.
Qed.

Lemma attr_step_nothing (params : gmap string pyval) names :
  attr_step ∅ params [] names = supplied_patch params names.
Proof.
  unfold attr_step, supplied_patch. destruct names as [a b]. cbn [fst snd].
  rewrite lookup_empty. destruct (params !! a) as [[| |]|]; reflexivity.
Qed.

Lemma attr_patches_nothing (params : gmap string pyval) :
  attr_patches ∅ params = flat_map (supplied_patch params) arg_map.
Proof.
  rewrite attr_patches_split, !attr_step_nothing. cbn [flat_map arg_map].
  rewrite app_nil_r. reflexivity.
Qed.

Lemma method_patches_spec (stg_methods : gmap string (gmap string pyval)) ms patches :
  (forall k entry, stg_methods !! k = Some entry -> is_Some (entry !! "cachingEnabled")) ->
  method_patches stg_methods ms patches =
  inr (patches ++ flat_map (method_patch_spec stg_methods) ms).
Proof.
  intros Hwf. revert patches.
  induction ms as [|m rest IH]; intros patches; cbn [method_patches flat_map].
  { rewrite app_nil_r. reflexivity. }
  unfold method_patch_spec at 1. unfold composite_key at 1. fold (method_key m).
  destruct (stg_methods !! method_key m) as [entry|] eqn:Hk.
  - destruct (Hwf _ _ Hk) as [cur Hcur]. unfold dict_get. rewrite Hcur. cbn [default from_option id].
    case_bool_decide as Heq.
    + rewrite Heq, String.eqb_refl. cbn [negb app]. apply IH.
    + apply String.eqb_neq in Heq. rewrite Heq. cbn [negb]. rewrite IH, <- app_assoc.
      reflexivity.
  - rewrite IH, <- app_assoc. reflexivity.
Qed.

Lemma method_patches_nothing ms patches :
  method_patches ∅ ms patches = inr (patches ++ map caching_patch ms).
Proof.
  rewrite method_patches_spec.
  - replace (flat_map (method_patch_spec ∅) ms) with (map caching_patch ms);
      [reflexivity|].
    induction ms as [|m rest IH]; [reflexivity|].
    cbn [flat_map map]. rewrite IH. unfold method_patch_spec. rewrite lookup_empty.
    reflexivity.
  - intros k entry Hk. rewrite lookup_empty in Hk. discriminate.
Qed.
End StageDiff.

(** ** The stage update path *)

Section StageUpdate.
Import ApiGwStage StageSpec.
Variable client : Client.
Variable m : stage_module.

Lemma build_patch_args_nothing rest name :
  sparams m !! "rest_api_id" = Some rest -> sparams m !! "name" = Some name ->
  build_patch_args None m =
  inr (match patches_against_nothing m with
       | [] => None
       | ops => Some (mk_patch_args rest name ops)
       end).
Proof.
  intros Hr Hn. unfold build_patch_args, patches_against_nothing.
  cbn [default from_option id stage_attrs methodSettings].
  rewrite method_patches_nothing, attr_patches_nothing, Hr, Hn.
  destruct (flat_map _ _ ++ map _ _); reflexivity.
Qed.

Lemma update_stage_unchanged st log :
  build_patch_args st m = inr None ->
  _update_stage client m st log = (Ret (false, None), log).
Proof. intros H. unfold _update_stage. rewrite H. reflexivity. Qed.

Lemma update_stage_check_mode st args log :
  build_patch_args st m = inr (Some args) -> scheck_mode m = true ->
  _update_stage client m st log = (Ret (true, None), log).
Proof. intros H Hc. unfold _update_stage, try_except. rewrite H, Hc. reflexivity. Qed.

Lemma update_stage_applies st args log st' :
  build_patch_args st m = inr (Some args) -> scheck_mode m = false ->
  update_stage client log (restApiId args) (stageName args) (patchOperations args) = inr tt ->
  get_stage client
    (log ++ [UpdateStage (restApiId args) (stageName args) (patchOperations args)])
    (dict_get (sparams m) "rest_api_id") (dict_get (sparams m) "name") = inr st' ->
  _update_stage client m st log =
  (Ret (true, Some st'),
   log ++ [UpdateStage (restApiId args) (stageName args) (patchOperations args);
           GetStage (dict_get (sparams m) "rest_api_id") (dict_get (sparams m) "name")]).
Proof.
  intros H Hc Hu Hg. unfold _update_stage, try_except. rewrite H, Hc. cbn [negb].
  unfold bind, invoke, ret. rewrite Hu, Hg. rewrite <- app_assoc. reflexivity.
Qed.

Lemma update_stage_issues_update st args log :
  build_patch_args st m = inr (Some args) -> scheck_mode m = false ->
  exists extra,
    snd (_update_stage client m st log) =
    log ++ UpdateStage (restApiId args) (stageName args) (patchOperations args) :: extra.
Proof.
  intros H Hc. unfold _update_stage, try_except. rewrite H, Hc. cbn [negb].
  unfold bind, invoke, ret.
  destruct (update_stage client log _ _ _) as [e|[]].
  - exists []. destruct e; reflexivity.
  - destruct (get_stage client _ _ _) as [e|s].
    + eexists [_]. rewrite <- app_assoc. destruct e; reflexivity.
    + eexists [_]. rewrite <- app_assoc. reflexivity.
Qed.

Lemma process_request_absent_found log st :
  state_or_present (sparams m) = PStr "absent" ->
  get_stage client log (dict_get (sparams m) "rest_api_id") (dict_get (sparams m) "name")
    = inr st ->
  process_request client m log =
  (changed <- _delete_stage client m ;; ret (mk_exit changed None))
    (log ++ [GetStage (dict_get (sparams m) "rest_api_id") (dict_get (sparams m) "name")]).
Proof.
  intros Hs Hg. unfold process_request, _find_stage, try_except.
  unfold bind at 1 2. unfold invoke. rewrite Hg. unfold ret at 1. rewrite Hs.
  reflexivity.
Qed.

Lemma delete_stage_check_mode log :
  scheck_mode m = true -> _delete_stage client m log = (Ret false, log).
Proof. intros Hc. unfold _delete_stage. rewrite Hc. reflexivity. Qed.

Lemma delete_stage_applies log :
  scheck_mode m = false ->
  delete_stage client log (dict_get (sparams m) "rest_api_id") (dict_get (sparams m) "name")
    = inr tt ->
  _delete_stage client m log =
  (Ret true,
   log ++ [DeleteStage (dict_get (sparams m) "rest_api_id") (dict_get (sparams m) "name")]).
Proof.
  intros Hc Hd. unfold _delete_stage, try_except. rewrite Hc. cbn [negb].
  unfold bind, invoke, ret. rewrite Hd. reflexivity.
Qed.

Lemma find_stage_cases log :
  let rest := dict_get (sparams m) "rest_api_id" in
  let name := dict_get (sparams m) "name" in
  _find_stage client m log =
  (match get_stage client log rest name with
   | inr st => Ret (Some st)
   | inl (ClientError response message) =>
       if str_contains "NotFoundException" response then Ret None
       else FailJson ("Error while finding stage via boto3: " +:+ message)
   | inl (BotoCoreError msg) => FailJson ("Error while finding stage via boto3: " +:+ msg)
   | inl e => Raised e
   end, log ++ [GetStage rest name]).
Proof.
  cbn zeta. unfold _find_stage, try_except, bind, invoke, ret.
  destruct (get_stage client log _ _) as [[msg|response message|k|c a]|st]; try reflexivity.
  destruct (str_contains _ _); reflexivity.
Qed.

Lemma process_request_missing log log1 :
  state_or_present (sparams m) = PStr "present" ->
  _find_stage client m log = (Ret None, log1) ->
  process_request client m log =
  (r <- _update_stage client m None ;; ret (mk_exit (fst r) (snd r))) log1.
Proof.
  intros Hs Hf. unfold process_request. unfold bind at 1. rewrite Hf, Hs. reflexivity.
Qed.
End StageUpdate.

Section StageMethodErrors.
Import ApiGwStage.

Lemma method_patches_error_iff (stg : gmap string (gmap string pyval)) ms patches :
  method_patches stg ms patches = inl (KeyError "cachingEnabled") <->
  exists x entry,
    x ∈ ms /\ stg !! method_key x = Some entry /\ entry !! "cachingEnabled" = None.
Proof.
  revert patches. induction ms as [|x rest IH]; intros patches; cbn [method_patches].
  - split; [discriminate|]. intros (y & entry & Hin & _). inversion Hin.
  - destruct (stg !! method_key x) as [entry|] eqn:Hk.
    + destruct (entry !! "cachingEnabled") as [cur|] eqn:Hc.
      * destruct (negb _); rewrite IH; split.
        all: try (intros (y & en & Hin & Hy & Hn); exists y, en;
                  split; [right; exact Hin|split; assumption]).
        all: intros (y & en & Hin & Hy & Hn);
          apply elem_of_cons in Hin as [->|Hin]; [congruence|eauto].
      * split; [|reflexivity]. intros _. exists x, entry.
        split; [left|split; assumption].
    + rewrite IH. split.
      * intros (y & en & Hin & Hy & Hn). exists y, en.
        split; [right; exact Hin|split; assumption].
      * intros (y & en & Hin & Hy & Hn).
        apply elem_of_cons in Hin as [->|Hin]; [congruence|eauto].
Qed.
End StageMethodErrors.

Lemma method_patches_targeted (stg_methods : gmap string (gmap string pyval)) ms patches :
  (forall e entry, e ∈ ms -> stg_methods !! ApiGwStage.method_key e = Some entry ->
                   is_Some (entry !! "cachingEnabled")) ->
  ApiGwStage.method_patches stg_methods ms patches =
  inr (patches ++ flat_map (StageSpec.method_patch_spec stg_methods) ms).
Proof.
  revert patches.
  induction ms as [|m rest IH]; intros patches Hwf;
    cbn [ApiGwStage.method_patches flat_map].
  { rewrite app_nil_r. reflexivity. }
  assert (Hrest : forall e entry, e ∈ rest ->
            stg_methods !! ApiGwStage.method_key e = Some entry ->
            is_Some (entry !! "cachingEnabled"))
    by (intros e entry He; apply Hwf; right; exact He).
  unfold StageSpec.method_patch_spec at 1. unfold StageSpec.composite_key at 1.
  fold (ApiGwStage.method_key m).
  destruct (stg_methods !! ApiGwStage.method_key m) as [entry|] eqn:Hk.
  - destruct (Hwf m entry ltac:(left) Hk) as [cur Hcur].
    unfold dict_get. rewrite Hcur. cbn [default from_option id].
    case_bool_decide as Heq.
    + rewrite Heq, String.eqb_refl. cbn [negb app]. apply IH, Hrest.
    + apply String.eqb_neq in Heq. rewrite Heq. cbn [negb].
      rewrite IH by exact Hrest. rewrite <- app_assoc. reflexivity.
  - rewrite IH by exact Hrest. rewrite <- app_assoc. reflexivity.
Qed.

Lemma build_patch_args_rule (st : stage) (m : ApiGwStage.stage_module) :
  (forall e entry,
     e ∈ default [] (ApiGwStage.method_settings m) ->
     default ∅ (methodSettings st) !! ApiGwStage.method_key e = Some entry ->
     is_Some (entry !! "cachingEnabled")) ->
  ApiGwStage.build_patch_args (Some st) m =
  match ApiGwStage.attr_patches (stage_attrs st) (ApiGwStage.sparams m) ++
          flat_map (StageSpec.method_patch_spec (default ∅ (methodSettings st)))
            (default [] (ApiGwStage.method_settings m)) with
  | [] => inr None
  | ops =>
      match ApiGwStage.sparams m !! "rest_api_id" with
      | None => inl (KeyError "rest_api_id")
      | Some rest =>
          match ApiGwStage.sparams m !! "name" with
          | None => inl (KeyError "name")
          | Some name => inr (Some (ApiGwStage.mk_patch_args rest name ops))
          end
      end
  end.
Proof.
  intros Hwf. unfold ApiGwStage.build_patch_args.
  cbn [default from_option id] in *.
  rewrite (method_patches_targeted _ _ _ Hwf).
  destruct (_ ++ _); reflexivity.
Qed.

Lemma build_patch_args_flagless (st : stage) (m : ApiGwStage.stage_module) :
  (exists e entry,
     e ∈ default [] (ApiGwStage.method_settings m) /\
     default ∅ (methodSettings st) !! ApiGwStage.method_key e = Some entry /\
     entry !! "cachingEnabled" = None) ->
  ApiGwStage.build_patch_args (Some st) m = inl (KeyError "cachingEnabled").
Proof.
  intros Hf. unfold ApiGwStage.build_patch_args.
  cbn [default from_option id] in *.
  apply (method_patches_error_iff _ _
           (ApiGwStage.attr_patches (stage_attrs st) (ApiGwStage.sparams m))) in Hf.
  rewrite Hf. reflexivity.
Qed.

(** C7: stage method-setting diff. The key of an entry is its method name
    with every ['/'] replaced by ['~1'] ([sub_slash] maps ['/'] to ['~1'],
    keeps every other character and distributes over concatenation, so no
    ['/'] remains), followed by ['/'] and the verb. Against an arbitrary
    observed stage, the patch list [build_patch_args] hands to the update
    call is the attribute operations followed, entry by entry and in order,
    by what the rule prescribes against the observed stage's methodSettings:
    exactly one replace operation on [/<key>/caching/enabled] with the
    stringified desired flag when the key is absent from the map or the
    stringified flags differ, and none otherwise; an empty list gives no
    arguments at all. This is so whenever every observed entry that the
    request targets carries the cachingEnabled flag the rule compares; when
    one does not, there is no flag to stringify and [build_patch_args] ends
    in KeyError instead of a patch list. On the scenario of the
    specification (no entry for [~1test/PUT], caching off asked for
    [PUT /test]) the patch list is exactly that one operation; with the entry
    observed and the same flag there is nothing to patch, and with the entry
    observed and the other flag there is again that one operation. *)
Theorem stage_method_setting_diff :
  (forall s1 s2, sub_slash (s1 +:+ s2) = sub_slash s1 +:+ sub_slash s2) /\
  sub_slash "/" = "~1" /\
  (forall c, c <> "/"%char -> sub_slash (String c "") = String c "") /\
  (forall s, str_contains "/" (sub_slash s) = false) /\
  (forall m, ApiGwStage.method_key m =
             sub_slash (ApiGwStage.method_name m) +:+ "/" +:+ ApiGwStage.method_verb m) /\
  (forall (stg : gmap string (gmap string pyval)) e,
     StageSpec.method_patch_spec stg e =
     match stg !! ApiGwStage.method_key e with
     | None => [StageSpec.caching_patch e]
     | Some entry =>
         if decide (py_str (dict_get entry "cachingEnabled") =
                    py_str (default (PBool false) (ApiGwStage.caching_enabled e)))
         then []
         else [StageSpec.caching_patch e]
     end /\
     StageSpec.caching_patch e =
     {| op := "replace";
        path := "/" +:+ ApiGwStage.method_key e +:+ "/caching/enabled";
        value := PStr (py_str (default (PBool false) (ApiGwStage.caching_enabled e))) |}) /\
  (forall (st : stage) (m : ApiGwStage.stage_module),
     (forall e entry,
        e ∈ default [] (ApiGwStage.method_settings m) ->
        default ∅ (methodSettings st) !! ApiGwStage.method_key e = Some entry ->
        is_Some (entry !! "cachingEnabled")) ->
     ApiGwStage.build_patch_args (Some st) m =
     match ApiGwStage.attr_patches (stage_attrs st) (ApiGwStage.sparams m) ++
             flat_map (StageSpec.method_patch_spec (default ∅ (methodSettings st)))
               (default [] (ApiGwStage.method_settings m)) with
     | [] => inr None
     | ops =>
         match ApiGwStage.sparams m !! "rest_api_id" with
         | None => inl (KeyError "rest_api_id")
         | Some rest =>
             match ApiGwStage.sparams m !! "name" with
             | None => inl (KeyError "name")
             | Some name => inr (Some (ApiGwStage.mk_patch_args rest name ops))
             end
         end
     end) /\
  (forall (st : stage) (m : ApiGwStage.stage_module),
     (exists e entry,
        e ∈ default [] (ApiGwStage.method_settings m) /\
        default ∅ (methodSettings st) !! ApiGwStage.method_key e = Some entry /\
        entry !! "cachingEnabled" = None) ->
     ApiGwStage.build_patch_args (Some st) m = inl (KeyError "cachingEnabled")) /\
  ApiGwStage.build_patch_args (Some Fixtures.dev_stage) (Fixtures.stage_put_test false) =
  inr (Some {| ApiGwStage.restApiId := PStr "api";
               ApiGwStage.stageName := PStr "dev";
               ApiGwStage.patchOperations :=
                 [ {| op := "replace"; path := "/~1test/PUT/caching/enabled";
                      value := PStr "False" |} ] |}) /\
  ApiGwStage.build_patch_args
    (Some (mk_stage {[ "stageName" := PStr "dev" ]}
             (Some {[ "~1test/PUT" := {[ "cachingEnabled" := PBool false ]} ]})))
    (Fixtures.stage_put_test false) = inr None /\
  ApiGwStage.build_patch_args
    (Some (mk_stage {[ "stageName" := PStr "dev" ]}
             (Some {[ "~1test/PUT" := {[ "cachingEnabled" := PBool true ]} ]})))
    (Fixtures.stage_put_test false) =
  inr (Some {| ApiGwStage.restApiId := PStr "api";
               ApiGwStage.stageName := PStr "dev";
               ApiGwStage.patchOperations :=
                 [ {| op := "replace"; path := "/~1test/PUT/caching/enabled";
                      value := PStr "False" |} ] |}).
Proof.
  split; [apply sub_slash_app|]. split; [reflexivity|]. split.
  { intros c Hc. cbn [sub_slash].
    destruct (Ascii.eqb_spec c "/"); [contradiction|reflexivity]. }
  split; [apply sub_slash_no_slash|]. split; [reflexivity|]. split.
  { intros stg e. split; [|reflexivity].
    unfold StageSpec.method_patch_spec, StageSpec.composite_key.
    fold (ApiGwStage.method_key e).
    destruct (stg !! ApiGwStage.method_key e); [|reflexivity].
    case_bool_decide; case_decide; congruence. }
  split; [apply build_patch_args_rule|].
  split; [apply build_patch_args_flagless|].
  split; [reflexivity|]. split; reflexivity.
Qed.

Lemma stage_method_setting_diff_witness :
  ApiGwStage.build_patch_args (Some (Fixtures.stage_with "current" true))
    (Fixtures.stage_wanting "current" false false) =
  inr (Some {| ApiGwStage.restApiId := PStr "api";
               ApiGwStage.stageName := PStr "dev";
               ApiGwStage.patchOperations :=
                 [ {| op := "replace"; path := "/~1test/PUT/caching/enabled";
                      value := PStr "False" |} ] |}) /\
  ApiGwStage.build_patch_args (Some (mk_stage ∅ (Some {[ "~1test/PUT" := ∅ ]})))
    (Fixtures.stage_put_test false) = inl (KeyError "cachingEnabled").
Proof.
  split.
  - refine (eq_trans
              (proj1 (proj2 (proj2 (proj2 (proj2 (proj2 (proj2 stage_method_setting_diff))))))
                 (Fixtures.stage_with "current" true)
                 (Fixtures.stage_wanting "current" false false) _) _);
      [|reflexivity].
    intros e entry _ Hk. unfold Fixtures.stage_with in Hk.
    cbn [methodSettings default from_option id] in Hk.
    apply lookup_singleton_Some in Hk as [_ <-]. eexists. reflexivity.
  - apply (proj1 (proj2 (proj2 (proj2 (proj2 (proj2 (proj2 (proj2
             stage_method_setting_diff)))))))
             (mk_stage ∅ (Some {[ "~1test/PUT" := ∅ ]})) (Fixtures.stage_put_test false)).
    exists (ApiGwStage.mk_method_setting "/test" "PUT" (Some (PBool false))), ∅.
    split; [left|]. split; reflexivity.
Defined.

(** C5 at the failing input, in the stage module: the observed stage has no
    description, the desired description is the empty string, and the diff
    builder still emits a replace operation on [/description]; the invocation
    issues an update and reports changed (the api_key builder, on the same
    kind of input, emits nothing). *)
Theorem stage_empty_description_not_suppressed :
  ApiGwStage.build_patch_args (Some Fixtures.dev_stage)
    (Fixtures.stage_empty_description false) =
  inr (Some {| ApiGwStage.restApiId := PStr "api";
               ApiGwStage.stageName := PStr "dev";
               ApiGwStage.patchOperations :=
                 [ {| op := "replace"; path := "/description"; value := PStr "" |} ] |}) /\
  ApiGwStage.process_request Fixtures.present_client
    (Fixtures.stage_empty_description false) [] =
  (Ret (mk_exit true (Some Fixtures.dev_stage)),
   [ GetStage (PStr "api") (PStr "dev");
     UpdateStage (PStr "api") (PStr "dev")
       [ {| op := "replace"; path := "/description"; value := PStr "" |} ];
     GetStage (PStr "api") (PStr "dev") ]) /\
  ApiGwApiKey._create_patches {[ "description" := PStr "" ]} Fixtures.key_testify = [].
Proof. repeat split. Qed.

(** C1 at the failing input, in the stage module: state=absent and the stage
    exists. Under check mode the invocation reports changed=false (and issues
    no delete); without check mode the same scenario deletes the stage and
    reports changed=true. *)
Theorem stage_delete_check_mode_changed_differs :
  ApiGwStage.process_request Fixtures.present_client (Fixtures.stage_absent true) [] =
  (Ret (mk_exit false None), [ GetStage (PStr "api") (PStr "dev") ]) /\
  ApiGwStage.process_request Fixtures.present_client (Fixtures.stage_absent false) [] =
  (Ret (mk_exit true None),
   [ GetStage (PStr "api") (PStr "dev"); DeleteStage (PStr "api") (PStr "dev") ]).
Proof. split; reflexivity. Qed.

Lemma supplied_patch_nil (ps : gmap string pyval) names :
  StageSpec.supplied_patch ps names = [] <-> ~ StageSpec.supplied ps (fst names).
Proof.
  unfold StageSpec.supplied_patch, StageSpec.supplied.
  destruct (ps !! fst names) as [[| |]|]; split; try discriminate; try reflexivity.
  - intros _ (v & Hv & Hn). congruence.
  - intros H. exfalso. apply H. eexists. split; [reflexivity|discriminate].
  - intros H. exfalso. apply H. eexists. split; [reflexivity|discriminate].
  - intros _ (v & Hv & Hn). discriminate.
Qed.

Lemma patches_against_nothing_nil (m : ApiGwStage.stage_module) :
  StageSpec.patches_against_nothing m = [] <->
  (forall names, names ∈ ApiGwStage.arg_map ->
                 ~ StageSpec.supplied (ApiGwStage.sparams m) (fst names)) /\
  default [] (ApiGwStage.method_settings m) = [].
Proof.
  unfold StageSpec.patches_against_nothing. split.
  - intros H. apply app_eq_nil in H as [Ha Hm]. split.
    + intros names Hin. apply supplied_patch_nil.
      unfold ApiGwStage.arg_map in *. cbn [flat_map] in Ha.
      apply app_eq_nil in Ha as [H1 Ha]. apply app_eq_nil in Ha as [H2 Ha].
      apply app_eq_nil in Ha as [H3 _].
      repeat (apply elem_of_cons in Hin as [->|Hin]; [assumption|]).
      inversion Hin.
    + destruct (default [] (ApiGwStage.method_settings m)); [reflexivity|discriminate].
  - intros [Ha Hm]. rewrite Hm. cbn [map]. rewrite app_nil_r.
    unfold ApiGwStage.arg_map in *. cbn [flat_map].
    rewrite !(proj2 (supplied_patch_nil _ _)); [reflexivity| | |];
      apply Ha; set_solver.
Qed.

(** C9 as stated fails outside check mode: on a provider for which the
    stage does not exist (it answers the lookup and the update alike with a
    not-found error), the update call is issued against the missing stage and
    its ClientError propagates; no changed=true is reported. *)
Lemma stage_not_found_reports_changed_counterexample :
  ApiGwStage._find_stage Fixtures.no_stage_client (Fixtures.stage_put_test false) [] =
    (Ret None, [ GetStage (PStr "api") (PStr "dev") ]) /\
  ApiGwStage.process_request Fixtures.no_stage_client (Fixtures.stage_put_test false) [] =
    (Raised Fixtures.not_found,
     [ GetStage (PStr "api") (PStr "dev");
       UpdateStage (PStr "api") (PStr "dev")
         [ {| op := "replace"; path := "/~1test/PUT/caching/enabled";
              value := PStr "False" |} ] ]) /\
  (forall e : exit stage,
     fst (ApiGwStage.process_request Fixtures.no_stage_client
            (Fixtures.stage_put_test false) []) <> Ret e).
Proof. split; [reflexivity|]. split; [reflexivity|]. intros e. discriminate. Qed.

(** C9, amended: in the stage module, with state=present and no stage found,
    the update path is taken with the observed state treated as an empty
    mapping. The patch list then holds one operation for every supplied
    description, cache_cluster_enabled and cache_cluster_size and one for
    every method_settings entry; it is empty only when no parameter is
    supplied and there is no entry, and then the invocation reports
    changed=false with a null object. Otherwise, under check mode the
    invocation reports changed=true with a null object and issues no call.
    Outside check mode one update call carrying these operations is issued
    against the stage that was not found, and what follows is the provider's
    answer: changed=true with the re-fetched stage is reported only if the
    update and the re-fetch both return; a BotoCoreError of either ends in
    fail_json, and any other exception of either (the provider's not-found
    ClientError for the missing stage among them) propagates, nothing being
    reported. *)
Theorem stage_not_found_takes_update_path
    (client : Client) (m : ApiGwStage.stage_module) (log log1 : list call)
    (rest name : pyval) :
  state_or_present (ApiGwStage.sparams m) = PStr "present" ->
  ApiGwStage._find_stage client m log = (Ret None, log1) ->
  ApiGwStage.sparams m !! "rest_api_id" = Some rest ->
  ApiGwStage.sparams m !! "name" = Some name ->
  let ops := StageSpec.patches_against_nothing m in
  ApiGwStage.build_patch_args None m =
    ApiGwStage.build_patch_args (Some (mk_stage ∅ None)) m /\
  ApiGwStage.build_patch_args None m =
    inr (match ops with
         | [] => None
         | _ => Some (ApiGwStage.mk_patch_args rest name ops)
         end) /\
  (ops = [] <->
   (forall names, names ∈ ApiGwStage.arg_map ->
                  ~ StageSpec.supplied (ApiGwStage.sparams m) (fst names)) /\
   default [] (ApiGwStage.method_settings m) = []) /\
  (ops = [] ->
   ApiGwStage.process_request client m log = (Ret (mk_exit false None), log1)) /\
  (ops <> [] ->
   (ApiGwStage.scheck_mode m = true ->
    ApiGwStage.process_request client m log = (Ret (mk_exit true None), log1)) /\
   (ApiGwStage.scheck_mode m = false ->
    ApiGwStage.process_request client m log =
    match update_stage client log1 rest name ops with
    | inl (BotoCoreError msg) =>
        (FailJson ("Error while updating stage via boto3: " +:+ msg),
         log1 ++ [UpdateStage rest name ops])
    | inl e => (Raised e, log1 ++ [UpdateStage rest name ops])
    | inr _ =>
        match get_stage client (log1 ++ [UpdateStage rest name ops]) rest name with
        | inr st' =>
            (Ret (mk_exit true (Some st')),
             log1 ++ [UpdateStage rest name ops; GetStage rest name])
        | inl (BotoCoreError msg) =>
            (FailJson ("Error while updating stage via boto3: " +:+ msg),
             log1 ++ [UpdateStage rest name ops; GetStage rest name])
        | inl e => (Raised e, log1 ++ [UpdateStage rest name ops; GetStage rest name])
        end
    end)).
Proof.
  intros Hs Hf Hr Hn ops.
  pose proof (build_patch_args_nothing m rest name Hr Hn) as Hb. fold ops in Hb.
  pose proof (process_request_missing client m log log1 Hs Hf) as Hp.
  assert (Hdr : dict_get (ApiGwStage.sparams m) "rest_api_id" = rest)
    by (unfold dict_get; rewrite Hr; reflexivity).
  assert (Hdn : dict_get (ApiGwStage.sparams m) "name" = name)
    by (unfold dict_get; rewrite Hn; reflexivity).
  split; [reflexivity|].
  split; [rewrite Hb; unfold ops;
          destruct (StageSpec.patches_against_nothing m); reflexivity|].
  split; [apply patches_against_nothing_nil|]. split.
  - intros Hnil. rewrite Hnil in Hb. rewrite Hp. unfold bind.
    rewrite (update_stage_unchanged client m None log1 Hb). reflexivity.
  - intros Hne. destruct ops as [|p ps] eqn:Hops; [congruence|]. split.
    + intros Hc. rewrite Hp. unfold bind.
      rewrite (update_stage_check_mode client m None _ log1 Hb Hc). reflexivity.
    + intros Hc. rewrite Hp. unfold bind, ApiGwStage._update_stage. rewrite Hb, Hc.
      cbn [negb ApiGwStage.restApiId ApiGwStage.stageName ApiGwStage.patchOperations].
      unfold try_except, bind, invoke, ret. rewrite Hdr, Hdn.
      destruct (update_stage client log1 rest name (p :: ps)) as [[| | |]|[]];
        try reflexivity.
      rewrite <- app_assoc. cbn [app].
      destruct (get_stage client _ rest name) as [[| | |]|st']; reflexivity.
Qed.

Lemma stage_not_found_takes_update_path_witness :
  ApiGwStage.process_request Fixtures.empty_client (Fixtures.stage_put_test true) [] =
    (Ret (mk_exit true None), [GetStage (PStr "api") (PStr "dev")]) /\
  ApiGwStage.process_request Fixtures.no_stage_client (Fixtures.stage_put_test false) [] =
    match update_stage Fixtures.no_stage_client [GetStage (PStr "api") (PStr "dev")]
            (PStr "api") (PStr "dev")
            (StageSpec.patches_against_nothing (Fixtures.stage_put_test false)) with
    | inl (BotoCoreError msg) =>
        (FailJson ("Error while updating stage via boto3: " +:+ msg),
         [GetStage (PStr "api") (PStr "dev")] ++
         [UpdateStage (PStr "api") (PStr "dev")
            (StageSpec.patches_against_nothing (Fixtures.stage_put_test false))])
    | inl e =>
        (Raised e,
         [GetStage (PStr "api") (PStr "dev")] ++
         [UpdateStage (PStr "api") (PStr "dev")
            (StageSpec.patches_against_nothing (Fixtures.stage_put_test false))])
    | inr _ =>
        match get_stage Fixtures.no_stage_client
                ([GetStage (PStr "api") (PStr "dev")] ++
                 [UpdateStage (PStr "api") (PStr "dev")
                    (StageSpec.patches_against_nothing (Fixtures.stage_put_test false))])
                (PStr "api") (PStr "dev") with
        | inr st' =>
            (Ret (mk_exit true (Some st')),
             [GetStage (PStr "api") (PStr "dev")] ++
             [UpdateStage (PStr "api") (PStr "dev")
                (StageSpec.patches_against_nothing (Fixtures.stage_put_test false));
              GetStage (PStr "api") (PStr "dev")])
        | inl (BotoCoreError msg) =>
            (FailJson ("Error while updating stage via boto3: " +:+ msg),
             [GetStage (PStr "api") (PStr "dev")] ++
             [UpdateStage (PStr "api") (PStr "dev")
                (StageSpec.patches_against_nothing (Fixtures.stage_put_test false));
              GetStage (PStr "api") (PStr "dev")])
        | inl e =>
            (Raised e,
             [GetStage (PStr "api") (PStr "dev")] ++
             [UpdateStage (PStr "api") (PStr "dev")
                (StageSpec.patches_against_nothing (Fixtures.stage_put_test false));
              GetStage (PStr "api") (PStr "dev")])
        end
    end.
Proof.
  split.
  - apply (proj1 (proj2 (proj2 (proj2 (proj2
      (stage_not_found_takes_update_path Fixtures.empty_client
         (Fixtures.stage_put_test true) [] [GetStage (PStr "api") (PStr "dev")]
         (PStr "api") (PStr "dev") eq_refl eq_refl eq_refl eq_refl))))
      ltac:(discriminate))).
    reflexivity.
  - apply (proj2 (proj2 (proj2 (proj2 (proj2
      (stage_not_found_takes_update_path Fixtures.no_stage_client
         (Fixtures.stage_put_test false) [] [GetStage (PStr "api") (PStr "dev")]
         (PStr "api") (PStr "dev") eq_refl eq_refl eq_refl eq_refl))))
      ltac:(discriminate))).
    reflexivity.
Defined.

(** ** The model module *)

Section ModelPaths.
Import ApiGwModel.
Variable client : Client.
Variable m : module.

Lemma find_model_cases log :
  let rest := dict_get (params m) "rest_api_id" in
  let name := dict_get (params m) "name" in
  _find_model client m log =
  (match get_model client log rest name true with
   | inr mdl => Ret (Some mdl)
   | inl (ClientError _ _) => Ret None
   | inl e => Raised e
   end, log ++ [GetModel rest name true]).
Proof.
  cbn zeta. unfold _find_model, try_except, bind, invoke, ret.
  destruct (get_model client log _ _ _) as [[msg|response message|k|c a]|mdl]; reflexivity.
Qed.

Lemma model_unchanged_decide model schema :
  py_eq (dict_get (params m) "schema") schema &&
  py_eq (dict_get model "description") (dict_get (params m) "description") = true
  <-> model_unchanged m model schema.
Proof.
  unfold model_unchanged, py_eq. rewrite andb_true_iff, !bool_decide_eq_true.
  reflexivity.
Qed.

Lemma update_model_unchanged model schema log :
  model !! "schema" = Some schema -> model_unchanged m model schema ->
  _update_model client m model log = (Ret (false, None), log).
Proof.
  intros Hs Hu. apply model_unchanged_decide in Hu.
  unfold _update_model, bind, getitem. rewrite Hs. unfold ret at 1. rewrite Hu.
  reflexivity.
Qed.

Lemma update_model_check_mode model schema log :
  model !! "schema" = Some schema -> ~ model_unchanged m model schema ->
  check_mode m = true ->
  _update_model client m model log = (Ret (true, None), log).
Proof.
  intros Hs Hu Hc. rewrite <- model_unchanged_decide in Hu.
  apply not_true_is_false in Hu.
  unfold _update_model, bind, getitem. rewrite Hs. unfold ret at 1. rewrite Hu, Hc.
  reflexivity.
Qed.

Lemma update_model_applies model schema log response :
  model !! "schema" = Some schema -> ~ model_unchanged m model schema ->
  check_mode m = false ->
  update_model client log (dict_get (params m) "rest_api_id")
    (dict_get (params m) "name") (_patch_builder m) = inr response ->
  _update_model client m model log =
  (Ret (true, Some response),
   log ++ [UpdateModel (dict_get (params m) "rest_api_id") (dict_get (params m) "name")
             (_patch_builder m)]).
Proof.
  intros Hs Hu Hc Hr. rewrite <- model_unchanged_decide in Hu.
  apply not_true_is_false in Hu.
  unfold _update_model, bind, getitem. rewrite Hs. unfold ret at 1. rewrite Hu, Hc.
  unfold try_except, bind, invoke, ret. rewrite Hr. reflexivity.
Qed.

Lemma create_model_check_mode log :
  check_mode m = true -> _create_model client m log = (Ret (true, None), log).
Proof. intros Hc. unfold _create_model. rewrite Hc. reflexivity. Qed.

Lemma create_model_applies log response :
  check_mode m = false ->
  create_model client log (create_args m) = inr response ->
  _create_model client m log =
  (Ret (true, Some response), log ++ [CreateModel (create_args m)]).
Proof.
  intros Hc Hr. unfold _create_model. rewrite Hc.
  unfold try_except, bind, invoke, ret. rewrite Hr. reflexivity.
Qed.

Lemma model_process_request_missing log log1 :
  _find_model client m log = (Ret None, log1) ->
  dict_get (params m) "state" <> PStr "absent" ->
  process_request client m log =
  (r <- _create_model client m ;; ret (mk_exit (fst r) (snd r))) log1.
Proof.
  intros Hf Hs. unfold process_request. unfold bind at 1. rewrite Hf.
  unfold py_eq. rewrite bool_decide_eq_false_2 by exact Hs. reflexivity.
Qed.

Lemma create_args_lookup :
  create_args m !! "restApiId" = Some (dict_get (params m) "rest_api_id") /\
  create_args m !! "name" = Some (dict_get (params m) "name") /\
  create_args m !! "contentType" = Some (dict_get (params m) "content_type") /\
  create_args m !! "schema" = Some (dict_get (params m) "schema") /\
  create_args m !! "description" = Some (dict_get (params m) "description").
Proof.
  unfold create_args. repeat split; simplify_map_eq; reflexivity.
Qed.
End ModelPaths.

(** C2 at the failing input, in the model module: the provider refuses the
    lookup with an access-denied error, [_find_model] answers not-found, and
    the invocation goes on to create the model; the stage module's lookup on
    the same error ends in [fail_json]. *)
Theorem model_lookup_maps_any_client_error_to_not_found :
  ApiGwModel._find_model Fixtures.denied_client (Fixtures.model_defaults false) [] =
  (Ret None, [ GetModel (PStr "api") (PStr "Model") true ]) /\
  ApiGwModel.process_request Fixtures.denied_client (Fixtures.model_defaults false) [] =
  (Ret (mk_exit true
          (Some (<["id" := PStr "new_model"]>
                   (ApiGwModel.create_args (Fixtures.model_defaults false))))),
   [ GetModel (PStr "api") (PStr "Model") true;
     CreateModel (ApiGwModel.create_args (Fixtures.model_defaults false)) ]) /\
  ApiGwStage._find_stage Fixtures.denied_client (Fixtures.stage_nothing false) [] =
  (FailJson "Error while finding stage via boto3: An error occurred (AccessDeniedException)",
   [ GetStage (PStr "api") (PStr "dev") ]).
Proof.
  repeat split.
Qed.

Lemma build_patch_args_nonempty st m args :
  ApiGwStage.build_patch_args st m = inr (Some args) ->
  ApiGwStage.patchOperations args <> [].
Proof.
  unfold ApiGwStage.build_patch_args.
  destruct (ApiGwStage.method_patches _ _ _) as [e|[|p ps]]; try discriminate.
  destruct (ApiGwStage.sparams m !! "rest_api_id"); try discriminate.
  destruct (ApiGwStage.sparams m !! "name"); try discriminate.
  intros H. inversion H. discriminate.
Qed.

(** C3 as stated fails in the stage module: the stage is found, the
    ChangeSet is empty, and the invocation returns a null object instead of
    the observed stage. *)
Lemma update_path_returns_observed_counterexample :
  ApiGwStage.build_patch_args (Some Fixtures.dev_stage) (Fixtures.stage_nothing false)
    = inr None /\
  ApiGwStage.process_request Fixtures.present_client (Fixtures.stage_nothing false) [] =
    (Ret (mk_exit false None), [ GetStage (PStr "api") (PStr "dev") ]) /\
  object (mk_exit (O := stage) false None) <> Some Fixtures.dev_stage.
Proof. repeat split. discriminate. Qed.

(** C3, amended: the update path of each module, on a found object.
    api_key: an empty ChangeSet gives no call, changed=false and the observed
    key; a non-empty one gives changed=true, under check mode with no call
    and the observed key, otherwise one update call followed by a re-fetch
    whose result is returned.
    stage: an empty ChangeSet gives no call, changed=false and a null object;
    a non-empty one gives changed=true, under check mode with no call and a
    null object, otherwise one update call followed by a re-fetch of the
    stage, which is returned.
    model: when the desired schema and description equal the observed ones,
    no call, changed=false and a null object; otherwise changed=true, under
    check mode with no call and a null object, else one update call whose own
    response is returned (there is no re-fetch). *)
Theorem update_path_outcomes :
  (forall client m me log,
     let patches := ApiGwApiKey._create_patches (params m) me in
     (patches = [] ->
      ApiGwApiKey._update_api_key client m me log = (Ret (false, Some me), log)) /\
     (patches <> [] -> check_mode m = true ->
      ApiGwApiKey._update_api_key client m me log = (Ret (true, Some me), log)) /\
     (forall id,
        patches <> [] -> check_mode m = false -> me !! "id" = Some id ->
        update_api_key client log id patches = inr tt ->
        ApiGwApiKey._update_api_key client m me log =
        (api_key <- ApiGwApiKey._retrieve_api_key client m ;; ret (true, api_key))
          (log ++ [UpdateApiKey id patches]))) /\
  (forall client m st log,
     (ApiGwStage.build_patch_args (Some st) m = inr None ->
      ApiGwStage._update_stage client m (Some st) log = (Ret (false, None), log)) /\
     (forall args,
        ApiGwStage.build_patch_args (Some st) m = inr (Some args) ->
        ApiGwStage.patchOperations args <> [] /\
        (ApiGwStage.scheck_mode m = true ->
         ApiGwStage._update_stage client m (Some st) log = (Ret (true, None), log)) /\
        (forall st',
           ApiGwStage.scheck_mode m = false ->
           update_stage client log (ApiGwStage.restApiId args) (ApiGwStage.stageName args)
             (ApiGwStage.patchOperations args) = inr tt ->
           get_stage client
             (log ++ [UpdateStage (ApiGwStage.restApiId args) (ApiGwStage.stageName args)
                        (ApiGwStage.patchOperations args)])
             (dict_get (ApiGwStage.sparams m) "rest_api_id")
             (dict_get (ApiGwStage.sparams m) "name") = inr st' ->
           ApiGwStage._update_stage client m (Some st) log =
           (Ret (true, Some st'),
            log ++ [UpdateStage (ApiGwStage.restApiId args) (ApiGwStage.stageName args)
                      (ApiGwStage.patchOperations args);
                    GetStage (dict_get (ApiGwStage.sparams m) "rest_api_id")
                      (dict_get (ApiGwStage.sparams m) "name")])))) /\
  (forall client m model schema log,
     model !! "schema" = Some schema ->
     (model_unchanged m model schema ->
      ApiGwModel._update_model client m model log = (Ret (false, None), log)) /\
     (~ model_unchanged m model schema -> check_mode m = true ->
      ApiGwModel._update_model client m model log = (Ret (true, None), log)) /\
     (forall response,
        ~ model_unchanged m model schema -> check_mode m = false ->
        update_model client log (dict_get (params m) "rest_api_id")
          (dict_get (params m) "name") (ApiGwModel._patch_builder m) = inr response ->
        ApiGwModel._update_model client m model log =
        (Ret (true, Some response),
         log ++ [UpdateModel (dict_get (params m) "rest_api_id")
                   (dict_get (params m) "name") (ApiGwModel._patch_builder m)]))).
Proof.
  split; [|split].
  - intros client m me log patches. split; [|split].
    + apply update_api_key_unchanged.
    + apply update_api_key_check_mode.
    + intros id. apply update_api_key_applies.
  - intros client m st log. split.
    + apply update_stage_unchanged.
    + intros args Hb. split; [eapply build_patch_args_nonempty; exact Hb|]. split.
      * intros Hc. eapply update_stage_check_mode; eassumption.
      * intros st' Hc Hu Hg. apply update_stage_applies; assumption.
  - intros client m model schema log Hs. split; [|split].
    + apply update_model_unchanged; assumption.
    + apply update_model_check_mode; assumption.
    + intros response. apply update_model_applies; assumption.
Qed.

Lemma update_path_outcomes_witness :
  ApiGwModel._update_model Fixtures.present_client (Fixtures.model_new_description false)
    Fixtures.model_pdf [] =
  (Ret (true, Some {[ "id" := PStr "updated_model" ]}),
   [] ++ [UpdateModel
            (dict_get (params (Fixtures.model_new_description false)) "rest_api_id")
            (dict_get (params (Fixtures.model_new_description false)) "name")
            (ApiGwModel._patch_builder (Fixtures.model_new_description false))]).
Proof.
  apply (proj2 (proj2 (proj2 (proj2 update_path_outcomes) Fixtures.present_client
           (Fixtures.model_new_description false) Fixtures.model_pdf (PStr "{}") []
           eq_refl))).
  - intros [_ Hd]. vm_compute in Hd. discriminate.
  - reflexivity.
  - reflexivity.
Defined.

Lemma update_model_calls client m model log :
  snd (ApiGwModel._update_model client m model log) = log \/
  snd (ApiGwModel._update_model client m model log) =
  log ++ [UpdateModel (dict_get (params m) "rest_api_id") (dict_get (params m) "name")
            (ApiGwModel._patch_builder m)].
Proof.
  unfold ApiGwModel._update_model, bind, getitem.
  destruct (model !! "schema") as [schema|]; cbn; [|left; reflexivity].
  destruct (_ && _); [left; reflexivity|].
  destruct (check_mode m); [left; reflexivity|]. right.
  unfold try_except, bind, invoke, ret.
  destruct (update_model client log _ _ _) as [[| | |]|]; reflexivity.
Qed.

(** C4 as stated fails in the model module: the desired and the observed
    schema are equal, only the description differs, and the update call
    still carries a replace operation on [/schema]. *)
Lemma diff_only_differing_fields_counterexample :
  Fixtures.model_pdf !! "schema" = Some (PStr "{}") /\
  dict_get (params (Fixtures.model_new_description false)) "schema" = PStr "{}" /\
  ApiGwModel._update_model Fixtures.present_client (Fixtures.model_new_description false)
    Fixtures.model_pdf [] =
  (Ret (true, Some {[ "id" := PStr "updated_model" ]}),
   [ UpdateModel (PStr "api") (PStr "Model")
       [ {| op := "replace"; path := "/schema"; value := PStr "{}" |};
         {| op := "replace"; path := "/description"; value := PStr "new" |} ] ]).
Proof. repeat split. Qed.

(** C4, amended: the api_key diff builder and the attribute loop of the
    stage diff builder emit a replace operation only for a field that the
    user supplied (a value other than None) and that is absent from the
    observed state or whose stringified observed value differs from the
    stringified desired value; the operation carries the stringified desired
    value. The model module has no per-field diff: every update call it
    issues carries both a [/schema] and a [/description] replace operation
    with the desired values, whichever of the two differs. *)
Theorem diff_only_differing_fields :
  (forall (params me : gmap string pyval) p,
     p ∈ ApiGwApiKey._create_patches params me ->
     exists param v,
       (param = "enabled" \/ param = "description") /\
       params !! param = Some v /\ v <> PNone /\
       p = {| op := "replace"; path := "/" +:+ param; value := PStr (py_str v) |} /\
       (me !! param = None \/
        exists cur, me !! param = Some cur /\ py_str v <> py_str cur)) /\
  (forall (attrs ps : gmap string pyval) p,
     p ∈ ApiGwStage.attr_patches attrs ps ->
     exists a b v,
       (a, b) ∈ ApiGwStage.arg_map /\
       ps !! a = Some v /\ v <> PNone /\
       p = {| op := "replace"; path := "/" +:+ b; value := PStr (py_str v) |} /\
       (attrs !! b = None \/
        exists cur, attrs !! b = Some cur /\ py_str v <> py_str cur)) /\
  (forall client m model log,
     exists extra,
       snd (ApiGwModel._update_model client m model log) = log ++ extra /\
       forall rest name ops,
         UpdateModel rest name ops ∈ extra ->
         ops = [ {| op := "replace"; path := "/schema";
                    value := dict_get (params m) "schema" |};
                 {| op := "replace"; path := "/description";
                    value := dict_get (params m) "description" |} ]).
Proof.
  split; [|split].
  - intros params me p Hp. rewrite create_patches_split in Hp.
    apply elem_of_app in Hp as [Hp|Hp];
      apply patch_step_elem in Hp as (v & Hv & Hn & -> & Ho);
      eexists _, v; (split; [|split; [exact Hv|split; [exact Hn|split; [reflexivity|exact Ho]]]]);
      [left|right]; reflexivity.
  - intros attrs ps p Hp. rewrite attr_patches_split in Hp.
    apply elem_of_app in Hp as [Hp|Hp]; [|apply elem_of_app in Hp as [Hp|Hp]];
      apply attr_step_elem in Hp as (v & Hv & Hn & -> & Ho);
      eexists _, _, v;
      (split; [|split; [exact Hv|split; [exact Hn|split; [reflexivity|exact Ho]]]]);
      apply list_elem_of_In; cbn; auto.
  - intros client m model log.
    destruct (update_model_calls client m model log) as [H|H]; rewrite H.
    + exists []. rewrite app_nil_r. split; [reflexivity|]. intros ? ? ? Hin; inversion Hin.
    + eexists. split; [reflexivity|]. intros rest name ops Hin.
      apply list_elem_of_singleton in Hin. inversion Hin. reflexivity.
Qed.

Lemma diff_only_differing_fields_witness :
  exists param v,
    (param = "enabled" \/ param = "description") /\
    Fixtures.key_params !! param = Some v /\ v <> PNone /\
    {| op := "replace"; path := "/enabled"; value := PStr "False" |} =
    {| op := "replace"; path := "/" +:+ param; value := PStr (py_str v) |} /\
    (Fixtures.key_testify !! param = None \/
     exists cur, Fixtures.key_testify !! param = Some cur /\ py_str v <> py_str cur).
Proof.
  apply (proj1 diff_only_differing_fields Fixtures.key_params Fixtures.key_testify).
  vm_compute. left.
Defined.

(** ** The create paths *)

Section ApiKeyCreate.
Import ApiGwApiKey.
Variable client : Client.
Variable m : module.

Lemma create_args_optional name opt :
  opt = "description" \/ opt = "value" ->
  create_args m name !! opt =
  (let v := dict_get (params m) opt in
   if py_eq v PNone || py_eq v (PStr "") then None else Some v).
Proof.
  unfold create_args. cbn [foldl].
  intros [-> | ->]; cbn zeta;
    destruct (py_eq (dict_get (params m) "description") PNone ||
              py_eq (dict_get (params m) "description") (PStr ""));
    destruct (py_eq (dict_get (params m) "value") PNone ||
              py_eq (dict_get (params m) "value") (PStr ""));
    cbn [negb]; simplify_map_eq; reflexivity.
Qed.

Lemma create_args_required name :
  create_args m name !! "name" = Some name /\
  create_args m name !! "enabled" = Some (default (PBool false) (params m !! "enabled")) /\
  create_args m name !! "generateDistinctId" =
    Some (default (PBool false) (params m !! "generate_distinct_id")).
Proof.
  unfold create_args. cbn [foldl].
  destruct (py_eq (dict_get (params m) "description") PNone ||
            py_eq (dict_get (params m) "description") (PStr ""));
    destruct (py_eq (dict_get (params m) "value") PNone ||
              py_eq (dict_get (params m) "value") (PStr ""));
    cbn [negb]; repeat split; simplify_map_eq; reflexivity.
Qed.

Lemma create_api_key_check_mode log :
  check_mode m = true -> _create_api_key client m log = (Ret (true, None), log).
Proof. intros Hc. unfold _create_api_key, try_except. rewrite Hc. reflexivity. Qed.

Lemma create_api_key_applies log name response :
  check_mode m = false -> params m !! "name" = Some name ->
  create_api_key client log (create_args m name) = inr response ->
  _create_api_key client m log =
  (Ret (true, Some response), log ++ [CreateApiKey (create_args m name)]).
Proof.
  intros Hc Hn Hr. unfold _create_api_key, try_except. rewrite Hc. cbn [negb].
  unfold bind, getitem, invoke, ret. rewrite Hn, Hr. reflexivity.
Qed.

Lemma api_key_process_request_missing log log1 :
  _retrieve_api_key client m log = (Ret None, log1) ->
  state_or_present (params m) = PStr "present" ->
  process_request client m log =
  (r <- _create_api_key client m ;; ret (mk_exit (fst r) (snd r))) log1.
Proof.
  intros Hf Hs. unfold process_request. unfold bind at 1. rewrite Hf, Hs. reflexivity.
Qed.
End ApiKeyCreate.

(** C6 as stated fails in the model module: with the argument-spec default
    (an empty description) and no model found, the create call carries
    [description] with the empty string as its value. *)
Lemma create_only_nonempty_optional_fields_counterexample :
  dict_get (params (Fixtures.model_defaults false)) "description" = PStr "" /\
  ApiGwModel.process_request Fixtures.empty_client (Fixtures.model_defaults false) [] =
  (Ret (mk_exit true
          (Some (<["id" := PStr "new_model"]>
                   (ApiGwModel.create_args (Fixtures.model_defaults false))))),
   [ GetModel (PStr "api") (PStr "Model") true;
     CreateModel (ApiGwModel.create_args (Fixtures.model_defaults false)) ]) /\
  ApiGwModel.create_args (Fixtures.model_defaults false) !! "description" =
    Some (PStr "").
Proof. repeat split. Qed.

Lemma api_key_create_args_pointwise (m : module) (name : pyval) (k : string) :
  ApiGwApiKey.create_args m name !! k =
  if decide (k = "name") then Some name
  else if decide (k = "enabled")
  then Some (default (PBool false) (params m !! "enabled"))
  else if decide (k = "generateDistinctId")
  then Some (default (PBool false) (params m !! "generate_distinct_id"))
  else if decide (k = "description" \/ k = "value")
  then (let v := dict_get (params m) k in
        if py_eq v PNone || py_eq v (PStr "") then None else Some v)
  else None.
Proof.
  unfold ApiGwApiKey.create_args. cbn [foldl]. cbn zeta.
  destruct (py_eq (dict_get (params m) "description") PNone ||
            py_eq (dict_get (params m) "description") (PStr "")) eqn:Hd;
    destruct (py_eq (dict_get (params m) "value") PNone ||
              py_eq (dict_get (params m) "value") (PStr "")) eqn:Hv;
    cbn [negb];
    repeat case_decide; subst; simplify_map_eq;
    repeat match goal with
           | H : _ \/ _ |- _ => destruct H; subst
           | H : ~ (_ \/ _) |- _ => apply Decidable.not_or in H; destruct H
           end;
    simplify_map_eq; rewrite ?Hd, ?Hv; try reflexivity; try congruence.
Qed.

Lemma model_create_args_pointwise (m : module) (k : string) :
  ApiGwModel.create_args m !! k =
  if decide (k = "restApiId") then Some (dict_get (params m) "rest_api_id")
  else if decide (k = "name") then Some (dict_get (params m) "name")
  else if decide (k = "contentType") then Some (dict_get (params m) "content_type")
  else if decide (k = "schema") then Some (dict_get (params m) "schema")
  else if decide (k = "description") then Some (dict_get (params m) "description")
  else None.
Proof.
  unfold ApiGwModel.create_args.
  repeat case_decide; subst; simplify_map_eq; reflexivity.
Qed.

(** C6, amended: with state=present and nothing found, changed=true is
    reported; under check mode no call is issued and the object is null,
    otherwise exactly one create call is issued and its response returned.
    In the api_key module the arguments carry exactly name (the asked name),
    enabled and generateDistinctId (the supplied values, False when the
    parameter is missing), and description or value only when the supplied
    value is neither None nor the empty string; no other key. In the model
    module the arguments carry exactly restApiId, name, contentType, schema
    and description with the supplied values, whatever they are (None and
    the empty string included). *)
Theorem create_path_outcomes :
  (forall client m log log1 name,
     ApiGwApiKey._retrieve_api_key client m log = (Ret None, log1) ->
     state_or_present (params m) = PStr "present" ->
     params m !! "name" = Some name ->
     let args := ApiGwApiKey.create_args m name in
     (forall k,
        args !! k =
        if decide (k = "name") then Some name
        else if decide (k = "enabled")
        then Some (default (PBool false) (params m !! "enabled"))
        else if decide (k = "generateDistinctId")
        then Some (default (PBool false) (params m !! "generate_distinct_id"))
        else if decide (k = "description" \/ k = "value")
        then (let v := dict_get (params m) k in
              if py_eq v PNone || py_eq v (PStr "") then None else Some v)
        else None) /\
     (check_mode m = true ->
      ApiGwApiKey.process_request client m log = (Ret (mk_exit true None), log1)) /\
     (forall response,
        check_mode m = false -> create_api_key client log1 args = inr response ->
        ApiGwApiKey.process_request client m log =
        (Ret (mk_exit true (Some response)), log1 ++ [CreateApiKey args]))) /\
  (forall client m log log1,
     ApiGwModel._find_model client m log = (Ret None, log1) ->
     dict_get (params m) "state" <> PStr "absent" ->
     let args := ApiGwModel.create_args m in
     (forall k,
        args !! k =
        if decide (k = "restApiId") then Some (dict_get (params m) "rest_api_id")
        else if decide (k = "name") then Some (dict_get (params m) "name")
        else if decide (k = "contentType") then Some (dict_get (params m) "content_type")
        else if decide (k = "schema") then Some (dict_get (params m) "schema")
        else if decide (k = "description") then Some (dict_get (params m) "description")
        else None) /\
     (check_mode m = true ->
      ApiGwModel.process_request client m log = (Ret (mk_exit true None), log1)) /\
     (forall response,
        check_mode m = false -> create_model client log1 args = inr response ->
        ApiGwModel.process_request client m log =
        (Ret (mk_exit true (Some response)), log1 ++ [CreateModel args]))).
Proof.
  split.
  - intros client m log log1 name Hf Hs Hn args.
    pose proof (api_key_process_request_missing client m log log1 Hf Hs) as Hp.
    split; [apply api_key_create_args_pointwise|]. split.
    + intros Hc. rewrite Hp. unfold bind.
      rewrite (create_api_key_check_mode client m log1 Hc). reflexivity.
    + intros response Hc Hr. rewrite Hp. unfold bind.
      rewrite (create_api_key_applies client m log1 name response Hc Hn Hr). reflexivity.
  - intros client m log log1 Hf Hs args.
    pose proof (model_process_request_missing client m log log1 Hf Hs) as Hp.
    split; [apply model_create_args_pointwise|]. split.
    + intros Hc. rewrite Hp. unfold bind.
      rewrite (create_model_check_mode client m log1 Hc). reflexivity.
    + intros response Hc Hr. rewrite Hp. unfold bind.
      rewrite (create_model_applies client m log1 response Hc Hr). reflexivity.
Qed.

Lemma create_path_outcomes_witness :
  ApiGwApiKey.process_request Fixtures.empty_client (Fixtures.key_module false) [] =
  (Ret (mk_exit true
          (Some (<["id" := PStr "new_key"]>
                   (ApiGwApiKey.create_args (Fixtures.key_module false) (PStr "testify"))))),
   [GetApiKeys (PStr "testify") true] ++
   [CreateApiKey (ApiGwApiKey.create_args (Fixtures.key_module false) (PStr "testify"))]) /\
  ApiGwApiKey.create_args (Fixtures.key_module false) (PStr "testify") !! "name"
    = Some (PStr "testify") /\
  ApiGwApiKey.create_args (Fixtures.key_module false) (PStr "testify") !! "enabled"
    = Some (PBool false) /\
  ApiGwApiKey.create_args (Fixtures.key_module false) (PStr "testify") !! "generateDistinctId"
    = Some (PBool true) /\
  ApiGwApiKey.create_args (Fixtures.key_module false) (PStr "testify") !! "description"
    = None /\
  ApiGwApiKey.create_args (Fixtures.key_module false) (PStr "testify") !! "value"
    = Some (PStr "other") /\
  ApiGwApiKey.create_args (Fixtures.key_module false) (PStr "testify") !! "state"
    = None /\
  ApiGwModel.create_args (Fixtures.model_defaults false) !! "restApiId"
    = Some (PStr "api") /\
  ApiGwModel.create_args (Fixtures.model_defaults false) !! "name"
    = Some (PStr "Model") /\
  ApiGwModel.create_args (Fixtures.model_defaults false) !! "description"
    = Some (PStr "").
Proof.
  pose proof (proj1 create_path_outcomes Fixtures.empty_client (Fixtures.key_module false)
                [] [GetApiKeys (PStr "testify") true] (PStr "testify")
                eq_refl eq_refl eq_refl) as (Hargs & _ & Hrun).
  pose proof (proj2 create_path_outcomes Fixtures.empty_client
                (Fixtures.model_defaults false)
                [] [GetModel (PStr "api") (PStr "Model") true]
                eq_refl ltac:(discriminate)) as (Hmodel & _ & _).
  split; [apply Hrun; reflexivity|].
  exact (conj (Hargs "name") (conj (Hargs "enabled") (conj (Hargs "generateDistinctId")
          (conj (Hargs "description") (conj (Hargs "value") (conj (Hargs "state")
          (conj (Hmodel "restApiId") (conj (Hmodel "name") (Hmodel "description"))))))))).
Defined.

(** ** The path-tree builder *)

Section PathTree.
Import ApiGwResource.
Variable client : Client.
Variable m : resource_module.

Lemma last_cons_default {A} (x y : A) (l : list A) :
  default y (last (x :: l)) = default x (last l).
Proof. rewrite last_cons. destruct (last l); reflexivity. Qed.

Lemma create_chain_run :
  (forall log parent part, exists resp id,
     create_resource client log (rest_api_id m) parent part = inr resp /\
     resp !! "id" = Some id) ->
  forall segs prev pid log,
    prev !! "id" = Some pid ->
    exists resps,
      List.length resps = List.length segs /\
      create_chain client m prev segs log =
        (Ret (default prev (last resps)), log ++ chain_calls (rest_api_id m) pid resps segs) /\
      (forall i resp, resps !! i = Some resp ->
         exists parent part,
           chain_calls (rest_api_id m) pid resps segs !! i =
             Some (CreateResource (rest_api_id m) parent part) /\
           create_resource client (log ++ take i (chain_calls (rest_api_id m) pid resps segs))
             (rest_api_id m) parent part = inr resp).
Proof.
  intros Hok. induction segs as [|part more IH]; intros prev pid log Hid.
  - exists []. split; [reflexivity|]. split.
    + cbn. rewrite app_nil_r. reflexivity.
    + intros i resp Hi. rewrite lookup_nil in Hi. discriminate.
  - destruct (Hok log pid part) as (resp & id & Hresp & Hrid).
    destruct (IH resp id (log ++ [CreateResource (rest_api_id m) pid part]) Hrid)
      as (resps & Hlen & Hrun & Hidx).
    assert (Hg : dict_get resp "id" = id) by (unfold dict_get; rewrite Hrid; reflexivity).
    exists (resp :: resps). split; [cbn; rewrite Hlen; reflexivity|]. split.
    + cbn [create_chain]. unfold bind at 1 2. unfold getitem. rewrite Hid.
      unfold ret at 1. unfold invoke. rewrite Hresp. rewrite Hrun.
      rewrite last_cons_default. unfold chain_calls. cbn [map zip_with].
      rewrite Hg, <- app_assoc. reflexivity.
    + intros [|i] r Hi.
      * cbn in Hi. inversion Hi; subst r. exists pid, part. split; [reflexivity|].
        cbn [take]. rewrite app_nil_r. exact Hresp.
      * cbn in Hi. destruct (Hidx i r Hi) as (parent & part' & Hc & Hr).
        exists parent, part'. unfold chain_calls in *. cbn [map zip_with]. rewrite Hg.
        split; [exact Hc|]. cbn [take]. rewrite <- app_assoc in Hr. exact Hr.
Qed.
End PathTree.

Lemma longest_prefix_le (paths : gmap string (gmap string pyval)) segs n k :
  ApiGwResource.longest_prefix paths segs n = Some k -> k <= n.
Proof.
  revert k. induction n as [|n IH]; intros k; cbn [ApiGwResource.longest_prefix];
    destruct (dict_has paths _); intros H; try (inversion H; subst; lia).
  apply IH in H. lia.
Qed.

Lemma longest_prefix_found (paths : gmap string (gmap string pyval)) segs n k :
  k <= n ->
  is_Some (paths !! ApiGwResource.prefix_path segs k) ->
  (forall j, k < j <= n -> paths !! ApiGwResource.prefix_path segs j = None) ->
  ApiGwResource.longest_prefix paths segs n = Some k.
Proof.
  intros Hle Hk. induction n as [|n IH]; intros Hno; cbn [ApiGwResource.longest_prefix].
  - assert (k = 0) by lia. subst k. unfold dict_has.
    rewrite bool_decide_eq_true_2 by exact Hk. reflexivity.
  - destruct (decide (k = S n)) as [->|Hne].
    + unfold dict_has. rewrite bool_decide_eq_true_2 by exact Hk. reflexivity.
    + unfold dict_has. rewrite bool_decide_eq_false_2.
      * apply IH; [lia|]. intros j Hj. apply Hno. lia.
      * rewrite (Hno (S n)) by lia. intros [x Hx]. discriminate.
Qed.



(** * Further properties *)

(** ** How invocations compose *)

Section Combinators.
Context {A B : Type}.

Lemma only_reads_ret (a : A) : only_reads (ret a).
Proof. intros log. exists []. rewrite app_nil_r. split; [reflexivity|constructor]. Qed.

Lemma only_reads_fail_json msg : only_reads (fail_json (A := A) msg).
Proof. intros log. exists []. rewrite app_nil_r. split; [reflexivity|constructor]. Qed.

Lemma only_reads_raise e : only_reads (raise (A := A) e).
Proof. intros log. exists []. rewrite app_nil_r. split; [reflexivity|constructor]. Qed.

Lemma only_reads_invoke c (answer : list call -> exn + A) :
  mutating c = false -> only_reads (invoke c answer).
Proof.
  intros Hc log. exists [c]. unfold invoke.
  destruct (answer log); (split; [reflexivity|repeat constructor; exact Hc]).
Qed.

Lemma only_reads_bind (m : M A) (k : A -> M B) :
  only_reads m -> (forall a, only_reads (k a)) -> only_reads (bind m k).
Proof.
  intros Hm Hk log. destruct (Hm log) as (e1 & H1 & F1). unfold bind.
  destruct (m log) as [[a|msg|e] l]; cbn in H1; subst l.
  - destruct (Hk a (log ++ e1)) as (e2 & H2 & F2). exists (e1 ++ e2).
    rewrite H2, app_assoc. split; [reflexivity|]. apply Forall_app; split; assumption.
  - exists e1. split; [reflexivity|assumption].
  - exists e1. split; [reflexivity|assumption].
Qed.

Lemma only_reads_try_except (body : M A) handler :
  only_reads body ->
  (forall e h, handler e = Some h -> only_reads h) ->
  only_reads (try_except body handler).
Proof.
  intros Hb Hh log. destruct (Hb log) as (e1 & H1 & F1). unfold try_except.
  destruct (body log) as [[a|msg|e] l]; cbn in H1; subst l;
    try (exists e1; split; [reflexivity|assumption]).
  destruct (handler e) as [h|] eqn:He.
  - destruct (Hh e h He (log ++ e1)) as (e2 & H2 & F2). exists (e1 ++ e2).
    rewrite H2, app_assoc. split; [reflexivity|]. apply Forall_app; split; assumption.
  - exists e1. split; [reflexivity|assumption].
Qed.

Lemma never_raises_ret P (a : A) : never_raises P (ret a).
Proof. intros log e H. discriminate. Qed.

Lemma never_raises_fail_json P msg : never_raises P (fail_json (A := A) msg).
Proof. intros log e H. discriminate. Qed.

Lemma never_raises_raise (P : exn -> Prop) e : ~ P e -> never_raises P (raise (A := A) e).
Proof. intros Hn log e' H. inversion H; subst. exact Hn. Qed.

Lemma never_raises_bind P (m : M A) (k : A -> M B) :
  never_raises P m -> (forall a, never_raises P (k a)) -> never_raises P (bind m k).
Proof.
  intros Hm Hk log e. unfold bind. pose proof (Hm log) as H1.
  destruct (m log) as [[a|msg|e'] l]; cbn in *.
  - apply Hk.
  - discriminate.
  - intros H. inversion H; subst. apply H1. reflexivity.
Qed.

Lemma never_raises_try_except (P : exn -> Prop) (body : M A) handler :
  (forall e, P e -> exists h, handler e = Some h) ->
  (forall e h, handler e = Some h -> never_raises P h) ->
  never_raises P (try_except body handler).
Proof.
  intros Hc Hh log e. unfold try_except.
  destruct (body log) as [[a|msg|e'] l]; cbn; try discriminate.
  destruct (handler e') as [h|] eqn:He.
  - apply (Hh e' h He).
  - intros H. inversion H; subst. intros HP. destruct (Hc e HP) as [h Hs]. congruence.
Qed.
End Combinators.

Lemma never_raises_getitem P (d : gmap string pyval) k :
  (forall key, ~ P (KeyError key)) -> never_raises P (getitem d k).
Proof.
  intros Hk. unfold getitem. destruct (d !! k).
  - apply never_raises_ret.
  - apply never_raises_raise, Hk.
Qed.

Lemma only_reads_getitem (d : gmap string pyval) k : only_reads (getitem d k).
Proof.
  unfold getitem. destruct (d !! k); [apply only_reads_ret|apply only_reads_raise].
Qed.

Lemma key_error_not_boto key : ~ is_boto_core_error (KeyError key).
Proof. intros [msg H]. discriminate. Qed.

Lemma key_error_not_client key : ~ is_client_error (KeyError key).
Proof. intros (r & msg & H). discriminate. Qed.

Lemma attribute_error_not_client c a : ~ is_client_error (AttributeError c a).
Proof. intros (r & msg & H). discriminate. Qed.

(** ** Check mode and escaping exceptions, module by module *)

Ltac reads_step :=
  first [ apply only_reads_ret | apply only_reads_fail_json | apply only_reads_raise
        | apply only_reads_getitem | apply only_reads_invoke; reflexivity
        | apply only_reads_bind; [|intros ?]
        | apply only_reads_try_except;
          [|let e := fresh "e" in let h := fresh "h" in let He := fresh "He" in
            intros e h He; destruct e; inversion He; subst; clear He] ].

Ltac confined_step :=
  first [ apply never_raises_ret | apply never_raises_fail_json
        | apply never_raises_getitem; first [apply key_error_not_boto | apply key_error_not_client]
        | apply never_raises_raise;
          first [apply key_error_not_boto | apply key_error_not_client
                | apply attribute_error_not_client]
        | apply never_raises_bind; [|intros ?] ].

Section ApiKeyModes.
Import ApiGwApiKey.
Variable client : Client.
Variable m : module.

Lemma match_items_reads name items resp : only_reads (match_items name items resp).
Proof.
  revert resp. induction items as [|item rest IH]; intros resp; cbn [match_items].
  - apply only_reads_ret.
  - apply only_reads_bind; [apply only_reads_getitem|intros n; apply IH].
Qed.

Lemma retrieve_api_key_reads : only_reads (_retrieve_api_key client m).
Proof.
  unfold _retrieve_api_key. repeat reads_step. apply match_items_reads.
Qed.

Lemma api_key_check_mode_reads :
  check_mode m = true -> only_reads (process_request client m).
Proof.
  intros Hc. unfold process_request.
  apply only_reads_bind; [apply retrieve_api_key_reads|intros me].
  unfold _delete_api_key, _update_api_key, _create_api_key. rewrite Hc. cbn [negb].
  destruct me as [me|]; repeat (case_match; repeat reads_step).
Qed.

Lemma boto_handled {A} (body : M A) prefix :
  never_raises is_boto_core_error
    (try_except body
       (fun e => match e with
                 | BotoCoreError _ => Some (fail_json (prefix +:+ exn_str e))
                 | _ => None
                 end)).
Proof.
  apply never_raises_try_except.
  - intros e [msg ->]. eexists. reflexivity.
  - intros e h He. destruct e; inversion He. apply never_raises_fail_json.
Qed.

Lemma api_key_boto_confined :
  never_raises is_boto_core_error (process_request client m).
Proof.
  unfold process_request.
  apply never_raises_bind; [apply boto_handled|intros me].
  destruct me as [me|]; repeat case_match; repeat confined_step; apply boto_handled.
Qed.
End ApiKeyModes.

Section ModelModes.
Import ApiGwModel.
Variable client : Client.
Variable m : module.

Lemma model_check_mode_reads :
  check_mode m = true -> only_reads (process_request client m).
Proof.
  intros Hc. unfold process_request.
  apply only_reads_bind; [unfold _find_model; repeat reads_step|intros model].
  unfold _delete_model, _update_model, _create_model. rewrite Hc. cbn [negb].
  destruct model as [model|]; repeat (case_match; repeat reads_step).
Qed.

Lemma model_client_error_confined :
  never_raises is_client_error (process_request client m).
Proof.
  unfold process_request. apply never_raises_bind.
  { unfold _find_model. apply never_raises_try_except.
    - intros e (r & msg & ->). eexists. reflexivity.
    - intros e h He. destruct e; inversion He. apply never_raises_ret. }
  intros model. unfold _delete_model, _update_model, _create_model.
  destruct model as [model|]; repeat first [confined_step | case_match].
  all: apply never_raises_try_except;
    [ intros e (r & msg & ->); eexists; reflexivity
    | intros e h He; destruct e; inversion He; subst; clear He ].
  all: repeat first [confined_step | case_match].
Qed.
End ModelModes.

Section StageModes.
Import ApiGwStage.
Variable client : Client.
Variable m : stage_module.

Lemma method_patches_error stg ms patches e :
  method_patches stg ms patches = inl e -> e = KeyError "cachingEnabled".
Proof.
  revert patches. induction ms as [|x rest IH]; intros patches; cbn [method_patches].
  - discriminate.
  - repeat case_match; try apply IH. intros Hi. inversion Hi. reflexivity.
Qed.

Lemma build_patch_args_error st e :
  build_patch_args st m = inl e -> exists key, e = KeyError key.
Proof.
  unfold build_patch_args.
  destruct (method_patches _ _ _) as [e'|[|p ps]] eqn:Hm.
  - intros Hi. inversion Hi; subst. apply method_patches_error in Hm. eauto.
  - discriminate.
  - repeat case_match; intros Hi; inversion Hi; eauto.
Qed.

Lemma find_stage_reads : only_reads (_find_stage client m).
Proof.
  unfold _find_stage. repeat reads_step. case_match; repeat reads_step.
Qed.

Lemma stage_check_mode_reads :
  scheck_mode m = true -> only_reads (process_request client m).
Proof.
  intros Hc. unfold process_request.
  apply only_reads_bind; [apply find_stage_reads|intros st].
  unfold _delete_stage, _update_stage. rewrite Hc. cbn [negb].
  repeat (case_match; repeat reads_step).
Qed.

Lemma stage_boto_confined :
  never_raises is_boto_core_error (process_request client m).
Proof.
  unfold process_request. apply never_raises_bind.
  { unfold _find_stage. apply never_raises_try_except.
    - intros e [msg ->]. eexists. reflexivity.
    - intros e h He. destruct e; inversion He.
      + apply never_raises_fail_json.
      + destruct (str_contains _ _); [apply never_raises_ret|apply never_raises_fail_json]. }
  intros st. unfold _delete_stage, _update_stage.
  repeat case_match; repeat confined_step; try apply boto_handled.
  match goal with H : build_patch_args _ _ = inl _ |- _ =>
    apply build_patch_args_error in H as [key ->] end.
  apply never_raises_raise, key_error_not_boto.
Qed.
End StageModes.

(** ** The API key lookup *)

Section ApiKeyLookup.
Import ApiGwApiKey.
Variable client : Client.
Variable m : module.

Lemma match_items_last name (items : list (gmap string pyval)) resp log :
  (forall item, item ∈ items -> is_Some (item !! "name")) ->
  match_items name items resp log =
  (Ret (match last (filter (fun item => item !! "name" = Some name) items) with
        | Some item => Some item
        | None => resp
        end), log).
Proof.
  revert resp. induction items as [|item rest IH]; intros resp Hn; [reflexivity|].
  cbn [match_items]. unfold bind, getitem.
  destruct (Hn item ltac:(left)) as [n Hi]. rewrite Hi. cbn -[filter last match_items].
  rewrite IH by (intros it Hit; apply Hn; right; exact Hit).
  rewrite filter_cons. unfold py_eq. rewrite Hi.
  destruct (decide (Some n = Some name)) as [Heq|Hne].
  - inversion Heq; subst. rewrite bool_decide_eq_true_2 by reflexivity.
    rewrite last_cons. destruct (last _); reflexivity.
  - rewrite bool_decide_eq_false_2 by congruence. reflexivity.
Qed.

Lemma retrieve_api_key_found name items log :
  params m !! "name" = Some name ->
  get_api_keys client log name true = inr items ->
  (forall item, item ∈ default [] items -> is_Some (item !! "name")) ->
  _retrieve_api_key client m log =
  (Ret (last (filter (fun item => item !! "name" = Some name) (default [] items))),
   log ++ [GetApiKeys name true]).
Proof.
  intros Hn Hg Hall. unfold _retrieve_api_key, try_except, bind, getitem, invoke.
  rewrite Hn. cbn. rewrite Hg.
  assert (Hd : dict_get (params m) "name" = name) by (unfold dict_get; rewrite Hn; reflexivity).
  rewrite Hd, match_items_last by exact Hall.
  destruct (last _); reflexivity.
Qed.
End ApiKeyLookup.

(** X1: the API key lookup re-checks the name exactly. When the listing
    succeeds and every listed key has a name, exactly one listing call is
    issued and the result is the last listed key whose name equals the asked
    name: a returned key is in the listing and carries that name, nothing is
    returned exactly when no listed key carries it, and a key after which no
    other match is listed is the one returned. *)
Theorem retrieve_api_key_exact_match
    (client : Client) (m : module) (log : list call) (name : pyval)
    (items : option (list (gmap string pyval))) :
  params m !! "name" = Some name ->
  get_api_keys client log name true = inr items ->
  (forall item, item ∈ default [] items -> is_Some (item !! "name")) ->
  exists r,
    ApiGwApiKey._retrieve_api_key client m log = (Ret r, log ++ [GetApiKeys name true]) /\
    (forall item, r = Some item ->
       item ∈ default [] items /\ item !! "name" = Some name) /\
    (r = None <->
     forall item, item ∈ default [] items -> item !! "name" <> Some name) /\
    (forall l1 item l2,
       default [] items = l1 ++ item :: l2 ->
       item !! "name" = Some name ->
       (forall other, other ∈ l2 -> other !! "name" <> Some name) ->
       r = Some item).
Proof.
  intros Hn Hg Hall. eexists. split; [apply retrieve_api_key_found; eassumption|].
  set (P := fun item : gmap string pyval => item !! "name" = Some name).
  split; [|split].
  - intros item Hl. apply last_Some_elem_of, list_elem_of_filter in Hl as [HP Hin].
    split; assumption.
  - rewrite last_None. split.
    + intros Hnil item Hin HP. eapply filter_nil_not_elem_of; eassumption.
    + intros Hno. destruct (filter P (default [] items)) as [|x l] eqn:Hf; [reflexivity|].
      assert (Hx : x ∈ filter P (default [] items)) by (rewrite Hf; left).
      apply list_elem_of_filter in Hx as [HP Hin]. exfalso. exact (Hno x Hin HP).
  - intros l1 item l2 -> HP Hno.
    rewrite filter_app, filter_cons. destruct (decide (P item)) as [_|Hn']; [|contradiction].
    replace (filter P l2) with (@nil (gmap string pyval)).
    + apply last_snoc.
    + symmetry. destruct (filter P l2) as [|x l] eqn:Hf; [reflexivity|].
      assert (Hx : x ∈ filter P l2) by (rewrite Hf; left).
      apply list_elem_of_filter in Hx as [HPx Hin]. exfalso. exact (Hno x Hin HPx).
Qed.

Lemma retrieve_api_key_exact_match_witness :
  exists r,
    ApiGwApiKey._retrieve_api_key
      (Fixtures.provider (inr (Some Fixtures.key_listing)) (inl Fixtures.not_found)
         (inl Fixtures.not_found))
      (Fixtures.key_module false) [] =
    (Ret r, [] ++ [GetApiKeys (PStr "testify") true]) /\
    r = Some {[ "name" := PStr "testify"; "id" := PStr "second" ]}.
Proof.
  destruct (retrieve_api_key_exact_match
              (Fixtures.provider (inr (Some Fixtures.key_listing)) (inl Fixtures.not_found)
                 (inl Fixtures.not_found))
              (Fixtures.key_module false) [] (PStr "testify") (Some Fixtures.key_listing)
              eq_refl eq_refl) as (r & Hrun & _ & _ & Hlast).
  - intros item Hin. cbn in Hin. unfold Fixtures.key_listing in Hin.
    repeat (apply elem_of_cons in Hin as [->|Hin]; [eexists; reflexivity|]).
    inversion Hin.
  - exists r. split; [exact Hrun|].
    apply (Hlast [ {[ "name" := PStr "testify"; "id" := PStr "first" ]};
                   {[ "name" := PStr "testify2"; "id" := PStr "other" ]} ]
                 {[ "name" := PStr "testify"; "id" := PStr "second" ]} []);
      [reflexivity|reflexivity|].
    intros other Hin. inversion Hin.
Defined.

(** X2: under check mode no module issues a mutating provider call, whatever
    the provider answers: every call the api_key, model and stage modules add
    to the log is a lookup. *)
Theorem check_mode_issues_no_mutating_call :
  (forall client m, check_mode m = true ->
     only_reads (ApiGwApiKey.process_request client m)) /\
  (forall client m, check_mode m = true ->
     only_reads (ApiGwModel.process_request client m)) /\
  (forall client m, ApiGwStage.scheck_mode m = true ->
     only_reads (ApiGwStage.process_request client m)).
Proof.
  split; [|split]; intros client m Hc.
  - apply api_key_check_mode_reads, Hc.
  - apply model_check_mode_reads, Hc.
  - apply stage_check_mode_reads, Hc.
Qed.

Lemma check_mode_issues_no_mutating_call_witness :
  only_reads (ApiGwApiKey.process_request Fixtures.present_client (Fixtures.key_module true)) /\
  only_reads (ApiGwModel.process_request Fixtures.present_client
                (Fixtures.model_new_description true)) /\
  only_reads (ApiGwStage.process_request Fixtures.present_client
                (Fixtures.stage_absent true)).
Proof.
  split; [|split].
  - apply (proj1 check_mode_issues_no_mutating_call). reflexivity.
  - apply (proj1 (proj2 check_mode_issues_no_mutating_call)). reflexivity.
  - apply (proj2 (proj2 check_mode_issues_no_mutating_call)). reflexivity.
Defined.

(** ** Handled errors, call by call *)

Lemma split_at {X} (L pre post : list X) (c : X) :
  L = pre ++ c :: post ->
  exists n, L !! n = Some c /\ pre = take n L /\ post = drop (S n) L.
Proof.
  intros ->. exists (List.length pre). split; [|split].
  - rewrite lookup_app_r by lia. rewrite Nat.sub_diag. reflexivity.
  - rewrite take_app_length. reflexivity.
  - rewrite drop_app_ge by lia.
    replace (S (List.length pre) - List.length pre) with 1 by lia. reflexivity.
Qed.

Lemma no_call_located {X} (log pre post : list X) (c : X) :
  log = log ++ pre ++ c :: post -> False.
Proof.
  intros H. apply (f_equal List.length) in H. rewrite !length_app in H. cbn in H. lia.
Qed.

(** Locates call [c] in a concrete list of calls. *)
Ltac locate_call H Hr :=
  let n := fresh "n" in
  let Hn := fresh "Hn" in
  let Hpre := fresh "Hpre" in
  let Hpost := fresh "Hpost" in
  first
    [ exfalso; exact (no_call_located _ _ _ _ H)
    | apply app_inv_head in H;
      apply split_at in H as (n & Hn & Hpre & Hpost);
      repeat (destruct n as [|n]; cbn in Hn; try discriminate Hn);
      inversion Hn; subst; cbn [take drop app] in *;
      rewrite ?app_nil_r in Hr; cbn [raised_by error_of] in Hr ].

Ltac trace_leaf :=
  let H := fresh "H" in
  let Hr := fresh "Hr" in
  cbn [fst snd]; intros H Hr;
  rewrite <- ?app_assoc in *; cbn [app] in *;
  locate_call H Hr;
  repeat match goal with
         | E : _ = inl _ |- _ => rewrite E in Hr
         | E : _ = inr _ |- _ => rewrite E in Hr
         end;
  cbn [error_of] in Hr;
  first [ discriminate Hr
        | inversion Hr; subst; split; reflexivity ].

Section StageTrace.
Import ApiGwStage.
Variable client : Client.
Variable m : stage_module.

Lemma stage_boto_trace log pre c post msg :
  snd (process_request client m log) = log ++ pre ++ c :: post ->
  raised_by client (log ++ pre) c = Some (BotoCoreError msg) ->
  post = [] /\
  fst (process_request client m log) = FailJson (stage_failure_text pre c +:+ msg).
Proof.
  unfold process_request, bind. rewrite find_stage_cases. cbn zeta.
  set (rest := dict_get (sparams m) "rest_api_id").
  set (name := dict_get (sparams m) "name").
  destruct (get_stage client log rest name) as [[msg0|response message|k|cl a]|st] eqn:Eg;
    [ | destruct (str_contains "NotFoundException" response) | | | ].
  1,3,4,5: trace_leaf.
  all: destruct (_ && _);
    [ unfold _delete_stage; destruct (scheck_mode m); cbn [negb];
      unfold try_except, bind, invoke, ret; fold rest name;
      [ trace_leaf
      | destruct (delete_stage client _ rest name) as [[msg1|r1 m1|k1|c1 a1]|?] eqn:Ed;
        trace_leaf ]
    | destruct (py_eq _ _); [|unfold ret; trace_leaf];
      unfold _update_stage;
      destruct (build_patch_args _ m) as [e|[args|]]; [unfold raise; trace_leaf| |unfold ret; trace_leaf];
      destruct (scheck_mode m); cbn [negb];
      unfold try_except, bind, invoke, ret, fail_json; fold rest name;
      [ trace_leaf | ];
      destruct (update_stage client _ _ _ _) as [[msg1|r1 m1|k1|c1 a1]|?] eqn:Eu;
      [ trace_leaf .. | ];
      destruct (get_stage client (_ ++ [UpdateStage _ _ _]) rest name)
        as [[msg2|r2 m2|k2|c2 a2]|?] eqn:Eg2;
      trace_leaf ].
Qed.
End StageTrace.

Section ApiKeyTrace.
Import ApiGwApiKey.
Variable client : Client.
Variable m : module.

Lemma match_items_outcome name items resp log :
  (exists r, fst (match_items name items resp log) = Ret r) \/
  (exists k, fst (match_items name items resp log) = Raised (KeyError k)).
Proof.
  revert resp. induction items as [|item rest IH]; intros resp.
  - left. eexists. reflexivity.
  - cbn [match_items]. unfold bind, getitem.
    destruct (item !! "name"); cbn.
    + apply IH.
    + right. eexists. reflexivity.
Qed.

Lemma retrieve_api_key_cases log :
  _retrieve_api_key client m log =
  match params m !! "name" with
  | None => (Raised (KeyError "name"), log)
  | Some name =>
      (match get_api_keys client log name true with
       | inl (BotoCoreError msg) =>
           FailJson ("Error when getting api_keys from boto3: " +:+ msg)
       | inl e => Raised e
       | inr items =>
           fst (match_items (dict_get (params m) "name") (default [] items) None
                  (log ++ [GetApiKeys name true]))
       end, log ++ [GetApiKeys name true])
  end.
Proof.
  unfold _retrieve_api_key, try_except, bind, getitem, invoke, ret, raise.
  destruct (params m !! "name") as [name|]; [|reflexivity].
  destruct (get_api_keys client log name true) as [[msg|r0 m0|k|c a]|items]; try reflexivity.
  pose proof (match_items_log (dict_get (params m) "name") (default [] items) None
                (log ++ [GetApiKeys name true])) as Hl.
  destruct (match_items_outcome (dict_get (params m) "name") (default [] items) None
              (log ++ [GetApiKeys name true])) as [[r Hr]|[k Hk]];
    destruct (match_items _ _ _ _) as [o l]; cbn [fst snd] in *; subst; reflexivity.
Qed.

Lemma api_key_boto_trace log pre c post msg :
  snd (process_request client m log) = log ++ pre ++ c :: post ->
  raised_by client (log ++ pre) c = Some (BotoCoreError msg) ->
  post = [] /\
  fst (process_request client m log) = FailJson (api_key_failure_text c +:+ msg).
Proof.
  unfold process_request, bind. rewrite retrieve_api_key_cases.
  destruct (params m !! "name") as [name|] eqn:En; [|trace_leaf].
  destruct (get_api_keys client log name true) as [[msg0|r0 m0|k0|c0 a0]|items] eqn:Eg;
    [trace_leaf .. |].
  destruct (match_items_outcome (dict_get (params m) "name") (default [] items) None
              (log ++ [GetApiKeys name true])) as [[me Hme]|[k Hk]];
    [rewrite Hme; clear Hme | rewrite Hk; trace_leaf].
  destruct me as [me|].
  - destruct (py_eq _ (PStr "absent")).
    + unfold _delete_api_key, try_except, bind, getitem, invoke, ret, raise, fail_json.
      destruct (check_mode m); cbn [negb]; [trace_leaf|].
      destruct (me !! "id") as [id|]; [|trace_leaf].
      destruct (delete_api_key client _ id) as [[msg1|r1 m1|k1|c1 a1]|?] eqn:Ed; trace_leaf.
    + destruct (py_eq _ (PStr "present")); [|unfold ret; trace_leaf].
      unfold _update_api_key. cbn zeta.
      set (patches := _create_patches (params m) me). clearbody patches.
      destruct patches as [|p ps];
        [unfold try_except, bind, ret; trace_leaf|].
      destruct (check_mode m); cbn [negb];
        [unfold try_except, bind, ret; trace_leaf|].
      unfold try_except, bind, getitem, invoke, ret, raise, fail_json.
      destruct (me !! "id") as [id|]; [|trace_leaf].
      destruct (update_api_key client _ id _) as [[msg1|r1 m1|k1|c1 a1]|?] eqn:Eu;
        [trace_leaf .. |].
      rewrite retrieve_api_key_cases, En.
      destruct (get_api_keys client (_ ++ [UpdateApiKey _ _]) name true)
        as [[msg2|r2 m2|k2|c2 a2]|items2] eqn:Eg2; [trace_leaf .. |].
      destruct (match_items_outcome (dict_get (params m) "name") (default [] items2) None
                  ((log ++ [GetApiKeys name true]) ++ [UpdateApiKey id (p :: ps)]
                     ++ [GetApiKeys name true])) as [[me2 Hme2]|[k Hk]].
      * rewrite <- ?app_assoc in *. cbn [app] in *. rewrite Hme2. trace_leaf.
      * rewrite <- ?app_assoc in *. cbn [app] in *. rewrite Hk. trace_leaf.
  - destruct (py_eq _ (PStr "present")); [|unfold ret; trace_leaf].
    unfold _create_api_key, try_except, bind, getitem, invoke, ret, raise, fail_json.
    destruct (check_mode m); cbn [negb]; [trace_leaf|].
    rewrite En. set (args := create_args m name). clearbody args.
    destruct (create_api_key client _ _) as [[msg1|r1 m1|k1|c1 a1]|?] eqn:Ec; trace_leaf.
Qed.
End ApiKeyTrace.

Ltac model_leaf :=
  let H := fresh "H" in
  let Hr := fresh "Hr" in
  let out := fresh "out" in
  let Ho := fresh "Ho" in
  cbn [fst snd]; intros H Hr out Ho;
  rewrite <- ?app_assoc in *; cbn [app] in *;
  locate_call H Hr;
  cbn [model_client_error_outcome] in Ho; try discriminate Ho;
  repeat match goal with
         | E : _ = inl _ |- _ => rewrite E in Hr
         | E : _ = inr _ |- _ => rewrite E in Hr
         end;
  cbn [error_of] in Hr;
  first [ discriminate Hr
        | inversion Hr; inversion Ho; subst; split; reflexivity ].

Section ModelTrace.
Import ApiGwModel.
Variable client : Client.
Variable m : module.

Lemma model_client_error_trace log pre c post response message :
  snd (process_request client m log) = log ++ pre ++ c :: post ->
  raised_by client (log ++ pre) c = Some (ClientError response message) ->
  forall out, model_client_error_outcome c message = Some out ->
  post = [] /\ fst (process_request client m log) = out.
Proof.
  unfold process_request, bind, _find_model, try_except, bind, invoke, ret.
  cbn zeta.
  set (rest := dict_get (params m) "rest_api_id").
  set (name := dict_get (params m) "name").
  destruct (get_model client log rest name true) as [[msg0|r0 m0|k0|c0 a0]|mdl] eqn:Eg;
    [ model_leaf | | model_leaf | model_leaf | ].
  - destruct (py_eq _ _); [model_leaf|].
    unfold _create_model. destruct (check_mode m); [unfold ret; model_leaf|].
    cbn zeta. set (args := create_args m). clearbody args.
    unfold try_except, bind, invoke, ret, fail_json.
    destruct (create_model client _ args) as [[msg1|r1 m1|k1|c1 a1]|?] eqn:Ec; model_leaf.
  - destruct (py_eq _ _).
    + unfold _delete_model. destruct (check_mode m); cbn [negb]; [unfold ret; model_leaf|].
      unfold try_except, bind, invoke, ret, raise, fail_json. fold rest name.
      destruct (delete_model client _ rest name) as [[msg1|r1 m1|k1|c1 a1]|?] eqn:Ed;
        model_leaf.
    + unfold _update_model. cbn zeta.
      set (patches := _patch_builder m). clearbody patches.
      unfold try_except, bind, getitem, invoke, ret, raise, fail_json. fold rest name.
      destruct (mdl !! "schema") as [schema|]; [|model_leaf].
      destruct (_ && _); [model_leaf|].
      destruct (check_mode m); [model_leaf|].
      destruct (update_model client _ rest name patches) as [[msg1|r1 m1|k1|c1 a1]|?] eqn:Eu;
        model_leaf.
Qed.
End ModelTrace.

(** X3: an error a module handles ends the invocation at the call that
    raised it, with a message that names the operation. In the api_key and
    in the stage module, when the provider answers a call of the invocation
    with a BotoCoreError, that call is the last one issued and the
    invocation ends in fail_json with the text of the try block the call
    sits in, followed by the error's text: getting, deleting, creating or
    updating for the api_key module; finding, deleting or updating for the
    stage module, whose re-fetch after an update is reported as updating.
    In the model module, when the provider answers update_model or
    create_model with a ClientError, that call is the last one issued and
    the invocation ends in fail_json with the updating or creating text
    followed by the error's text; when it answers delete_model with a
    ClientError, that call is the last one issued and the handler's
    AttributeError leaves the module. Hence no BotoCoreError propagates out
    of the api_key or the stage module, and no ClientError out of the model
    module. *)
Theorem handled_errors_end_the_invocation :
  (forall client m log pre c post msg,
     snd (ApiGwApiKey.process_request client m log) = log ++ pre ++ c :: post ->
     raised_by client (log ++ pre) c = Some (BotoCoreError msg) ->
     post = [] /\
     fst (ApiGwApiKey.process_request client m log) =
     FailJson (api_key_failure_text c +:+ msg)) /\
  (forall client m log pre c post msg,
     snd (ApiGwStage.process_request client m log) = log ++ pre ++ c :: post ->
     raised_by client (log ++ pre) c = Some (BotoCoreError msg) ->
     post = [] /\
     fst (ApiGwStage.process_request client m log) =
     FailJson (stage_failure_text pre c +:+ msg)) /\
  (forall client m log pre c post response message out,
     snd (ApiGwModel.process_request client m log) = log ++ pre ++ c :: post ->
     raised_by client (log ++ pre) c = Some (ClientError response message) ->
     model_client_error_outcome c message = Some out ->
     post = [] /\ fst (ApiGwModel.process_request client m log) = out) /\
  (forall client m,
     never_raises is_boto_core_error (ApiGwApiKey.process_request client m)) /\
  (forall client m,
     never_raises is_boto_core_error (ApiGwStage.process_request client m)) /\
  (forall client m,
     never_raises is_client_error (ApiGwModel.process_request client m)).
Proof.
  split; [|split; [|split; [|split; [|split]]]].
  - intros client m log pre c post msg Hlog Hraised.
    exact (api_key_boto_trace client m log pre c post msg Hlog Hraised).
  - intros client m log pre c post msg Hlog Hraised.
    exact (stage_boto_trace client m log pre c post msg Hlog Hraised).
  - intros client m log pre c post response message out Hlog Hraised Hout.
    exact (model_client_error_trace client m log pre c post response message
             Hlog Hraised out Hout).
  - intros client m. apply api_key_boto_confined.
  - intros client m. apply stage_boto_confined.
  - intros client m. apply model_client_error_confined.
Qed.

Lemma handled_errors_end_the_invocation_witness :
  fst (ApiGwApiKey.process_request Fixtures.offline_client (Fixtures.key_module false) []) =
  FailJson "Error when getting api_keys from boto3: An unspecified error occurred" /\
  fst (ApiGwStage.process_request Fixtures.refetch_timeout_client
         (Fixtures.stage_put_test false) []) =
  FailJson "Error while updating stage via boto3: timed out" /\
  fst (ApiGwModel.process_request
         (Fixtures.refusing_provider (inr (Some [])) (inl Fixtures.not_found)
            (inr Fixtures.model_pdf) Fixtures.access_denied)
         (Fixtures.model_new_description false) []) =
  FailJson "Error while updating model: An error occurred (AccessDeniedException)".
Proof.
  split; [|split].
  - apply (proj1 handled_errors_end_the_invocation
             Fixtures.offline_client (Fixtures.key_module false) [] []
             (GetApiKeys (PStr "testify") true) []
             "An unspecified error occurred"); reflexivity.
  - apply (proj1 (proj2 handled_errors_end_the_invocation)
             Fixtures.refetch_timeout_client (Fixtures.stage_put_test false) []
             [ GetStage (PStr "api") (PStr "dev");
               UpdateStage (PStr "api") (PStr "dev")
                 [ {| op := "replace"; path := "/~1test/PUT/caching/enabled";
                      value := PStr "False" |} ] ]
             (GetStage (PStr "api") (PStr "dev")) [] "timed out"); reflexivity.
  - apply (proj1 (proj2 (proj2 handled_errors_end_the_invocation))
             (Fixtures.refusing_provider (inr (Some [])) (inl Fixtures.not_found)
                (inr Fixtures.model_pdf) Fixtures.access_denied)
             (Fixtures.model_new_description false) []
             [ GetModel (PStr "api") (PStr "Model") true ]
             (UpdateModel (PStr "api") (PStr "Model")
                [ {| op := "replace"; path := "/schema"; value := PStr "{}" |};
                  {| op := "replace"; path := "/description"; value := PStr "new" |} ])
             [] "Error: Code: AccessDeniedException"
             "An error occurred (AccessDeniedException)"); reflexivity.
Defined.

(** X4: the exception class a module does not name in its except clauses
    propagates. A ClientError raised by the key listing leaves the api_key
    module uncaught, a BotoCoreError raised by get_model leaves the model
    module uncaught, and a ClientError raised by update_stage leaves the
    stage update path uncaught (after the update call was issued); none of
    them reaches fail_json. *)
Theorem unhandled_exceptions_propagate :
  (forall client m log name response message,
     params m !! "name" = Some name ->
     get_api_keys client log name true = inl (ClientError response message) ->
     ApiGwApiKey.process_request client m log =
     (Raised (ClientError response message), log ++ [GetApiKeys name true])) /\
  (forall client m log msg,
     get_model client log (dict_get (params m) "rest_api_id")
       (dict_get (params m) "name") true = inl (BotoCoreError msg) ->
     ApiGwModel.process_request client m log =
     (Raised (BotoCoreError msg),
      log ++ [GetModel (dict_get (params m) "rest_api_id")
                (dict_get (params m) "name") true])) /\
  (forall client m st args log response message,
     ApiGwStage.build_patch_args st m = inr (Some args) ->
     ApiGwStage.scheck_mode m = false ->
     update_stage client log (ApiGwStage.restApiId args) (ApiGwStage.stageName args)
       (ApiGwStage.patchOperations args) = inl (ClientError response message) ->
     ApiGwStage._update_stage client m st log =
     (Raised (ClientError response message),
      log ++ [UpdateStage (ApiGwStage.restApiId args) (ApiGwStage.stageName args)
                (ApiGwStage.patchOperations args)])).
Proof.
  split; [|split].
  - intros client m log name response message Hn Hg.
    unfold ApiGwApiKey.process_request, ApiGwApiKey._retrieve_api_key,
      try_except, bind, getitem, invoke.
    rewrite Hn. cbn. rewrite Hg. reflexivity.
  - intros client m log msg Hg.
    unfold ApiGwModel.process_request. unfold bind at 1.
    rewrite find_model_cases. cbn zeta. rewrite Hg. reflexivity.
  - intros client m st args log response message Hb Hc Hu.
    unfold ApiGwStage._update_stage, try_except, bind, invoke. rewrite Hb, Hc. cbn [negb].
    rewrite Hu. reflexivity.
Qed.

Lemma unhandled_exceptions_propagate_witness :
  ApiGwApiKey.process_request
    (Fixtures.provider (inl Fixtures.access_denied) (inl Fixtures.not_found)
       (inl Fixtures.not_found))
    (Fixtures.key_module false) [] =
  (Raised (ClientError "Error: Code: AccessDeniedException"
             "An error occurred (AccessDeniedException)"),
   [] ++ [GetApiKeys (PStr "testify") true]).
Proof.
  apply (proj1 unhandled_exceptions_propagate); reflexivity.
Defined.

(** X5: state=absent on an object that is not there is a no-op in every
    module: the lookup call is the only call issued and the invocation exits
    with changed=false and a null object. Not there means: no listed key
    carries the asked name (api_key), get_model raised a ClientError (model),
    get_stage raised a ClientError whose response mentions
    NotFoundException (stage). *)
Theorem absent_and_not_found_is_a_no_op :
  (forall client m log name items,
     params m !! "name" = Some name ->
     state_or_present (params m) = PStr "absent" ->
     get_api_keys client log name true = inr items ->
     (forall item, item ∈ default [] items ->
        exists n, item !! "name" = Some n /\ n <> name) ->
     ApiGwApiKey.process_request client m log =
     (Ret (mk_exit false None), log ++ [GetApiKeys name true])) /\
  (forall client m log response message,
     dict_get (params m) "state" = PStr "absent" ->
     get_model client log (dict_get (params m) "rest_api_id")
       (dict_get (params m) "name") true = inl (ClientError response message) ->
     ApiGwModel.process_request client m log =
     (Ret (mk_exit false None),
      log ++ [GetModel (dict_get (params m) "rest_api_id")
                (dict_get (params m) "name") true])) /\
  (forall client m log response message,
     state_or_present (ApiGwStage.sparams m) = PStr "absent" ->
     get_stage client log (dict_get (ApiGwStage.sparams m) "rest_api_id")
       (dict_get (ApiGwStage.sparams m) "name") = inl (ClientError response message) ->
     str_contains "NotFoundException" response = true ->
     ApiGwStage.process_request client m log =
     (Ret (mk_exit false None),
      log ++ [GetStage (dict_get (ApiGwStage.sparams m) "rest_api_id")
                (dict_get (ApiGwStage.sparams m) "name")])).
Proof.
  split; [|split].
  - intros client m log name items Hn Hs Hg Hno.
    unfold ApiGwApiKey.process_request. unfold bind at 1.
    rewrite (retrieve_api_key_found client m name items log Hn Hg).
    2:{ intros item Hin. destruct (Hno item Hin) as (n & Hi & _). eauto. }
    replace (filter _ (default [] items)) with (@nil (gmap string pyval)).
    + cbn [last]. rewrite Hs. reflexivity.
    + symmetry. destruct (filter _ (default [] items)) as [|x l] eqn:Hf; [reflexivity|].
      assert (Hx : x ∈ x :: l) by left. rewrite <- Hf in Hx.
      apply list_elem_of_filter in Hx as [HP Hin].
      destruct (Hno x Hin) as (n & Hi & Hne). congruence.
  - intros client m log response message Hs Hg.
    unfold ApiGwModel.process_request. unfold bind at 1.
    rewrite find_model_cases. cbn zeta. rewrite Hg, Hs. reflexivity.
  - intros client m log response message Hs Hg Hc.
    unfold ApiGwStage.process_request. unfold bind at 1.
    rewrite find_stage_cases. cbn zeta. rewrite Hg, Hc, Hs. reflexivity.
Qed.

Lemma absent_and_not_found_is_a_no_op_witness :
  ApiGwStage.process_request Fixtures.empty_client (Fixtures.stage_absent false) [] =
  (Ret (mk_exit false None), [] ++ [GetStage (PStr "api") (PStr "dev")]) /\
  ApiGwApiKey.process_request
    (Fixtures.provider (inr (Some [Fixtures.key_testify])) (inl Fixtures.not_found)
       (inl Fixtures.not_found))
    (mk_module {[ "name" := PStr "testif"; "state" := PStr "absent" ]} false) [] =
  (Ret (mk_exit false None), [] ++ [GetApiKeys (PStr "testif") true]).
Proof.
  split.
  - apply (proj2 (proj2 absent_and_not_found_is_a_no_op) Fixtures.empty_client
             (Fixtures.stage_absent false) [] "Error: Code: NotFoundException"
             "An error occurred (NotFoundException)"); reflexivity.
  - apply (proj1 absent_and_not_found_is_a_no_op _ _ [] (PStr "testif")
             (Some [Fixtures.key_testify])); try reflexivity.
    intros item Hin. apply list_elem_of_singleton in Hin. subst item.
    exists (PStr "testify"). split; [reflexivity|discriminate].
Defined.

(** ** Check mode against the real run *)

Section DryRun.
Variable client : Client.

Lemma delete_api_key_ret ps me log b l :
  ApiGwApiKey._delete_api_key client (mk_module ps false) me log = (Ret b, l) -> b = true.
Proof.
  unfold ApiGwApiKey._delete_api_key, try_except, bind, getitem, invoke, ret. cbn.
  destruct (me !! "id") as [id|]; [|discriminate].
  destruct (delete_api_key client log id) as [[| | |]|[]]; intros H; inversion H; reflexivity.
Qed.

Lemma create_api_key_ret ps log r l :
  ApiGwApiKey._create_api_key client (mk_module ps false) log = (Ret r, l) -> fst r = true.
Proof.
  unfold ApiGwApiKey._create_api_key, try_except, bind, getitem, invoke, ret. cbn.
  destruct (ps !! "name") as [name|]; [|discriminate].
  destruct (create_api_key client log _) as [[| | |]|a]; intros H; inversion H; reflexivity.
Qed.

Lemma update_api_key_ret ps me log r l :
  ApiGwApiKey._update_api_key client (mk_module ps false) me log = (Ret r, l) ->
  fst r = match ApiGwApiKey._create_patches ps me with [] => false | _ => true end.
Proof.
  unfold ApiGwApiKey._update_api_key, try_except. cbn [params check_mode negb].
  destruct (ApiGwApiKey._create_patches ps me) as [|p patches].
  { intros H. inversion H. reflexivity. }
  unfold bind, getitem, invoke, ret.
  destruct (me !! "id") as [id|]; [|discriminate].
  destruct (update_api_key client log id _) as [[| | |]|[]]; try discriminate.
  destruct (ApiGwApiKey._retrieve_api_key client (mk_module ps false) _) as [[k|s|[| | |]] l0];
    intros H; inversion H; reflexivity.
Qed.

Lemma api_key_dry_run ps log e l :
  ApiGwApiKey.process_request client (mk_module ps false) log = (Ret e, l) ->
  exists e' l',
    ApiGwApiKey.process_request client (mk_module ps true) log = (Ret e', l') /\
    changed e' = changed e.
Proof.
  unfold ApiGwApiKey.process_request. unfold bind at 1 5.
  change (ApiGwApiKey._retrieve_api_key client (mk_module ps true))
    with (ApiGwApiKey._retrieve_api_key client (mk_module ps false)).
  destruct (ApiGwApiKey._retrieve_api_key client (mk_module ps false) log)
    as [[me|s|e0] l0]; try discriminate.
  cbn [params]. destruct me as [me|].
  - destruct (py_eq (state_or_present ps) (PStr "absent")).
    + unfold bind, ret.
      destruct (ApiGwApiKey._delete_api_key client (mk_module ps false) me l0)
        as [[b|s|e0] l1] eqn:Hd; try discriminate.
      apply delete_api_key_ret in Hd. subst b. intros H. inversion H; subst.
      eexists _, _. split; reflexivity.
    + destruct (py_eq (state_or_present ps) (PStr "present")).
      * unfold bind, ret.
        destruct (ApiGwApiKey._update_api_key client (mk_module ps false) me l0)
          as [[r|s|e0] l1] eqn:Hu; try discriminate.
        apply update_api_key_ret in Hu. intros H. inversion H; subst.
        unfold ApiGwApiKey._update_api_key, try_except. cbn [params check_mode negb].
        destruct (ApiGwApiKey._create_patches ps me); cbn in *;
          eexists _, _; (split; [reflexivity|]); cbn; congruence.
      * intros H. inversion H; subst. eexists _, _. split; reflexivity.
  - destruct (py_eq (state_or_present ps) (PStr "present")).
    + unfold bind, ret.
      destruct (ApiGwApiKey._create_api_key client (mk_module ps false) l0)
        as [[r|s|e0] l1] eqn:Hc; try discriminate.
      apply create_api_key_ret in Hc. intros H. inversion H; subst.
      eexists _, _. split; [reflexivity|]. cbn. congruence.
    + intros H. inversion H; subst. eexists _, _. split; reflexivity.
Qed.
End DryRun.

Section DryRunOthers.
Variable client : Client.

Lemma model_dry_run ps log e l :
  ApiGwModel.process_request client (mk_module ps false) log = (Ret e, l) ->
  exists e' l',
    ApiGwModel.process_request client (mk_module ps true) log = (Ret e', l') /\
    changed e' = changed e.
Proof.
  unfold ApiGwModel.process_request. unfold bind at 1 5.
  change (ApiGwModel._find_model client (mk_module ps true))
    with (ApiGwModel._find_model client (mk_module ps false)).
  destruct (ApiGwModel._find_model client (mk_module ps false) log)
    as [[model|s|e0] l0]; try discriminate.
  cbn [params].
  unfold ApiGwModel._delete_model, ApiGwModel._create_model, ApiGwModel._update_model.
  cbn [params check_mode negb].
  destruct model as [model|]; destruct (py_eq (dict_get ps "state") (PStr "absent")).
  - unfold try_except, bind, invoke, ret, raise.
    destruct (delete_model client l0 _ _) as [[| | |]|[]]; try discriminate.
    intros H; inversion H; subst. eexists _, _. split; reflexivity.
  - unfold try_except, bind, getitem, invoke, ret.
    destruct (model !! "schema") as [schema|]; [|discriminate].
    destruct (_ && _).
    + intros H; inversion H; subst. eexists _, _. split; reflexivity.
    + destruct (update_model client l0 _ _ _) as [[| | |]|r]; try discriminate.
      intros H; inversion H; subst. eexists _, _. split; reflexivity.
  - intros H; inversion H; subst. eexists _, _. split; reflexivity.
  - unfold try_except, bind, invoke, ret.
    destruct (create_model client l0 _) as [[| | |]|r]; try discriminate.
    intros H; inversion H; subst. eexists _, _. split; reflexivity.
Qed.

Lemma stage_present_dry_run ps ms log e l :
  state_or_present ps = PStr "present" ->
  ApiGwStage.process_request client (ApiGwStage.mk_stage_module ps ms false) log
    = (Ret e, l) ->
  exists e' l',
    ApiGwStage.process_request client (ApiGwStage.mk_stage_module ps ms true) log
      = (Ret e', l') /\
    changed e' = changed e.
Proof.
  intros Hs. unfold ApiGwStage.process_request. unfold bind at 1 4.
  change (ApiGwStage._find_stage client (ApiGwStage.mk_stage_module ps ms true))
    with (ApiGwStage._find_stage client (ApiGwStage.mk_stage_module ps ms false)).
  destruct (ApiGwStage._find_stage client (ApiGwStage.mk_stage_module ps ms false) log)
    as [[st|s|e0] l0]; try discriminate.
  cbn [ApiGwStage.sparams]. rewrite Hs.
  replace (py_eq (PStr "present") (PStr "absent")) with false by reflexivity.
  replace (py_eq (PStr "present") (PStr "present")) with true by reflexivity.
  rewrite !andb_false_r.
  unfold ApiGwStage._update_stage.
  change (ApiGwStage.build_patch_args st (ApiGwStage.mk_stage_module ps ms true))
    with (ApiGwStage.build_patch_args st (ApiGwStage.mk_stage_module ps ms false)).
  destruct (ApiGwStage.build_patch_args st (ApiGwStage.mk_stage_module ps ms false))
    as [e0|[args|]].
  - discriminate.
  - cbn [ApiGwStage.scheck_mode ApiGwStage.sparams negb].
    unfold try_except, bind, invoke, ret.
    destruct (update_stage client l0 _ _ _) as [[| | |]|[]]; try discriminate.
    destruct (get_stage client _ _ _) as [[| | |]|st']; try discriminate.
    intros H; inversion H; subst. eexists _, _. split; reflexivity.
  - unfold bind, ret. intros H; inversion H; subst. eexists _, _. split; reflexivity.
Qed.
End DryRunOthers.

(** X6: check mode reports the change the real run reports. Whenever an
    invocation without check mode exits normally, the same invocation under
    check mode (same parameters, same provider, same history) also exits
    normally, with the same changed value. This holds for every scenario of
    the api_key and model modules, and for the stage module with
    state=present. *)
Theorem check_mode_reports_the_same_change :
  (forall client ps log e l,
     ApiGwApiKey.process_request client (mk_module ps false) log = (Ret e, l) ->
     exists e' l',
       ApiGwApiKey.process_request client (mk_module ps true) log = (Ret e', l') /\
       changed e' = changed e) /\
  (forall client ps log e l,
     ApiGwModel.process_request client (mk_module ps false) log = (Ret e, l) ->
     exists e' l',
       ApiGwModel.process_request client (mk_module ps true) log = (Ret e', l') /\
       changed e' = changed e) /\
  (forall client ps ms log e l,
     state_or_present ps = PStr "present" ->
     ApiGwStage.process_request client (ApiGwStage.mk_stage_module ps ms false) log
       = (Ret e, l) ->
     exists e' l',
       ApiGwStage.process_request client (ApiGwStage.mk_stage_module ps ms true) log
         = (Ret e', l') /\
       changed e' = changed e).
Proof.
  split; [|split].
  - apply api_key_dry_run.
  - apply model_dry_run.
  - apply stage_present_dry_run.
Qed.

Lemma check_mode_reports_the_same_change_witness :
  exists e' l',
    ApiGwApiKey.process_request Fixtures.present_client (mk_module Fixtures.key_params true) []
      = (Ret e', l') /\
    changed e' = true.
Proof.
  apply (proj1 check_mode_reports_the_same_change Fixtures.present_client
           Fixtures.key_params []
           (mk_exit true (Some Fixtures.key_testify))
           [GetApiKeys (PStr "testify") true;
            UpdateApiKey (PStr "ab12345")
              [ {| op := "replace"; path := "/enabled"; value := PStr "False" |} ];
            GetApiKeys (PStr "testify") true]).
  reflexivity.
Defined.

(** ** Deleting *)

(** X7: the model module's delete path. With state=absent, a model found and
    no check mode, exactly one delete call is issued and the invocation exits
    with changed=true when the call returns. When the call raises a
    ClientError, the handler's read of [e.message] fails: the invocation ends
    with an uncaught AttributeError, and neither the NotFoundException branch
    nor fail_json is ever reached. Any other exception propagates as it
    is. *)
Theorem model_delete_outcomes
    (client : Client) (m : module) (log log1 : list call) (model : gmap string pyval) :
  ApiGwModel._find_model client m log = (Ret (Some model), log1) ->
  dict_get (params m) "state" = PStr "absent" ->
  check_mode m = false ->
  let rest := dict_get (params m) "rest_api_id" in
  let name := dict_get (params m) "name" in
  ApiGwModel.process_request client m log =
  (match delete_model client log1 rest name with
   | inr _ => Ret (mk_exit true None)
   | inl (ClientError _ _) => Raised (AttributeError "ClientError" "message")
   | inl e => Raised e
   end, log1 ++ [DeleteModel rest name]).
Proof.
  intros Hf Hs Hc rest name. subst rest name.
  assert (Hrun : ApiGwModel.process_request client m log =
                 (_delete <- ApiGwModel._delete_model client m ;;
                  ret (mk_exit true None)) log1).
  { unfold ApiGwModel.process_request. unfold bind at 1. rewrite Hf, Hs. reflexivity. }
  rewrite Hrun. unfold ApiGwModel._delete_model. rewrite Hc. cbn [negb].
  unfold try_except, bind, invoke, ret, raise.
  destruct (delete_model client log1 _ _) as [[| | |]|[]]; reflexivity.
Qed.

Lemma model_delete_outcomes_witness :
  ApiGwModel.process_request Fixtures.present_client (Fixtures.model_absent false) [] =
  (Ret (mk_exit true None),
   [GetModel (PStr "api") (PStr "Model") true] ++
   [DeleteModel (dict_get (params (Fixtures.model_absent false)) "rest_api_id")
      (dict_get (params (Fixtures.model_absent false)) "name")]) /\
  ApiGwModel.process_request
    (Fixtures.refusing_provider (inr (Some [])) (inl Fixtures.not_found)
       (inr Fixtures.model_pdf) Fixtures.not_found)
    (Fixtures.model_absent false) [] =
  (Raised (AttributeError "ClientError" "message"),
   [GetModel (PStr "api") (PStr "Model") true] ++
   [DeleteModel (dict_get (params (Fixtures.model_absent false)) "rest_api_id")
      (dict_get (params (Fixtures.model_absent false)) "name")]).
Proof.
  split.
  - apply (model_delete_outcomes Fixtures.present_client (Fixtures.model_absent false)
             [] [GetModel (PStr "api") (PStr "Model") true] Fixtures.model_pdf
             eq_refl eq_refl eq_refl).
  - apply (model_delete_outcomes
             (Fixtures.refusing_provider (inr (Some [])) (inl Fixtures.not_found)
                (inr Fixtures.model_pdf) Fixtures.not_found)
             (Fixtures.model_absent false)
             [] [GetModel (PStr "api") (PStr "Model") true] Fixtures.model_pdf
             eq_refl eq_refl eq_refl).
Defined.

(** X8: the stage module's delete path outside check mode. With
    state=absent and the stage found, exactly one delete call follows the
    lookup; the invocation exits with changed=true and a null object when it
    returns, ends in fail_json on a BotoCoreError, and lets a ClientError
    propagate. *)
Theorem stage_delete_outcomes
    (client : Client) (m : ApiGwStage.stage_module) (log : list call) (st : stage) :
  let rest := dict_get (ApiGwStage.sparams m) "rest_api_id" in
  let name := dict_get (ApiGwStage.sparams m) "name" in
  state_or_present (ApiGwStage.sparams m) = PStr "absent" ->
  ApiGwStage.scheck_mode m = false ->
  get_stage client log rest name = inr st ->
  ApiGwStage.process_request client m log =
  (match delete_stage client (log ++ [GetStage rest name]) rest name with
   | inr _ => Ret (mk_exit true None)
   | inl (BotoCoreError msg) => FailJson ("Error while deleting stage via boto3: " +:+ msg)
   | inl e => Raised e
   end, log ++ [GetStage rest name; DeleteStage rest name]).
Proof.
  intros rest name Hs Hc Hg. subst rest name.
  rewrite (process_request_absent_found client m log st Hs Hg).
  unfold ApiGwStage._delete_stage. rewrite Hc. cbn [negb].
  unfold try_except, bind, invoke, ret. rewrite <- app_assoc.
  destruct (delete_stage client _ _ _) as [[| | |]|[]]; reflexivity.
Qed.

Lemma stage_delete_outcomes_witness :
  ApiGwStage.process_request Fixtures.present_client (Fixtures.stage_absent false) [] =
  (Ret (mk_exit true None),
   [] ++ [GetStage (PStr "api") (PStr "dev"); DeleteStage (PStr "api") (PStr "dev")]).
Proof.
  apply (stage_delete_outcomes Fixtures.present_client (Fixtures.stage_absent false) []
           Fixtures.dev_stage eq_refl eq_refl eq_refl).
Defined.

(** X9: the api_key module's delete path outside check mode. With
    state=absent and the key found, the delete call carries the found key's
    id; the invocation exits with changed=true and a null object when it
    returns and ends in fail_json on a BotoCoreError. A found key without an
    id makes the invocation fail with a KeyError before any delete call. *)
Theorem api_key_delete_outcomes
    (client : Client) (m : module) (log log1 : list call) (me : gmap string pyval) :
  ApiGwApiKey._retrieve_api_key client m log = (Ret (Some me), log1) ->
  state_or_present (params m) = PStr "absent" ->
  check_mode m = false ->
  (me !! "id" = None ->
   ApiGwApiKey.process_request client m log = (Raised (KeyError "id"), log1)) /\
  (forall id,
     me !! "id" = Some id ->
     ApiGwApiKey.process_request client m log =
     (match delete_api_key client log1 id with
      | inr _ => Ret (mk_exit true None)
      | inl (BotoCoreError msg) =>
          FailJson ("Error when deleting api_key via boto3: " +:+ msg)
      | inl e => Raised e
      end, log1 ++ [DeleteApiKey id])).
Proof.
  intros Hf Hs Hc.
  assert (Hrun : ApiGwApiKey.process_request client m log =
                 (changed <- ApiGwApiKey._delete_api_key client m me ;;
                  ret (mk_exit changed None)) log1).
  { unfold ApiGwApiKey.process_request. unfold bind at 1. rewrite Hf, Hs. reflexivity. }
  rewrite Hrun. unfold ApiGwApiKey._delete_api_key. rewrite Hc. cbn [negb].
  unfold try_except, bind, getitem, invoke, ret. split.
  - intros Hid. rewrite Hid. reflexivity.
  - intros id Hid. rewrite Hid.
    destruct (delete_api_key client log1 id) as [[| | |]|[]]; reflexivity.
Qed.

Lemma api_key_delete_outcomes_witness :
  ApiGwApiKey.process_request Fixtures.present_client (Fixtures.key_absent false) [] =
  (Ret (mk_exit true None),
   [GetApiKeys (PStr "testify") true] ++ [DeleteApiKey (PStr "ab12345")]).
Proof.
  apply (proj2 (api_key_delete_outcomes Fixtures.present_client (Fixtures.key_absent false)
                  [] [GetApiKeys (PStr "testify") true] Fixtures.key_testify
                  eq_refl eq_refl eq_refl) (PStr "ab12345")).
  reflexivity.
Defined.

(** ** Convergence of the diff builders *)

(** X10: the model module never converges on a model whose description the
    provider omits. When the observed model has a schema but no description
    and a description is supplied (the argument-spec default is the empty
    string), the update path reports changed=true whatever the schemas:
    under check mode without a call, otherwise with one update call carrying
    both operations. *)
Theorem model_missing_description_always_changes
    (client : Client) (m : module) (model : gmap string pyval) (schema v : pyval)
    (log : list call) :
  model !! "schema" = Some schema ->
  model !! "description" = None ->
  params m !! "description" = Some v ->
  v <> PNone ->
  (check_mode m = true ->
   ApiGwModel._update_model client m model log = (Ret (true, None), log)) /\
  (forall response,
     check_mode m = false ->
     update_model client log (dict_get (params m) "rest_api_id")
       (dict_get (params m) "name") (ApiGwModel._patch_builder m) = inr response ->
     ApiGwModel._update_model client m model log =
     (Ret (true, Some response),
      log ++ [UpdateModel (dict_get (params m) "rest_api_id")
                (dict_get (params m) "name")
                [ {| op := "replace"; path := "/schema";
                     value := dict_get (params m) "schema" |};
                  {| op := "replace"; path := "/description"; value := v |} ]])).
Proof.
  intros Hs Hd Hv Hn.
  assert (Hne : ~ model_unchanged m model schema).
  { intros [_ He]. unfold dict_get in He. rewrite Hd, Hv in He. cbn in He. congruence. }
  split.
  - intros Hc. eapply update_model_check_mode; eassumption.
  - intros response Hc Hu.
    rewrite (update_model_applies client m model schema log response Hs Hne Hc Hu).
    assert (Hdv : dict_get (params m) "description" = v)
      by (unfold dict_get; rewrite Hv; reflexivity).
    unfold ApiGwModel._patch_builder. rewrite Hdv. reflexivity.
Qed.

Lemma model_missing_description_always_changes_witness :
  ApiGwModel._update_model Fixtures.present_client (Fixtures.model_defaults true)
    Fixtures.model_no_description [] = (Ret (true, None), []).
Proof.
  apply (proj1 (model_missing_description_always_changes Fixtures.present_client
                  (Fixtures.model_defaults true)
                  Fixtures.model_no_description
                  (PStr "{}") (PStr "") [] eq_refl eq_refl eq_refl
                  ltac:(discriminate))).
  reflexivity.
Defined.

Section StageConvergence.
Import ApiGwStage StageSpec.

Lemma attr_step_nil_iff (attrs ps : gmap string pyval) a b :
  attr_step attrs ps [] (a, b) = [] <->
  (forall v, ps !! a = Some v -> v <> PNone ->
             exists cur, attrs !! b = Some cur /\ py_str v = py_str cur).
Proof.
  unfold attr_step. split.
  - intros Hnil v Hv Hn. rewrite Hv in Hnil.
    assert (Hi : is_none v = false) by (destruct v; [congruence|reflexivity|reflexivity]).
    rewrite Hi in Hnil. cbn [negb] in Hnil.
    destruct (attrs !! b) as [cur|]; [|discriminate].
    destruct (String.eqb_spec (py_str v) (py_str cur)) as [He|He]; [|discriminate].
    eauto.
  - intros H. destruct (ps !! a) as [v|]; [|reflexivity].
    destruct (is_none v) eqn:Hi; [reflexivity|]. cbn [negb].
    destruct (H v eq_refl) as (cur & Hc & He).
    { intros ->. discriminate. }
    rewrite Hc, He, String.eqb_refl. reflexivity.
Qed.

Lemma flat_map_nil_iff {X Y} (f : X -> list Y) (l : list X) :
  flat_map f l = [] <-> forall x, x ∈ l -> f x = [].
Proof.
  induction l as [|x l IH]; cbn [flat_map].
  - split; [intros _ x Hx; inversion Hx|reflexivity].
  - split.
    + intros H. apply app_eq_nil in H as [H1 H2]. intros y Hy.
      apply elem_of_cons in Hy as [->|Hy]; [exact H1|]. apply IH; assumption.
    + intros H. rewrite (H x) by left. cbn. apply IH. intros y Hy. apply H. right. exact Hy.
Qed.

Lemma method_patch_spec_nil_iff (stg : gmap string (gmap string pyval)) e :
  (forall k entry, stg !! k = Some entry -> is_Some (entry !! "cachingEnabled")) ->
  method_patch_spec stg e = [] <->
  exists entry cur,
    stg !! method_key e = Some entry /\ entry !! "cachingEnabled" = Some cur /\
    py_str cur = py_str (default (PBool false) (caching_enabled e)).
Proof.
  intros Hwf. unfold method_patch_spec, composite_key. fold (method_key e). split.
  - destruct (stg !! method_key e) as [entry|] eqn:Hk; [|discriminate].
    destruct (Hwf _ _ Hk) as [cur Hc]. unfold dict_get. rewrite Hc. cbn [default from_option id].
    case_bool_decide as He; [|discriminate]. intros _. eauto.
  - intros (entry & cur & Hk & Hc & He). rewrite Hk. unfold dict_get. rewrite Hc.
    cbn [default from_option id]. rewrite bool_decide_eq_true_2 by exact He. reflexivity.
Qed.

Lemma build_patch_args_none_iff st m :
  let stg := default ∅ (methodSettings (default (mk_stage ∅ None) st)) in
  (forall k entry, stg !! k = Some entry -> is_Some (entry !! "cachingEnabled")) ->
  build_patch_args st m = inr None <->
  attr_patches (stage_attrs (default (mk_stage ∅ None) st)) (sparams m) = [] /\
  flat_map (method_patch_spec stg) (default [] (method_settings m)) = [].
Proof.
  intros stg Hwf. unfold build_patch_args. fold stg.
  rewrite (method_patches_spec stg _ _ Hwf). split.
  - destruct (_ ++ _) as [|p ps] eqn:Happ.
    + intros _. apply app_eq_nil in Happ. exact Happ.
    + repeat case_match; discriminate.
  - intros [-> ->]. reflexivity.
Qed.
End StageConvergence.

(** X11: the stage diff builder finds nothing to do exactly when the
    observed stage already agrees with everything that was asked. Provided
    every observed method entry carries its cachingEnabled flag,
    [build_patch_args] returns None if and only if every supplied
    description, cache_cluster_enabled and cache_cluster_size is present in
    the observed stage with the same stringified value, and every
    method_settings entry has its key in the observed methodSettings with the
    same stringified caching flag. *)
Theorem stage_patch_list_empty_iff (st : stage) (m : ApiGwStage.stage_module) :
  let stg := default ∅ (methodSettings st) in
  (forall k entry, stg !! k = Some entry -> is_Some (entry !! "cachingEnabled")) ->
  ApiGwStage.build_patch_args (Some st) m = inr None <->
  (forall a b v,
     (a, b) ∈ ApiGwStage.arg_map ->
     ApiGwStage.sparams m !! a = Some v -> v <> PNone ->
     exists cur, stage_attrs st !! b = Some cur /\ py_str v = py_str cur) /\
  (forall e,
     e ∈ default [] (ApiGwStage.method_settings m) ->
     exists entry cur,
       stg !! ApiGwStage.method_key e = Some entry /\
       entry !! "cachingEnabled" = Some cur /\
       py_str cur = py_str (default (PBool false) (ApiGwStage.caching_enabled e))).
Proof.
  intros stg Hwf.
  rewrite (build_patch_args_none_iff (Some st) m Hwf). cbn [default from_option id].
  fold stg. rewrite attr_patches_split, flat_map_nil_iff.
  split.
  - intros [Ha Hm]. apply app_eq_nil in Ha as [H1 Ha]. apply app_eq_nil in Ha as [H2 H3].
    split.
    + intros a b v Hin. unfold ApiGwStage.arg_map in Hin.
      repeat (apply elem_of_cons in Hin as [Heq|Hin];
              [inversion Heq; subst; eapply attr_step_nil_iff; eassumption|]).
      inversion Hin.
    + intros e He. apply method_patch_spec_nil_iff; [exact Hwf|]. apply Hm, He.
  - intros [Ha Hm]. split.
    + rewrite !(proj2 (attr_step_nil_iff _ _ _ _)); [reflexivity| | |];
        intros v; apply Ha; apply list_elem_of_In; cbn; auto.
    + intros e He. apply method_patch_spec_nil_iff; [exact Hwf|]. apply Hm, He.
Qed.

Lemma stage_patch_list_empty_iff_witness :
  ApiGwStage.build_patch_args (Some (Fixtures.stage_with "current" false))
    (Fixtures.stage_wanting "current" false false) = inr None.
Proof.
  apply (proj2 (stage_patch_list_empty_iff (Fixtures.stage_with "current" false)
                  (Fixtures.stage_wanting "current" false false)
                  ltac:(intros k entry Hk; unfold Fixtures.stage_with in Hk;
                        cbn [methodSettings default from_option id] in Hk;
                        apply lookup_singleton_Some in Hk as [_ <-];
                        eexists; reflexivity))).
  split.
  - intros a b v Hin Hv Hn. unfold ApiGwStage.arg_map in Hin.
    repeat (apply elem_of_cons in Hin as [Heq|Hin];
            [inversion Heq; subst; vm_compute in Hv; inversion Hv; subst;
             try (eexists; split; reflexivity)|]).
    inversion Hin.
  - intros e He. apply list_elem_of_singleton in He. subst e.
    eexists _, _. split; [reflexivity|]. split; reflexivity.
Defined.

(** ** Errors and shape of the stage diff builder *)

Section StageBuilderEdges.
Import ApiGwStage.

Lemma method_patches_shape (P : patch -> Prop) stg ms patches l :
  (forall x, P (create_patch (method_key x +:+ "/caching/enabled")
                  (default (PBool false) (caching_enabled x)))) ->
  method_patches stg ms patches = inr l ->
  Forall P patches ->
  Forall P l /\ List.length l <= List.length patches + List.length ms.
Proof.
  intros HP. revert patches. induction ms as [|x rest IH]; intros patches;
    cbn [method_patches].
  - intros Hl HF. inversion Hl; subst. split; [exact HF|lia].
  - intros Hl HF.
    assert (HF' : Forall P (patches ++
              [create_patch (method_key x +:+ "/caching/enabled")
                 (default (PBool false) (caching_enabled x))])).
    { apply Forall_app. split; [exact HF|]. constructor; [apply HP|constructor]. }
    destruct (stg !! method_key x) as [entry|].
    + destruct (entry !! "cachingEnabled") as [cur|]; [|discriminate].
      destruct (negb _).
      * destruct (IH _ Hl HF') as [H1 H2]. split; [exact H1|].
        rewrite length_app in H2. cbn [List.length] in *. lia.
      * destruct (IH _ Hl HF) as [H1 H2]. split; [exact H1|]. cbn [List.length]. lia.
    + destruct (IH _ Hl HF') as [H1 H2]. split; [exact H1|].
      rewrite length_app in H2. cbn [List.length] in *. lia.
Qed.

Lemma attr_step_shape (P : patch -> Prop) (attrs ps : gmap string pyval) names :
  (forall b v, P (create_patch b v)) ->
  Forall P (attr_step attrs ps [] names) /\
  List.length (attr_step attrs ps [] names) <= 1.
Proof.
  intros HP. unfold attr_step. destruct names as [a b].
  repeat case_match; cbn [app List.length]; split;
    try lia; repeat constructor; apply HP.
Qed.

Lemma attr_patches_shape (P : patch -> Prop) (attrs ps : gmap string pyval) :
  (forall b v, P (create_patch b v)) ->
  Forall P (attr_patches attrs ps) /\ List.length (attr_patches attrs ps) <= 3.
Proof.
  intros HP. rewrite attr_patches_split.
  pose proof (attr_step_shape P attrs ps ("description", "description") HP) as [F1 L1].
  pose proof (attr_step_shape P attrs ps
                ("cache_cluster_enabled", "cacheClusterEnabled") HP) as [F2 L2].
  pose proof (attr_step_shape P attrs ps
                ("cache_cluster_size", "cacheClusterSize") HP) as [F3 L3].
  split.
  - repeat (apply Forall_app; split); assumption.
  - rewrite !length_app. lia.
Qed.
End StageBuilderEdges.

(** X12: an observed method entry without its cachingEnabled flag crashes
    the stage diff builder when a desired entry targets it. The second loop
    of [build_patch_args] fails with KeyError 'cachingEnabled' if and only if
    some method_settings entry has its key in the observed methodSettings
    with a dictionary lacking that flag; the update path then ends with that
    KeyError before any provider call. *)
Theorem stage_builder_key_error_iff
    (client : Client) (m : ApiGwStage.stage_module) (st : option stage)
    (log : list call) :
  let stg := default ∅ (methodSettings (default (mk_stage ∅ None) st)) in
  let flagless :=
    exists x entry,
      x ∈ default [] (ApiGwStage.method_settings m) /\
      stg !! ApiGwStage.method_key x = Some entry /\
      entry !! "cachingEnabled" = None in
  (ApiGwStage.build_patch_args st m = inl (KeyError "cachingEnabled") <-> flagless) /\
  (flagless ->
   ApiGwStage._update_stage client m st log = (Raised (KeyError "cachingEnabled"), log)).
Proof.
  intros stg flagless.
  assert (Hiff : ApiGwStage.build_patch_args st m = inl (KeyError "cachingEnabled")
                 <-> flagless).
  { unfold flagless. rewrite <- (method_patches_error_iff stg _
      (ApiGwStage.attr_patches (stage_attrs (default (mk_stage ∅ None) st))
         (ApiGwStage.sparams m))).
    unfold ApiGwStage.build_patch_args. fold stg.
    destruct (ApiGwStage.method_patches _ _ _) as [e|[|p ps]] eqn:Hm.
    - apply method_patches_error in Hm. subst e. split; intros _; reflexivity.
    - split; discriminate.
    - repeat case_match; split; discriminate. }
  split; [exact Hiff|].
  intros Hf. apply Hiff in Hf. unfold ApiGwStage._update_stage. rewrite Hf. reflexivity.
Qed.

Lemma stage_builder_key_error_iff_witness :
  ApiGwStage._update_stage Fixtures.present_client (Fixtures.stage_put_test false)
    (Some (mk_stage ∅ (Some {[ "~1test/PUT" := ∅ ]}))) [] =
  (Raised (KeyError "cachingEnabled"), []).
Proof.
  apply (proj2 (stage_builder_key_error_iff Fixtures.present_client
                  (Fixtures.stage_put_test false)
                  (Some (mk_stage ∅ (Some {[ "~1test/PUT" := ∅ ]}))) [])).
  exists (ApiGwStage.mk_method_setting "/test" "PUT" (Some (PBool false))), ∅.
  split; [left|]. split; reflexivity.
Defined.

(** X13: the keyword arguments the stage diff builder returns. When
    [build_patch_args] returns arguments, they carry the rest_api_id and
    name parameters, a non-empty patch list of at most three attribute
    operations plus one per method_settings entry, and every operation is a
    replace on a path starting with ['/'] whose value is a string. *)
Theorem stage_patch_args_shape
    (st : option stage) (m : ApiGwStage.stage_module) (args : ApiGwStage.patch_args) :
  ApiGwStage.build_patch_args st m = inr (Some args) ->
  ApiGwStage.sparams m !! "rest_api_id" = Some (ApiGwStage.restApiId args) /\
  ApiGwStage.sparams m !! "name" = Some (ApiGwStage.stageName args) /\
  ApiGwStage.patchOperations args <> [] /\
  List.length (ApiGwStage.patchOperations args) <=
    3 + List.length (default [] (ApiGwStage.method_settings m)) /\
  Forall (fun p => op p = "replace" /\
                   exists rest str, path p = String "/" rest /\ value p = PStr str)
         (ApiGwStage.patchOperations args).
Proof.
  intros Hb. pose proof (build_patch_args_nonempty _ _ _ Hb) as Hne.
  unfold ApiGwStage.build_patch_args in Hb.
  set (P := fun p => op p = "replace" /\
                     exists rest str, path p = String "/" rest /\ value p = PStr str).
  assert (HP : forall b v, P (ApiGwStage.create_patch b v)).
  { intros b v. split; [reflexivity|]. eexists _, _. split; reflexivity. }
  destruct (ApiGwStage.method_patches _ _ _) as [e|l] eqn:Hm; [discriminate|].
  pose proof (attr_patches_shape P
                (stage_attrs (default (mk_stage ∅ None) st)) (ApiGwStage.sparams m) HP)
    as [FA LA].
  destruct (method_patches_shape P _ _ _ _ (fun x => HP _ _) Hm FA) as [FL LL].
  destruct l as [|p ps]; [discriminate|].
  destruct (ApiGwStage.sparams m !! "rest_api_id") as [rest|]; [|discriminate].
  destruct (ApiGwStage.sparams m !! "name") as [name|]; [|discriminate].
  inversion Hb; subst args. cbn [ApiGwStage.restApiId ApiGwStage.stageName
                                   ApiGwStage.patchOperations] in *.
  repeat split; try assumption. lia.
Qed.

Lemma stage_patch_args_shape_witness :
  List.length [ {| op := "replace"; path := "/~1test/PUT/caching/enabled";
                   value := PStr "False" |} ] <=
  3 + List.length (default [] (ApiGwStage.method_settings (Fixtures.stage_put_test false))).
Proof.
  apply (proj1 (proj2 (proj2 (proj2
    (stage_patch_args_shape (Some Fixtures.dev_stage) (Fixtures.stage_put_test false)
       {| ApiGwStage.restApiId := PStr "api"; ApiGwStage.stageName := PStr "dev";
          ApiGwStage.patchOperations :=
            [ {| op := "replace"; path := "/~1test/PUT/caching/enabled";
                 value := PStr "False" |} ] |}
       eq_refl))))).
Defined.

(** ** Method keys *)

Lemma str_contains_slash_cons c s :
  str_contains "/" (String c s) = Ascii.eqb c "/" || str_contains "/" s.
Proof.
  cbn [str_contains String.prefix].
  destruct (ascii_dec "/" c) as [<-|Hne].
  - destruct s; reflexivity.
  - destruct (Ascii.eqb_spec c "/") as [->|_]; [contradiction|reflexivity].
Qed.

Lemma sub_slash_fixed_iff s : sub_slash s = s <-> str_contains "/" s = false.
Proof.
  induction s as [|c s IH]; [split; reflexivity|].
  rewrite str_contains_slash_cons. cbn [sub_slash].
  destruct (Ascii.eqb_spec c "/") as [->|Hne]; cbn [orb].
  - split; discriminate.
  - rewrite <- IH. split; [intros H; inversion H; congruence|intros ->; reflexivity].
Qed.

(** X14: escaping a method name is idempotent. [sub_slash] leaves a string
    unchanged exactly when it has no ['/'], so escaping twice is escaping
    once, and a method_settings entry whose name is already escaped gets the
    same key as the entry with the plain name. *)
Theorem method_name_escaping_is_idempotent :
  (forall s, sub_slash s = s <-> str_contains "/" s = false) /\
  (forall s, sub_slash (sub_slash s) = sub_slash s) /\
  (forall name verb flag,
     ApiGwStage.method_key (ApiGwStage.mk_method_setting (sub_slash name) verb flag) =
     ApiGwStage.method_key (ApiGwStage.mk_method_setting name verb flag)).
Proof.
  split; [apply sub_slash_fixed_iff|].
  assert (Hi : forall s, sub_slash (sub_slash s) = sub_slash s)
    by (intros s; apply sub_slash_fixed_iff, sub_slash_no_slash).
  split; [exact Hi|].
  intros name verb flag. unfold ApiGwStage.method_key. cbn. rewrite Hi. reflexivity.
Qed.

Lemma method_name_escaping_is_idempotent_witness :
  sub_slash "GET" = "GET".
Proof.
  apply (proj1 method_name_escaping_is_idempotent). reflexivity.
Defined.

(** ** The stage lookup *)

(** X15: the stage lookup answers not-found only for a ClientError whose
    dumped response mentions NotFoundException, and answers a stage only when
    get_stage returned it; it always issues exactly the one get_stage
    call. *)
Theorem find_stage_not_found_iff
    (client : Client) (m : ApiGwStage.stage_module) (log : list call) :
  let rest := dict_get (ApiGwStage.sparams m) "rest_api_id" in
  let name := dict_get (ApiGwStage.sparams m) "name" in
  (fst (ApiGwStage._find_stage client m log) = Ret None <->
   exists response message,
     get_stage client log rest name = inl (ClientError response message) /\
     str_contains "NotFoundException" response = true) /\
  (forall st,
     fst (ApiGwStage._find_stage client m log) = Ret (Some st) <->
     get_stage client log rest name = inr st) /\
  snd (ApiGwStage._find_stage client m log) = log ++ [GetStage rest name].
Proof.
  intros rest name. rewrite find_stage_cases. cbn zeta. fold rest name. cbn [fst snd].
  split; [|split; [|reflexivity]].
  - destruct (get_stage client log rest name) as [[msg|response message|k|c a]|st].
    + split; [discriminate|intros (r & ms & H & _); discriminate].
    + destruct (str_contains "NotFoundException" response) eqn:Hc.
      * split; [intros _; eauto|reflexivity].
      * split; [discriminate|]. intros (r & ms & H & Hr). inversion H; subst. congruence.
    + split; [discriminate|intros (r & ms & H & _); discriminate].
    + split; [discriminate|intros (r & ms & H & _); discriminate].
    + split; [discriminate|intros (r & ms & H & _); discriminate].
  - intros st. destruct (get_stage client log rest name) as [[msg|response message|k|c a]|st'].
    + split; discriminate.
    + destruct (str_contains _ _); split; discriminate.
    + split; discriminate.
    + split; discriminate.
    + split; intros H; inversion H; reflexivity.
Qed.

Lemma find_stage_not_found_iff_witness :
  fst (ApiGwStage._find_stage Fixtures.empty_client (Fixtures.stage_nothing false) [])
    = Ret None.
Proof.
  apply (proj1 (find_stage_not_found_iff Fixtures.empty_client
                  (Fixtures.stage_nothing false) [])).
  eexists _, _. split; reflexivity.
Defined.

(** ** The API key create arguments and diff *)

(** X16: the create call of the api_key module only ever carries the keys
    name, enabled, generateDistinctId, description and value; name is the
    asked name, and enabled and generateDistinctId are False when the
    parameter dictionary has no such key. *)
Theorem api_key_create_args_shape (m : module) (name : pyval) :
  (forall k, is_Some (ApiGwApiKey.create_args m name !! k) ->
     k ∈ ["name"; "enabled"; "generateDistinctId"; "description"; "value"]) /\
  ApiGwApiKey.create_args m name !! "name" = Some name /\
  (params m !! "enabled" = None ->
   ApiGwApiKey.create_args m name !! "enabled" = Some (PBool false)) /\
  (params m !! "generate_distinct_id" = None ->
   ApiGwApiKey.create_args m name !! "generateDistinctId" = Some (PBool false)).
Proof.
  destruct (create_args_required m name) as (Hn & He & Hg).
  split; [|split; [exact Hn|split]].
  - intros k [v Hv]. apply list_elem_of_In. cbn.
    destruct (decide (k = "name")) as [->|N1]; [auto|].
    destruct (decide (k = "enabled")) as [->|N2]; [auto|].
    destruct (decide (k = "generateDistinctId")) as [->|N3]; [auto|].
    destruct (decide (k = "description")) as [->|N4]; [auto|].
    destruct (decide (k = "value")) as [->|N5]; [auto 10|].
    exfalso. unfold ApiGwApiKey.create_args in Hv. cbn [foldl] in Hv.
    repeat case_match; simplify_map_eq.
  - intros H. rewrite He, H. reflexivity.
  - intros H. rewrite Hg, H. reflexivity.
Qed.

Lemma api_key_create_args_shape_witness :
  "value" ∈ ["name"; "enabled"; "generateDistinctId"; "description"; "value"] /\
  ApiGwApiKey.create_args (mk_module {[ "name" := PStr "k" ]} false) (PStr "k") !! "enabled"
    = Some (PBool false).
Proof.
  pose proof (api_key_create_args_shape (Fixtures.key_module false) (PStr "testify"))
    as (Hdom & _).
  pose proof (api_key_create_args_shape (mk_module {[ "name" := PStr "k" ]} false) (PStr "k"))
    as (_ & _ & Hen & _).
  split.
  - apply Hdom. eexists. reflexivity.
  - apply Hen. reflexivity.
Defined.

Section ApiKeyConvergence.
Import ApiGwApiKey.

Lemma patch_step_nil_iff (params me : gmap string pyval) param :
  patch_step params me [] param = [] <->
  (forall v, params !! param = Some v -> v <> PNone ->
     (exists cur, me !! param = Some cur /\ py_str v = py_str cur) \/
     (param = "description" /\ v = PStr "" /\ me !! param = None)).
Proof.
  unfold patch_step, dict_get, dict_has, py_eq. split.
  - intros Hnil v Hv Hn. rewrite Hv in Hnil. cbn [default from_option id] in Hnil.
    assert (Hi : is_none v = false) by (destruct v; [congruence|reflexivity|reflexivity]).
    rewrite Hi in Hnil. cbn [negb andb] in Hnil.
    destruct (me !! param) as [cur|] eqn:Hc.
    + left. exists cur. split; [reflexivity|].
      destruct (String.eqb_spec (py_str v) (py_str cur)) as [He|He]; [exact He|].
      cbn [negb] in Hnil.
      rewrite (bool_decide_eq_true_2 (is_Some (Some cur))) in Hnil by eauto.
      cbn [negb] in Hnil. rewrite andb_false_r in Hnil. discriminate.
    + right. destruct (String.eqb_spec param "description") as [->|Hp];
        cbn [andb] in Hnil; [|discriminate].
      case_bool_decide as Hv'; cbn [andb] in Hnil; [|discriminate].
      split; [reflexivity|]. split; [exact Hv'|reflexivity].
  - intros H. destruct (params !! param) as [v|] eqn:Hv; cbn [default from_option id];
      [|reflexivity].
    destruct (is_none v) eqn:Hi; [reflexivity|]. cbn [negb andb].
    destruct (H v eq_refl) as [(cur & Hc & He)|(-> & -> & Hc)].
    { intros ->. discriminate. }
    + rewrite Hc, He, String.eqb_refl. reflexivity.
    + rewrite Hc. cbn. reflexivity.
Qed.
End ApiKeyConvergence.

(** X17: the api_key diff builder finds nothing to do exactly when the
    observed key already agrees with what was asked. [_create_patches]
    returns the empty list if and only if, for each of enabled and
    description that is supplied, the observed key has the field with the
    same stringified value, or the field is description, the supplied value
    is the empty string and the observed key has no description. *)
Theorem api_key_patch_list_empty_iff (params me : gmap string pyval) :
  ApiGwApiKey._create_patches params me = [] <->
  (forall param v,
     param = "enabled" \/ param = "description" ->
     params !! param = Some v -> v <> PNone ->
     (exists cur, me !! param = Some cur /\ py_str v = py_str cur) \/
     (param = "description" /\ v = PStr "" /\ me !! param = None)).
Proof.
  rewrite create_patches_split. split.
  - intros H. apply app_eq_nil in H as [H1 H2].
    intros param v [-> | ->]; eapply patch_step_nil_iff; assumption.
  - intros H.
    rewrite (proj2 (patch_step_nil_iff params me "enabled")),
            (proj2 (patch_step_nil_iff params me "description")); [reflexivity| |];
      intros v; apply H; auto.
Qed.

Lemma api_key_patch_list_empty_iff_witness :
  ApiGwApiKey._create_patches
    {[ "enabled" := PBool true; "description" := PStr "" ]} Fixtures.key_testify = [].
Proof.
  apply (proj2 (api_key_patch_list_empty_iff
                  {[ "enabled" := PBool true; "description" := PStr "" ]}
                  Fixtures.key_testify)).
  intros param v [-> | ->] Hv Hn; vm_compute in Hv; inversion Hv; subst.
  - left. eexists. split; reflexivity.
  - right. repeat split.
Defined.

(** ** Failures *)

(** X18: a re-fetch that fails after an applied update ends the invocation
    in fail_json although the provider was changed. In the stage module a
    BotoCoreError of the get_stage that follows a successful update_stage,
    and in the api_key module a BotoCoreError of the key listing that
    follows a successful update_api_key, give fail_json with the update call
    already in the log. *)
Theorem refetch_failure_after_applied_update :
  (forall client m st args log msg,
     ApiGwStage.build_patch_args st m = inr (Some args) ->
     ApiGwStage.scheck_mode m = false ->
     update_stage client log (ApiGwStage.restApiId args) (ApiGwStage.stageName args)
       (ApiGwStage.patchOperations args) = inr tt ->
     get_stage client
       (log ++ [UpdateStage (ApiGwStage.restApiId args) (ApiGwStage.stageName args)
                  (ApiGwStage.patchOperations args)])
       (dict_get (ApiGwStage.sparams m) "rest_api_id")
       (dict_get (ApiGwStage.sparams m) "name") = inl (BotoCoreError msg) ->
     ApiGwStage._update_stage client m st log =
     (FailJson ("Error while updating stage via boto3: " +:+ msg),
      log ++ [UpdateStage (ApiGwStage.restApiId args) (ApiGwStage.stageName args)
                (ApiGwStage.patchOperations args);
              GetStage (dict_get (ApiGwStage.sparams m) "rest_api_id")
                (dict_get (ApiGwStage.sparams m) "name")])) /\
  (forall client m me log id name msg,
     ApiGwApiKey._create_patches (params m) me <> [] ->
     check_mode m = false ->
     me !! "id" = Some id ->
     params m !! "name" = Some name ->
     update_api_key client log id (ApiGwApiKey._create_patches (params m) me) = inr tt ->
     get_api_keys client
       (log ++ [UpdateApiKey id (ApiGwApiKey._create_patches (params m) me)])
       name true = inl (BotoCoreError msg) ->
     ApiGwApiKey._update_api_key client m me log =
     (FailJson ("Error when getting api_keys from boto3: " +:+ msg),
      log ++ [UpdateApiKey id (ApiGwApiKey._create_patches (params m) me);
              GetApiKeys name true])).
Proof.
  split.
  - intros client m st args log msg Hb Hc Hu Hg.
    unfold ApiGwStage._update_stage, try_except, bind, invoke, ret.
    rewrite Hb, Hc. cbn [negb]. rewrite Hu, Hg. rewrite <- app_assoc. reflexivity.
  - intros client m me log id name msg Hp Hc Hid Hn Hu Hg.
    rewrite (update_api_key_applies client m me log id Hp Hc Hid Hu).
    set (patches := ApiGwApiKey._create_patches (params m) me) in *.
    set (l1 := log ++ [UpdateApiKey id patches]) in *.
    replace (log ++ [UpdateApiKey id patches; GetApiKeys name true])
      with (l1 ++ [GetApiKeys name true])
      by (unfold l1; rewrite <- app_assoc; reflexivity).
    clearbody l1 patches.
    unfold bind, ApiGwApiKey._retrieve_api_key, try_except, bind, getitem, invoke, ret.
    rewrite Hn. cbn. rewrite Hg. reflexivity.
Qed.

Lemma refetch_failure_after_applied_update_witness :
  ApiGwStage._update_stage
    (Fixtures.provider (inr (Some [])) (inl (BotoCoreError "timed out"))
       (inl Fixtures.not_found))
    (Fixtures.stage_put_test false) (Some Fixtures.dev_stage) [] =
  (FailJson "Error while updating stage via boto3: timed out",
   [] ++ [UpdateStage (PStr "api") (PStr "dev")
            [ {| op := "replace"; path := "/~1test/PUT/caching/enabled";
                 value := PStr "False" |} ];
          GetStage (PStr "api") (PStr "dev")]).
Proof.
  apply (proj1 refetch_failure_after_applied_update
           (Fixtures.provider (inr (Some [])) (inl (BotoCoreError "timed out"))
              (inl Fixtures.not_found))
           (Fixtures.stage_put_test false) (Some Fixtures.dev_stage)
           {| ApiGwStage.restApiId := PStr "api"; ApiGwStage.stageName := PStr "dev";
              ApiGwStage.patchOperations :=
                [ {| op := "replace"; path := "/~1test/PUT/caching/enabled";
                     value := PStr "False" |} ] |}
           [] "timed out"); reflexivity.
Defined.
